(** * Mesh models of neurophox: a shallow embedding of [neurophox/meshmodel.py]

    The file embeds the class [MeshModel] and its four subclasses
    ([RectangularMeshModel], [TriangularMeshModel], [ButterflyMeshModel],
    [PermutingRectangularMeshModel]) and proves properties of construction,
    of the tunable mask, and of the beamsplitter-error accessors.

    Conventions of the embedding:
    - Python [int] is [Z]; [//] is [Z.div] (both round towards minus infinity).
    - A numpy array is a record of its [shape] tuple and its flat row-major
      buffer; integer arrays hold [Z] (the values that occur, tunable counts
      and port indices, are far inside the [int32] range that [astype]
      targets, so the cast is the identity on them).
    - [float64] is Rocq's primitive binary64 float: sums, products and
      quotients are the IEEE 754 ones, with their infinities, signed zeros
      and NaN. [np.sin], [np.cos] and the generator behind [np.random] are
      parameters (class [NumPy]), taken without any law.
    - Exceptions are values of [exn]; a function that may raise returns
      [result A = exn + A].
    - The property accessors read [self] and the process-wide generator of
      [np.random]; both live in a [World] threaded by a state monad. *)

From Stdlib Require Import ZArith String List Lia Bool.
From Stdlib Require Floats.
From stdpp Require Import base list strings.

Set Warnings "-register-all".

(** ** Exceptions and fallible computations *)

Inductive exn : Type :=
| ValueError (msg : string)
| IndexError (msg : string)
| AttributeError (msg : string)
| TypeError (msg : string)
| OverflowError (msg : string).

Definition result (A : Type) : Type := (exn + A)%type.

Definition ret {A} (a : A) : result A := inr a.
Definition raise {A} (e : exn) : result A := inl e.

Definition bind {A B} (r : result A) (k : A -> result B) : result B :=
  match r with
  | inl e => inl e
  | inr a => k a
  end.

Notation "x <- r ;; k" := (bind r (fun x => k))
  (at level 100, r at next level, right associativity).

(** ** numpy arrays *)

Record ndarray (A : Type) : Type := NdArray {
  shape : list nat;
  data : list A
}.
Arguments NdArray {A} _ _.
Arguments shape {A} _.
Arguments data {A} _.

(** A well-formed array holds exactly as many items as its shape says. *)
Definition size_of (shp : list nat) : nat := foldr Nat.mul 1 shp.
Definition wf_array {A} (a : ndarray A) : Prop := length (data a) = size_of (shape a).

(** [a.shape[i]] for a non-negative literal [i]. *)
Definition shape_at {A} (a : ndarray A) (i : nat) : result Z :=
  match shape a !! i with
  | Some d => ret (Z.of_nat d)
  | None => raise (IndexError "tuple index out of range")
  end.

(** [np.zeros(dims)] / [np.ones(dims)]: a negative dimension is refused. *)
Definition np_full {A} (v : A) (dims : list Z) : result (ndarray A) :=
  if forallb (Z.leb 0) dims
  then ret (NdArray (Z.to_nat <$> dims) (replicate (size_of (Z.to_nat <$> dims)) v))
  else raise (ValueError "negative dimensions are not allowed").

(** Number of columns of a two-dimensional array. *)
Definition ncols {A} (a : ndarray A) : nat := default 0%nat (shape a !! 1%nat).

(** [a[l][k]] on a two-dimensional array, [None] when out of range. *)
Definition get2 {A} (a : ndarray A) (l k : nat) : option A :=
  if decide (k < ncols a)%nat then data a !! (l * ncols a + k)%nat else None.

(** The end of a Python slice [[:stop]] on a sequence of [len] items:
    a negative [stop] counts from the end, and both ends are clamped. *)
Definition slice_stop (stop : Z) (len : nat) : nat :=
  if (stop <? 0)%Z
  then Z.to_nat (Z.max 0 (stop + Z.of_nat len))
  else Z.to_nat (Z.min stop (Z.of_nat len)).

(** [a[layer][:stop] = v] on a two-dimensional array [a]. *)
Definition set_row_prefix {A} (a : ndarray A) (layer : nat) (stop : Z) (v : A) : ndarray A :=
  NdArray (shape a)
    (list_inserts (layer * ncols a) (replicate (slice_stop stop (ncols a)) v) (data a)).

(** [a[start::step] = v] on a one-dimensional array. *)
Definition set_strided {A} (start step : nat) (v : A) (l : list A) : list A :=
  imap (fun i x =>
          if decide (start <= i /\ (i - start) `mod` step = 0)%nat then v else x) l.

(** [np.arange(start, stop, step)] on integers ([step] not zero). *)
Definition arange (start stop step : Z) : list Z :=
  let n := if (0 <? step)%Z
           then Z.to_nat ((stop - start + step - 1) / step)
           else Z.to_nat ((start - stop - step - 1) / (- step)) in
  (fun i => start + Z.of_nat i * step)%Z <$> seq 0 n.

(** [np.hstack(arrays)] on one-dimensional arrays. *)
Definition np_hstack {A} (arrays : list (list A)) : result (list A) :=
  match arrays with
  | [] => raise (ValueError "need at least one array to concatenate")
  | _ => ret (concat arrays)
  end.

(** ** The numeric library: [float64] operations and [np.random] *)

Module Binary64.
Import PrimFloat.

Definition float : Set := PrimFloat.float.

(** The [float64] nearest to an integer (ties to even): what [float(n)]
    computes where it returns. Past the largest finite float the rounding
    gives an infinity. *)
Definition float_of_int (n : Z) : float :=
  FloatOps.SF2Prim (SpecFloat.binary_normalize FloatOps.prec FloatOps.emax n 0 false).

(** A Python [int] as the [float64] operand of an array product: the
    conversion raises [OverflowError] when the integer rounds past the
    largest finite float. *)
Definition float_of_pyint (n : Z) : option float :=
  let x := float_of_int n in
  if PrimFloat.is_infinity x then None else Some x.

Definition fadd : float -> float -> float := PrimFloat.add.
Definition fmul : float -> float -> float := PrimFloat.mul.
Definition fdiv : float -> float -> float := PrimFloat.div.

(** [np.pi] *)
Definition np_pi : float := 0x1.921fb54442d18p+1%float.

(** [x == 0.0]: true of both signed zeros. *)
Definition is_zero (x : float) : bool := PrimFloat.is_zero x.

(** Neither an infinity nor NaN. *)
Definition finite (x : float) : Prop :=
  match FloatOps.Prim2SF x with
  | SpecFloat.S754_zero _ | SpecFloat.S754_finite _ _ _ => True
  | _ => False
  end.
End Binary64.
Export Binary64.

Class NumPy : Type := {
  (** [np.sin] and [np.cos] on one [float64] *)
  fsin : float -> float;
  fcos : float -> float;
  (** state of the process-wide generator behind [np.random] *)
  RandomState : Type;
  (** [np.random.seed(s)]: the new state depends on [s] only *)
  random_seed : Z -> RandomState;
  (** one standard normal sample and the advanced state *)
  random_normal : RandomState -> float * RandomState
}.

Section Sampling.
Context `{NumPy}.

(** [n] samples in a row. *)
Fixpoint random_normals (n : nat) (st : RandomState) : list float * RandomState :=
  match n with
  | O => ([], st)
  | S n =>
      let (x, st1) := random_normal st in
      let (l, st2) := random_normals n st1 in
      (x :: l, st2)
  end.

(** [np.random.randn(d0, d1)] for dimensions that are not negative: a
    [d0 x d1] array of samples and the advanced state. *)
Definition random_randn (d0 d1 : Z) (st : RandomState) : ndarray float * RandomState :=
  let (l, st') := random_normals (Z.to_nat d0 * Z.to_nat d1) st in
  (NdArray [Z.to_nat d0; Z.to_nat d1] l, st').
End Sampling.

Section Arrays.
Context `{NumPy}.

(** Element-wise operations; the binary ones are used on operands of one
    shape only (see [mzi_error_matrices_shapes] below). *)
Definition np_map (f : float -> float) (a : ndarray float) : ndarray float :=
  NdArray (shape a) (f <$> data a).
Definition np_multiply (a b : ndarray float) : ndarray float :=
  NdArray (shape a) (zip_with fmul (data a) (data b)).
(** [a * x], [x * a] and [x + a] for a scalar [x] *)
Definition np_scale_r (a : ndarray float) (x : float) : ndarray float :=
  np_map (fun y => fmul y x) a.
Definition np_scale_l (x : float) (a : ndarray float) : ndarray float :=
  np_map (fmul x) a.
Definition np_add_l (x : float) (a : ndarray float) : ndarray float :=
  np_map (fadd x) a.
Definition np_sin : ndarray float -> ndarray float := np_map fsin.
Definition np_cos : ndarray float -> ndarray float := np_map fcos.

(** The Python values [bs_error] can hold. *)
Inductive PyObj : Type :=
| PyFloat (x : float)
| PyInt (n : Z)
| PyArray (a : ndarray float)
| PyTuple (items : list PyObj)
| PyNone
| PyStr (s : string).

(** [o.shape] *)
Definition py_shape (o : PyObj) : result (list nat) :=
  match o with
  | PyArray a => ret (shape a)
  | _ => raise (AttributeError "object has no attribute 'shape'")
  end.

(** [t[i]] on a tuple, for a non-negative literal [i] *)
Definition tuple_item (items : list PyObj) (i : nat) : result PyObj :=
  match items !! i with
  | Some o => ret o
  | None => raise (IndexError "tuple index out of range")
  end.

(** [a, b = t] on a tuple *)
Definition unpack2 (items : list PyObj) : result (PyObj * PyObj) :=
  match items with
  | [a; b] => ret (a, b)
  | _ :: _ :: _ :: _ => raise (ValueError "too many values to unpack (expected 2)")
  | _ => raise (ValueError "not enough values to unpack (expected 2)")
  end.
End Arrays.

(** ** The repository's other modules: [helpers], [initializers], [config]

    They are not part of this file; the mesh models only call them. *)

Class Helpers `{NumPy} : Type := {
  (** [config.TEST_SEED] and [config.BLOCH] *)
  TEST_SEED : Z;
  BLOCH : string;
  (** permutation providers of [helpers] *)
  grid_permutation : Z -> Z -> result (ndarray Z);
  butterfly_permutation : Z -> result (ndarray Z);
  prm_permutation : Z -> list Z -> list Z -> bool -> result (ndarray Z);
  (** block-sizing heuristics of [helpers]: [(block_sizes, sampling_frequencies)] *)
  get_efficient_coarse_grain_block_sizes : Z -> Z -> result (list Z * list Z);
  get_default_coarse_grain_block_sizes : Z -> result (list Z * list Z);
  (** [initializers]: the phase functions and the initializer objects. The
      two providers run arbitrary code of [initializers.py]: they may raise,
      and they may seed or draw from the generator of [np.random] (they are
      handed the [testing] flag), so they take its state and return it. *)
  PhaseFn : Type;
  MeshPhaseInitializer : Type;
  get_initializer :
    Z -> Z -> string -> bool -> bool -> RandomState ->
    result MeshPhaseInitializer * RandomState;
  PhaseInitializer :
    ndarray float -> Z -> RandomState -> result MeshPhaseInitializer * RandomState
}.

(** Modelled from the spec: [helpers.to_stripe_array] is not part of this
    file. The spec (section 6, Stripe Transform) says that
    [to_stripe_array(coefficient_matrix, units)] "expands an L x floor(N/2)
    array to L x N by port-duplication", each coefficient being laid out
    "across its device's two physical ports": slot [(l, p)] of the result is
    the coefficient [(l, p // 2)] of the device that port [p] belongs to.
    With an odd N the last port belongs to no device; it holds 0.0 here. *)
Definition to_stripe_array (a : ndarray float) (units : Z) : result (ndarray float) :=
  let rows := default 0%nat (shape a !! 0%nat) in
  let n := Z.to_nat units in
  ret (NdArray [rows; n]
         (mjoin ((fun l => (fun p => default (float_of_int 0) (get2 a l (p / 2)))
                             <$> seq 0 n)
                   <$> seq 0 rows))).

(** ** class MeshModel *)

Module MeshModel.
Section Defs.
Context `{Helpers}.

(** A phase initializer: a name or a literal array ... *)
Inductive PhaseInit : Type :=
| InitName (name : string)
| InitArray (a : ndarray float).

(** ... optionally given as a tuple [(init, fn)]. *)
Inductive PhaseArg : Type :=
| Plain (init : PhaseInit)
| WithFn (init : PhaseInit) (fn : PhaseFn).

(** [(x, None) if not isinstance(x, tuple) else x] *)
Definition split_phase_arg (x : PhaseArg) : PhaseInit * option PhaseFn :=
  match x with
  | Plain i => (i, None)
  | WithFn i fn => (i, Some fn)
  end.

Record t : Type := Build {
  units : Z;
  num_layers : Z;
  perm_idx : ndarray Z;
  num_tunable : list Z;
  hadamard : bool;
  bs_error : PyObj;
  testing : bool;
  use_different_errors : bool;
  mask : ndarray float;
  theta_init : PhaseInit;
  theta_fn : option PhaseFn;
  phi_init : PhaseInit;
  phi_fn : option PhaseFn;
  gamma_init : PhaseInit;
  gamma_fn : option PhaseFn;
  basis : string
}.

(** Lines 52-53: [for layer in range(num_layers):
    mask[layer][:int(num_tunable[layer])] = 1]. *)
Fixpoint mask_loop (num_tunable : list Z) (layers : list nat) (mask : ndarray float)
  : result (ndarray float) :=
  match layers with
  | [] => ret mask
  | layer :: rest =>
      match num_tunable !! layer with
      | None => raise (IndexError "index is out of bounds for axis 0")
      | Some n => mask_loop num_tunable rest (set_row_prefix mask layer n (float_of_int 1))
      end
  end.

(** Lines 34-57. The default of [num_tunable] is [units // 2] for every
    layer (a float array in the source; its entries are integral and only
    read through [int(...)]). *)
Definition __init__ (perm_idx : ndarray Z) (hadamard : bool)
    (num_tunable : option (list Z)) (bs_error : PyObj)
    (testing use_different_errors : bool)
    (theta_init phi_init gamma_init : PhaseArg) (basis : string) : result t :=
  units <- shape_at perm_idx 1 ;;
  rows <- shape_at perm_idx 0 ;;
  let num_layers := (rows - 1)%Z in
  num_tunable <-
    match num_tunable with
    | Some nt => ret nt
    | None => ones <- np_full 1%Z [num_layers] ;;
              ret ((fun x => (units / 2 * x)%Z) <$> data ones)
    end ;;
  mask <- np_full (float_of_int 0) [num_layers; (units / 2)%Z] ;;
  let (theta_init, theta_fn) := split_phase_arg theta_init in
  let (phi_init, phi_fn) := split_phase_arg phi_init in
  let (gamma_init, gamma_fn) := split_phase_arg gamma_init in
  mask <- mask_loop num_tunable (seq 0 (Z.to_nat num_layers)) mask ;;
  if decide (Z.of_nat (length num_tunable) <> num_layers)
  then raise (ValueError "num_mzis, perm_idx num_layers mismatch.")
  else if decide (units < 2)%Z
  then raise (ValueError "units must be at least 2.")
  else ret (Build units num_layers perm_idx num_tunable hadamard bs_error testing
              use_different_errors mask theta_init theta_fn phi_init phi_fn
              gamma_init gamma_fn basis).

(** *** The world the property accessors run in *)

Record World : Type := MkWorld {
  self : t;
  np_random : RandomState
}.

(** State over [World], with exceptions: the world survives a raise. *)
Definition M (A : Type) : Type := World -> result A * World.

Definition mret {A} (a : A) : M A := fun w => (ret a, w).
Definition mraise {A} (e : exn) : M A := fun w => (raise e, w).
Definition mbind {A B} (c : M A) (k : A -> M B) : M B :=
  fun w => match c w with
           | (inl e, w') => (inl e, w')
           | (inr a, w') => k a w'
           end.
Definition lift {A} (r : result A) : M A := fun w => (r, w).
Definition get_self : M t := fun w => (ret (self w), w).
(** [np.random.seed(s)] and [np.random.randn(d0, d1)] *)
Definition np_random_seed (s : Z) : M unit :=
  fun w => (ret tt, MkWorld (self w) (random_seed s)).
Definition np_random_randn (d0 d1 : Z) : M (ndarray float) :=
  fun w =>
    if decide (d0 < 0 \/ d1 < 0)%Z
    then (raise (ValueError "negative dimensions are not allowed"), w)
    else let (a, st) := random_randn d0 d1 (np_random w) in
         (ret a, MkWorld (self w) st).
(** A call into [initializers.py], which sees the generator only. *)
Definition call_provider {A} (p : RandomState -> result A * RandomState) : M A :=
  fun w => let (r, st) := p (np_random w) in (r, MkWorld (self w) st).
Definition when (b : bool) (c : M unit) : M unit := if b then c else mret tt.

Notation "x <~ c ;; k" := (mbind c (fun x => k))
  (at level 100, c at next level, right associativity).
Notation "c ;;; k" := (mbind c (fun _ => k))
  (at level 100, right associativity).

(** Lines 59-77: property [init]. *)
Definition resolve_init (self : t) (spec : PhaseInit) : M MeshPhaseInitializer :=
  match spec with
  | InitArray a => call_provider (PhaseInitializer a (units self))
  | InitName name =>
      call_provider
        (get_initializer (units self) (num_layers self) name (hadamard self)
           (testing self))
  end.

Definition init : M (MeshPhaseInitializer * MeshPhaseInitializer * MeshPhaseInitializer) :=
  self <~ get_self ;;
  theta_init <~ resolve_init self (theta_init self) ;;
  phi_init <~ resolve_init self (phi_init self) ;;
  gamma_init <~ resolve_init self (gamma_init self) ;;
  mret (theta_init, phi_init, gamma_init).

(** An [int] [bs_error] as the [float64] operand of the product of line
    90: the conversion raises beyond the [float64] range. *)
Definition int_operand (n : Z) : result float :=
  match float_of_pyint n with
  | Some x => ret x
  | None => raise (OverflowError "int too large to convert to float")
  end.

(** The scalar branch of [mzi_error_matrices] (lines 90-96): the samples
    are drawn first, then multiplied by the scalar. *)
Definition scalar_errors (self : t) (scalar : result float)
  : M (ndarray float * ndarray float) :=
  z <~ np_random_randn (num_layers self) (units self / 2)%Z ;;
  x <~ lift scalar ;;
  let e_l := np_scale_r z x in
  if use_different_errors self
  then
    when (testing self) (np_random_seed (TEST_SEED + 1)%Z) ;;;
    z' <~ np_random_randn (num_layers self) (units self / 2)%Z ;;
    mret (e_l, np_scale_r z' x)
  else mret (e_l, e_l).

(** Lines 79-107: property [mzi_error_matrices]. [self.mask] is assigned an
    array by [__init__], so the [None] alternative of line 88 is not
    reachable and [mask] is [self.mask]. *)
Definition mzi_error_matrices : M (ndarray float * ndarray float) :=
  self <~ get_self ;;
  when (testing self) (np_random_seed TEST_SEED) ;;;
  errs <~
    match bs_error self with
    | PyFloat x => scalar_errors self (ret x)
    | PyInt n => scalar_errors self (int_operand n)
    | PyArray a =>
        if decide (shape a <> shape (mask self))
        then mraise (AttributeError "bs_error.shape and mask.shape should be the same.")
        else mret (a, a)
    | PyTuple items =>
        b0 <~ lift (tuple_item items 0) ;;
        s0 <~ lift (py_shape b0) ;;
        mismatch <~
          (if decide (s0 <> shape (mask self)) then mret true
           else b1 <~ lift (tuple_item items 1) ;;
                s1 <~ lift (py_shape b1) ;;
                mret (bool_decide (s1 <> shape (mask self)))) ;;
        if mismatch : bool
        then mraise (AttributeError "bs_error.shape and mask.shape should be the same.")
        else
          p <~ lift (unpack2 items) ;;
          match p with
          | (PyArray e_l, PyArray e_r) => mret (e_l, e_r)
          | _ => (* not reachable: both items passed the [.shape] test *)
              mraise (TypeError "unsupported operand type(s) for *")
          end
    | _ => mraise (TypeError "bs_error must be float, ndarray or (ndarray, ndarray).")
    end ;;
  mret (np_multiply (fst errs) (mask self), np_multiply (snd errs) (mask self)).

(** Lines 109-118: property [mzi_error_tensors]. *)
Definition stripe2 (self : t) (a : ndarray float) : result (ndarray float) :=
  s <- to_stripe_array a (units self) ;;
  ret (np_scale_l (float_of_int 2) s).

Definition pi_4_plus (e : ndarray float) : ndarray float :=
  np_add_l (fdiv np_pi (float_of_int 4)) e.

Definition mzi_error_tensors
  : M (ndarray float * ndarray float * ndarray float * ndarray float) :=
  errs <~ mzi_error_matrices ;;
  let (e_l, e_r) := errs : ndarray float * ndarray float in
  self <~ get_self ;;
  cc <~ lift (stripe2 self (np_multiply (np_cos (pi_4_plus e_l)) (np_cos (pi_4_plus e_r)))) ;;
  cs <~ lift (stripe2 self (np_multiply (np_cos (pi_4_plus e_l)) (np_sin (pi_4_plus e_r)))) ;;
  sc <~ lift (stripe2 self (np_multiply (np_sin (pi_4_plus e_l)) (np_cos (pi_4_plus e_r)))) ;;
  ss <~ lift (stripe2 self (np_multiply (np_sin (pi_4_plus e_l)) (np_sin (pi_4_plus e_r)))) ;;
  mret (ss, cs, sc, cc).
End Defs.
End MeshModel.

(** ** The topology variants *)

(** Truth value of an optional integer argument ([None] and [0] are false). *)
Definition truthy (n : option Z) : bool :=
  match n with
  | Some n => negb (n =? 0)%Z
  | None => false
  end.

(** [(np.ones((n,)) * units // 2).astype(np.int32)] followed by
    [[1::2] = (units - 1) // 2]: the tunable counts of [n] consecutive
    layers of a rectangular grid. *)
Definition alternating_num_mzis (units n : Z) : result (list Z) :=
  ones <- np_full 1%Z [n] ;;
  let num_mzis := (fun x => (x * units / 2)%Z) <$> data ones in
  ret (set_strided 1 2 ((units - 1) / 2)%Z num_mzis).

Module RectangularMeshModel.
Section Defs.
Context `{Helpers}.

(** Line 145: [num_layers if num_layers else units]. *)
Definition resolve_num_layers (units : Z) (num_layers : option Z) : Z :=
  if truthy num_layers then default 0%Z num_layers else units.

(** Lines 141-156. *)
Definition __init__ (units : Z) (num_layers : option Z) (hadamard : bool)
    (bs_error : PyObj) (basis : string)
    (theta_init phi_init gamma_init : MeshModel.PhaseArg) : result MeshModel.t :=
  let num_layers := resolve_num_layers units num_layers in
  perm_idx <- grid_permutation units num_layers ;;
  num_mzis <- alternating_num_mzis units num_layers ;;
  MeshModel.__init__ perm_idx hadamard (Some num_mzis) bs_error false false
    theta_init phi_init gamma_init basis.
End Defs.
End RectangularMeshModel.

Module TriangularMeshModel.
Section Defs.
Context `{Helpers}.

(** Line 183. *)
Definition num_mzis (units : Z) : result (list Z) :=
  v <- np_hstack [arange 1 units 1; arange (units - 2) 0 (-1)] ;;
  ret ((fun x => ((x + 1) / 2)%Z) <$> v).

(** Lines 178-191. *)
Definition __init__ (units : Z) (hadamard : bool) (bs_error : PyObj) (basis : string)
    (theta_init phi_init gamma_init : MeshModel.PhaseArg) : result MeshModel.t :=
  perm_idx <- grid_permutation units (2 * units - 3)%Z ;;
  num_mzis <- num_mzis units ;;
  MeshModel.__init__ perm_idx hadamard (Some num_mzis) bs_error false false
    theta_init phi_init gamma_init basis.
End Defs.
End TriangularMeshModel.

Module ButterflyMeshModel.
Section Defs.
Context `{Helpers}.

(** Lines 213-224. *)
Definition __init__ (num_layers : Z) (hadamard : bool) (bs_error : PyObj) (basis : string)
    (theta_init phi_init gamma_init : MeshModel.PhaseArg) : result MeshModel.t :=
  perm_idx <- butterfly_permutation num_layers ;;
  MeshModel.__init__ perm_idx hadamard None bs_error false false
    theta_init phi_init gamma_init basis.
End Defs.
End ButterflyMeshModel.

Module PermutingRectangularMeshModel.
Section Defs.
Context `{Helpers}.

Record t : Type := Build {
  block_sizes : list Z;
  sampling_frequencies : list Z;
  base : MeshModel.t
}.

(** Lines 251-259: which block sizes and sampling frequencies are used. *)
Definition resolve_blocks (units : Z) (tunable_layers_per_block : option Z)
    (num_tunable_layers_list sampling_frequencies : option (list Z))
  : result (list Z * list Z) :=
  match tunable_layers_per_block with
  | Some n => get_efficient_coarse_grain_block_sizes units n
  | None =>
      match sampling_frequencies, num_tunable_layers_list with
      | Some sf, Some l => ret (l, sf)
      | _, _ => get_default_coarse_grain_block_sizes units
      end
  end.

(** Lines 261-264: the loop over the blocks, appending to [num_mzis_list]. *)
Fixpoint num_mzis_loop (units : Z) (block_sizes : list Z) (num_mzis_list : list (list Z))
  : result (list (list Z)) :=
  match block_sizes with
  | [] => ret num_mzis_list
  | block_size :: rest =>
      counts <- alternating_num_mzis units block_size ;;
      num_mzis_loop units rest (num_mzis_list ++ [counts])
  end.

(** Lines 261-265. *)
Definition num_mzis (units : Z) (block_sizes : list Z) : result (list Z) :=
  num_mzis_list <- num_mzis_loop units block_sizes [] ;;
  np_hstack num_mzis_list.

(** Lines 245-276. *)
Definition __init__ (units : Z) (tunable_layers_per_block : option Z)
    (num_tunable_layers_list sampling_frequencies : option (list Z))
    (bs_error : PyObj) (hadamard : bool)
    (theta_init phi_init gamma_init : MeshModel.PhaseArg) : result t :=
  blocks <- resolve_blocks units tunable_layers_per_block num_tunable_layers_list
              sampling_frequencies ;;
  let (block_sizes, sampling_frequencies) := blocks : list Z * list Z in
  num_mzis <- num_mzis units block_sizes ;;
  perm_idx <- prm_permutation units block_sizes sampling_frequencies false ;;
  base <- MeshModel.__init__ perm_idx hadamard (Some num_mzis) bs_error false false
            theta_init phi_init gamma_init BLOCH ;;
  ret (Build block_sizes sampling_frequencies base).
End Defs.
End PermutingRectangularMeshModel.

(** ** Accesses to a constructed model *)

(** The operations a caller has on a constructed [MeshModel]: reading one of
    its three properties. [access_step] is the world after the access
    (whether it returned or raised). *)
Inductive access : Type :=
| ReadInit
| ReadErrorMatrices
| ReadErrorTensors.

Definition access_step `{Helpers} (a : access) (w : MeshModel.World) : MeshModel.World :=
  match a with
  | ReadInit => snd (MeshModel.init w)
  | ReadErrorMatrices => snd (MeshModel.mzi_error_matrices w)
  | ReadErrorTensors => snd (MeshModel.mzi_error_tensors w)
  end.

Definition access_run `{Helpers} (l : list access) (w : MeshModel.World) : MeshModel.World :=
  foldl (fun w a => access_step a w) w l.

(** ** A concrete interpretation, to run the model

    The identity stands for [np.sin], [1 - x] for [np.cos], a counter for
    the generator (the sample drawn in state [s] is the float of
    [s mod 16]), and
    simple total functions for the helpers: enough to evaluate every
    definition above on concrete inputs. The general theorems do not depend
    on it; it serves the runs on concrete meshes. *)

Definition sample_numpy : NumPy := {|
  fsin := fun x => x;
  fcos := fun x => PrimFloat.sub (float_of_int 1) x;
  RandomState := Z;
  random_seed := fun s => s;
  random_normal := fun st => (float_of_int (st `mod` 16), (st + 1)%Z)
|}.

(** An array of the given shape whose rows all read [0, 1, ..., cols-1]. *)
Definition identity_rows (rows cols : Z) : result (ndarray Z) :=
  if decide (0 <= rows /\ 0 <= cols)%Z
  then ret (NdArray [Z.to_nat rows; Z.to_nat cols]
              (mjoin (replicate (Z.to_nat rows) (Z.of_nat <$> seq 0 (Z.to_nat cols)))))
  else raise (ValueError "negative dimensions are not allowed").

Definition sum_list_Z (l : list Z) : Z := foldr Z.add 0%Z l.

Definition simple_helpers : @Helpers sample_numpy :=
  @Build_Helpers sample_numpy
    (* TEST_SEED, BLOCH *)
    31415%Z "bloch"
    (* grid_permutation, butterfly_permutation, prm_permutation *)
    (fun units num_layers => identity_rows (num_layers + 1) units)
    (fun num_layers => identity_rows (num_layers + 1) (2 ^ num_layers))
    (fun units block_sizes _ _ => identity_rows (sum_list_Z block_sizes + 1) units)
    (* get_efficient_coarse_grain_block_sizes, get_default_coarse_grain_block_sizes *)
    (fun units n => ret ([n; n], [1%Z]))
    (fun units => ret ([units], []))
    (* PhaseFn, MeshPhaseInitializer, get_initializer, PhaseInitializer *)
    unit string
    (fun _ _ name _ testing st => (ret name, if testing : bool then 0%Z else st))
    (fun _ _ st => (ret "literal"%string, st)).

(** [MeshModel(perm_idx, num_tunable=..., bs_error=..., testing=...,
    use_different_errors=...)] under the concrete interpretation, the other
    arguments at their defaults. *)
Definition sample_model (perm_idx : ndarray Z) (num_tunable : option (list Z))
    (bs_error : PyObj) (testing use_different_errors : bool)
  : result (@MeshModel.t sample_numpy simple_helpers) :=
  @MeshModel.__init__ sample_numpy simple_helpers perm_idx false num_tunable bs_error
    testing use_different_errors
    (MeshModel.Plain (MeshModel.InitName "random_theta"))
    (MeshModel.Plain (MeshModel.InitName "random_phi"))
    (MeshModel.Plain (MeshModel.InitName "random_gamma"))
    (@BLOCH sample_numpy simple_helpers).

(** A 2 x 2 error array, the shape of the mask of a two-layer mesh of four
    units. *)
Definition sample_errors : ndarray float :=
  NdArray [2; 2] (float_of_int <$> [1%Z; 2%Z; 3%Z; 4%Z]).


(** A phase argument given by name, under the concrete interpretation. *)
Definition named_phase (name : string) : @MeshModel.PhaseArg sample_numpy simple_helpers :=
  MeshModel.Plain (MeshModel.InitName name).

(** ** Vocabulary of the statements *)

(** The exceptions of [MeshModel.__init__]: the one numpy raises on
    [num_tunable[layer]] out of range, and the two of lines 55 and 57. *)
Definition index_error : exn := IndexError "index is out of bounds for axis 0".
Definition mismatch_error : exn := ValueError "num_mzis, perm_idx num_layers mismatch.".
Definition units_error : exn := ValueError "units must be at least 2.".

(** The exceptions of [mzi_error_matrices] (lines 99, 103 and 106). *)
Definition shape_error : exn :=
  AttributeError "bs_error.shape and mask.shape should be the same.".
Definition bs_type_error : exn :=
  TypeError "bs_error must be float, ndarray or (ndarray, ndarray).".

(** A validation error of construction is one of the two [ValueError]s that
    [__init__] raises itself. *)
Definition is_validation_error (e : exn) : Prop :=
  e = mismatch_error \/ e = units_error.

(** A computation that leaves the model object as it found it. *)
Definition frames_self `{Helpers} {A} (c : MeshModel.M A) : Prop :=
  forall w, MeshModel.self (c w).2 = MeshModel.self w.

(** An all-zero integer array, as a stand-in for a permutation array of a
    given shape. *)
Definition zeros_perm (rows cols : nat) : ndarray Z :=
  NdArray [rows; cols] (replicate (rows * cols) 0%Z).

(** The generator state once lines 86-87 have run. *)
Definition reseeded `{Helpers} (m : MeshModel.t) (st : RandomState) : RandomState :=
  if MeshModel.testing m then random_seed TEST_SEED else st.

(** [bs_error] is a Python scalar ([float] or [int]). *)
Definition is_scalar `{NumPy} (o : PyObj) : Prop :=
  match o with
  | PyFloat _ | PyInt _ => True
  | _ => False
  end.

Definition is_tuple `{NumPy} (o : PyObj) : Prop :=
  match o with
  | PyTuple _ => True
  | _ => False
  end.

Definition is_array `{NumPy} (o : PyObj) : Prop :=
  match o with
  | PyArray _ => True
  | _ => False
  end.

(** The scalar [bs_error] as the float it multiplies the samples with: a
    float itself, an [int] converted when it is within the [float64] range. *)
Definition scalar_value `{NumPy} (o : PyObj) : option float :=
  match o with
  | PyFloat x => Some x
  | PyInt n => float_of_pyint n
  | _ => None
  end.

(** The dimensions [randn] is called with are not negative, as on every
    constructed model. *)
Definition valid_dims `{Helpers} (m : MeshModel.t) : Prop :=
  (0 <= MeshModel.num_layers m)%Z /\ (0 <= MeshModel.units m / 2)%Z.

(** The exceptions of the scalar branch (line 90). *)
Definition overflow_error : exn := OverflowError "int too large to convert to float".
Definition negative_dims_error : exn := ValueError "negative dimensions are not allowed".

(** The error array drawn right after seeding with [seed]: the samples of
    [randn(num_layers, units // 2)] times the scalar, times the mask. *)
Definition seeded_errors `{Helpers} (m : MeshModel.t) (seed : Z) (x : float)
  : ndarray float :=
  np_multiply
    (np_scale_r
       (random_randn (MeshModel.num_layers m) (MeshModel.units m / 2)%Z
          (random_seed seed)).1 x)
    (MeshModel.mask m).

(** The coefficient array [f(pi/4 + e_l) * g(pi/4 + e_r)], slot by slot. *)
Definition coefficient `{NumPy} (f g : float -> float) (e_l e_r : ndarray float)
  : ndarray float :=
  NdArray (shape e_l)
    (zip_with (fun x y => fmul (f (fadd (fdiv np_pi (float_of_int 4)) x))
                               (g (fadd (fdiv np_pi (float_of_int 4)) y)))
       (data e_l) (data e_r)).

(** Twice an array, slot by slot. *)
Definition twice `{NumPy} (a : ndarray float) : ndarray float :=
  NdArray (shape a) ((fun x => fmul (float_of_int 2) x) <$> data a).

(** The contract of [np.random.randn] on its shape. *)
Definition randn_shape_contract `{NumPy} : Prop :=
  forall d0 d1 st, (0 <= d0)%Z -> (0 <= d1)%Z ->
    shape (random_randn d0 d1 st).1 = [Z.to_nat d0; Z.to_nat d1].

(** A model that [MeshModel.__init__] returned on [perm_idx], whatever the
    other arguments were. *)
Definition constructed_from `{Helpers} (perm_idx : ndarray Z) (m : MeshModel.t) : Prop :=
  exists hadamard num_tunable bs_error testing different th ph ga basis,
    MeshModel.__init__ perm_idx hadamard num_tunable bs_error testing different
      th ph ga basis = ret m.

(** The alternating policy of a rectangular grid, in the words of the
    specification: [n] counts, [units // 2] at the even positions and
    [(units - 1) // 2] at the odd ones. *)
Definition alternating_policy (units : Z) (n : nat) : list Z :=
  (fun i => if Nat.even i then (units / 2)%Z else ((units - 1) / 2)%Z) <$> seq 0 n.

(** The counts of one block of a permuting rectangular mesh: the
    alternating policy over as many layers as the block has. *)
Definition block_policy (units block_size : Z) : list Z :=
  alternating_policy units (Z.to_nat block_size).

(** The profile of a triangular mesh, in the words of the specification:
    [1, 2, ..., units - 1, units - 2, ..., 1], read at the 0-based layer [l]. *)
Definition triangle_profile (units l : Z) : Z :=
  if decide (l < units - 1)%Z then (l + 1)%Z else (2 * units - 3 - l)%Z.

(** [c] is the ceiling of [v / 2]. *)
Definition is_ceil_half (v c : Z) : Prop := (v <= 2 * c < v + 2)%Z.

(** The layer count of a rectangular mesh in the words of the amended
    specification: the [num_layers] given, unless it is absent or zero. *)
Definition requested_layers (units : Z) (num_layers : option Z) : Z :=
  match num_layers with
  | Some n => if decide (n = 0)%Z then units else n
  | None => units
  end.

(** A base model built by one of the four topology variants. *)
Definition built_by_variant `{Helpers} (m : MeshModel.t) : Prop :=
  (exists units num_layers hadamard bs_error basis th ph ga,
      RectangularMeshModel.__init__ units num_layers hadamard bs_error basis th ph ga
      = ret m)
  \/ (exists units hadamard bs_error basis th ph ga,
      TriangularMeshModel.__init__ units hadamard bs_error basis th ph ga = ret m)
  \/ (exists num_layers hadamard bs_error basis th ph ga,
      ButterflyMeshModel.__init__ num_layers hadamard bs_error basis th ph ga = ret m)
  \/ (exists units per_block layers_list freqs bs_error hadamard th ph ga p,
      PermutingRectangularMeshModel.__init__ units per_block layers_list freqs
        bs_error hadamard th ph ga = ret p
      /\ PermutingRectangularMeshModel.base p = m).

(** The number of tunable devices of a mesh: the sum of its counts. *)
Definition total_tunable `{Helpers} (m : MeshModel.t) : Z :=
  sum_list_Z (MeshModel.num_tunable m).

(** The initializer part of a phase argument, without its function. *)
Definition phase_init `{Helpers} (x : MeshModel.PhaseArg) : MeshModel.PhaseInit :=
  (MeshModel.split_phase_arg x).1.

(** * Properties *)

#[local] Arguments Nat.div : simpl never.
#[local] Arguments Nat.modulo : simpl never.
#[local] Arguments Z.div : simpl never.
#[local] Arguments Z.mul : simpl never.

(** ** Products of [float64] *)

Section Binary64Facts.

Lemma SFmul_comm x y :
  SpecFloat.SFmul FloatOps.prec FloatOps.emax x y
  = SpecFloat.SFmul FloatOps.prec FloatOps.emax y x.
Proof.
  destruct x as [sx|sx| |sx mx ex], y as [sy|sy| |sy my ey]; simpl;
    try reflexivity; try (f_equal; apply xorb_comm).
  rewrite xorb_comm, Pos.mul_comm, Z.add_comm. reflexivity.
Qed.

Lemma fmul_comm (x y : float) : fmul x y = fmul y x.
Proof.
  unfold fmul.
  rewrite <- (FloatAxioms.SF2Prim_Prim2SF (PrimFloat.mul x y)),
    <- (FloatAxioms.SF2Prim_Prim2SF (PrimFloat.mul y x)).
  rewrite !FloatAxioms.mul_spec. unfold FloatAxioms.SF64mul. by rewrite SFmul_comm.
Qed.

(** A finite float times a zero is a zero (of either sign). *)
Lemma fmul_zero_r (a b : float) :
  finite a -> is_zero b = true -> is_zero (fmul a b) = true.
Proof.
  unfold finite, is_zero, fmul, PrimFloat.is_zero.
  rewrite !FloatAxioms.eqb_spec, FloatAxioms.mul_spec.
  change (FloatOps.Prim2SF PrimFloat.zero) with (SpecFloat.S754_zero false).
  destruct (FloatOps.Prim2SF a) as [sa|sa| |sa ma ea],
      (FloatOps.Prim2SF b) as [[|]|[|]| |[|] mb eb];
    intros Ha Hb; try (exfalso; exact Ha); try discriminate Hb;
    destruct sa; reflexivity.
Qed.

Lemma fmul_zero_l (a b : float) :
  is_zero a = true -> finite b -> is_zero (fmul a b) = true.
Proof. intros Ha Hb. rewrite fmul_comm. by apply fmul_zero_r. Qed.

Lemma is_zero_finite (a : float) : is_zero a = true -> finite a.
Proof.
  unfold finite, is_zero, PrimFloat.is_zero. rewrite FloatAxioms.eqb_spec.
  change (FloatOps.Prim2SF PrimFloat.zero) with (SpecFloat.S754_zero false).
  destruct (FloatOps.Prim2SF a) as [sa|[|]| |[|] ma ea]; intros Hz;
    try discriminate Hz; exact I.
Qed.
End Binary64Facts.

(** ** Arrays *)

Section ArrayFacts.
Context {A : Type}.
Implicit Types (a : ndarray A) (v : A).

Lemma slice_stop_le stop len : slice_stop stop len <= len.
Proof. unfold slice_stop. destruct (stop <? 0)%Z eqn:E; lia. Qed.

Lemma slice_stop_nonneg stop len k :
  (0 <= stop)%Z -> k < len -> (k < slice_stop stop len <-> (Z.of_nat k < stop)%Z).
Proof.
  intros Hs Hk. unfold slice_stop.
  destruct (stop <? 0)%Z eqn:E; [apply Z.ltb_lt in E; lia|]. lia.
Qed.

Lemma ncols_shape2 a R C : shape a = [R; C] -> ncols a = C.
Proof. unfold ncols. intros ->. reflexivity. Qed.

Lemma set_row_prefix_shape a layer stop v :
  shape (set_row_prefix a layer stop v) = shape a.
Proof. reflexivity. Qed.

Lemma set_row_prefix_length a layer stop v :
  length (data (set_row_prefix a layer stop v)) = length (data a).
Proof. simpl. apply length_inserts. Qed.

(** Reading a slot after [a[layer][:stop] = v]. *)
Lemma get2_set_row_prefix a R C layer stop v l k :
  shape a = [R; C] -> length (data a) = R * C -> layer < R -> k < C ->
  get2 (set_row_prefix a layer stop v) l k =
    if decide (l = layer /\ k < slice_stop stop C) then Some v else get2 a l k.
Proof.
  intros Hs Hlen Hlayer Hk.
  unfold get2. rewrite (ncols_shape2 (set_row_prefix a layer stop v) R C) by done.
  rewrite (ncols_shape2 a R C) by done.
  destruct (decide (k < C)) as [_|]; [|lia].
  simpl. rewrite (ncols_shape2 a R C) by done.
  pose proof (slice_stop_le stop C) as Hle.
  destruct (decide (l = layer /\ k < slice_stop stop C)) as [[-> Hlt]|Hno].
  - rewrite list_lookup_inserts.
    + replace (layer * C + k - layer * C) with k by lia.
      by apply lookup_replicate_2.
    + rewrite length_replicate. lia.
    + rewrite Hlen. nia.
  - destruct (decide (l < layer)) as [Hl|Hl].
    + apply list_lookup_inserts_lt. nia.
    + apply list_lookup_inserts_ge. rewrite length_replicate.
      destruct (decide (l = layer)) as [->|Hne]; [lia | nia].
Qed.

Lemma np_full_ok v (dims : list Z) :
  Forall (fun d => 0 <= d)%Z dims ->
  np_full v dims =
    ret (NdArray (Z.to_nat <$> dims) (replicate (size_of (Z.to_nat <$> dims)) v)).
Proof.
  intros Hd. unfold np_full.
  replace (forallb (Z.leb 0) dims) with true; [done|].
  symmetry. apply forallb_forall. intros x Hx.
  rewrite Forall_forall in Hd. apply Z.leb_le, Hd. by apply list_elem_of_In.
Qed.

Lemma np_full_neg v (dims : list Z) d :
  d ∈ dims -> (d < 0)%Z ->
  np_full v dims = raise (ValueError "negative dimensions are not allowed").
Proof.
  intros Hin Hd. unfold np_full.
  destruct (forallb (Z.leb 0) dims) eqn:E; [|done].
  rewrite forallb_forall in E. apply list_elem_of_In, E, Z.leb_le in Hin. lia.
Qed.

Lemma get2_full v R C l k :
  l < R -> k < C -> get2 (NdArray [R; C] (replicate (R * C) v)) l k = Some v.
Proof.
  intros Hl Hk. unfold get2, ncols. simpl.
  destruct (decide (k < C)); [|lia]. apply lookup_replicate_2. nia.
Qed.
End ArrayFacts.

(** ** Construction of a [MeshModel] *)

Section Construction.
Context `{Helpers}.
Import MeshModel.

(** The loop raises as soon as it reaches a layer that [num_tunable] lacks. *)
Lemma mask_loop_short nt : forall n a mask,
  a <= length nt < a + n ->
  mask_loop nt (seq a n) mask = raise index_error.
Proof.
  induction n as [|n IH]; intros a mask Hlen; [lia|].
  simpl. destruct (nt !! a) as [t|] eqn:E.
  - apply IH. apply lookup_lt_Some in E. lia.
  - reflexivity.
Qed.

(** It returns when every layer has a count ... *)
Lemma mask_loop_returns nt : forall n a mask,
  a + n <= length nt -> exists mask', mask_loop nt (seq a n) mask = ret mask'.
Proof.
  induction n as [|n IH]; intros a mask Hlen; [by eexists|].
  simpl. destruct (lookup_lt_is_Some_2 nt a) as [t ->]; [lia|].
  apply IH. lia.
Qed.

(** ... and then row [l] of the visited range has its first
    [slice_stop nt[l]] slots set to one, every other slot being as before. *)
Lemma mask_loop_get2 nt R C : forall n a mask mask',
  shape mask = [R; C] -> length (data mask) = R * C -> a + n <= R ->
  mask_loop nt (seq a n) mask = ret mask' ->
  shape mask' = [R; C] /\ length (data mask') = R * C /\
  forall l k, k < C ->
    get2 mask' l k =
      match nt !! l with
      | Some t =>
          if decide (a <= l < a + n /\ k < slice_stop t C)
          then Some (float_of_int 1) else get2 mask l k
      | None => get2 mask l k
      end.
Proof.
  induction n as [|n IH]; intros a mask mask' Hs Hlen Hr Hloop.
  - injection Hloop as <-. repeat split; try done.
    intros l k Hk. destruct (nt !! l); [|done].
    destruct (decide _) as [[? _]|]; [lia|done].
  - simpl in Hloop. destruct (nt !! a) as [t|] eqn:Ea; [|done].
    apply IH in Hloop as (Hs' & Hlen' & Hget);
      [| done | by rewrite set_row_prefix_length | lia].
    repeat split; try done.
    intros l k Hk. rewrite Hget by done.
    rewrite (get2_set_row_prefix mask R C) by (done || lia).
    destruct (nt !! l) as [tl|] eqn:El.
    + destruct (decide (S a <= l < S a + n /\ k < slice_stop tl C)) as [[? ?]|Hno].
      * destruct (decide _) as [|Hc]; [done | exfalso; apply Hc; lia].
      * destruct (decide (l = a /\ k < slice_stop t C)) as [[-> ?]|Hno'].
        -- assert (tl = t) as -> by congruence.
           destruct (decide _) as [|Hc]; [done | exfalso; apply Hc; lia].
        -- destruct (decide _) as [[? ?]|]; [|done].
           exfalso. destruct (decide (l = a)) as [->|].
           ++ assert (tl = t) as -> by congruence. tauto.
           ++ apply Hno. lia.
    + destruct (decide _) as [[-> _]|]; [congruence | done].
Qed.

(** [__init__] on a two-dimensional [perm_idx] with an explicit
    [num_tunable], up to the mask loop. *)
Lemma init_unfold perm_idx L N hadamard nt bs_error testing different th ph ga basis :
  shape perm_idx = [S L; N] ->
  __init__ perm_idx hadamard (Some nt) bs_error testing different th ph ga basis =
    (mask <- mask_loop nt (seq 0 L)
               (NdArray [L; N / 2] (replicate (L * (N / 2)) (float_of_int 0))) ;;
     if decide (Z.of_nat (length nt) <> Z.of_nat L)
     then raise mismatch_error
     else if decide (Z.of_nat N < 2)%Z
     then raise units_error
     else ret (Build (Z.of_nat N) (Z.of_nat L) perm_idx nt hadamard bs_error testing
                 different mask (split_phase_arg th).1 (split_phase_arg th).2
                 (split_phase_arg ph).1 (split_phase_arg ph).2
                 (split_phase_arg ga).1 (split_phase_arg ga).2 basis)).
Proof.
  intros Hs. unfold __init__, shape_at. rewrite Hs. simpl.
  replace (Z.of_nat (S L) - 1)%Z with (Z.of_nat L) by lia.
  rewrite np_full_ok.
  2:{ repeat constructor; [lia | apply Z.div_pos; lia]. }
  simpl. rewrite Nat2Z.id.
  replace (Z.to_nat (Z.of_nat N / 2)) with (N / 2).
  2:{ change 2%Z with (Z.of_nat 2). rewrite <- Nat2Z.inj_div. by rewrite Nat2Z.id. }
  replace (N / 2 * 1) with (N / 2) by lia.
  destruct (split_phase_arg th), (split_phase_arg ph), (split_phase_arg ga).
  reflexivity.
Qed.

(** The four outcomes of construction, by the length of [num_tunable]. *)
Lemma init_short perm_idx L N hadamard nt bs_error testing different th ph ga basis :
  shape perm_idx = [S L; N] -> length nt < L ->
  __init__ perm_idx hadamard (Some nt) bs_error testing different th ph ga basis
    = raise index_error.
Proof.
  intros Hs Hlen. rewrite (init_unfold _ L N) by done.
  rewrite mask_loop_short by lia. reflexivity.
Qed.

Lemma init_long perm_idx L N hadamard nt bs_error testing different th ph ga basis :
  shape perm_idx = [S L; N] -> L < length nt ->
  __init__ perm_idx hadamard (Some nt) bs_error testing different th ph ga basis
    = raise mismatch_error.
Proof.
  intros Hs Hlen. rewrite (init_unfold _ L N) by done.
  destruct (mask_loop_returns nt L 0
              (NdArray [L; N / 2] (replicate (L * (N / 2)) (float_of_int 0))))
    as [mask' ->]; [lia|].
  simpl. destruct (decide _) as [|Hc]; [done | exfalso; apply Hc; lia].
Qed.

Lemma init_few_units perm_idx L N hadamard nt bs_error testing different th ph ga basis :
  shape perm_idx = [S L; N] -> length nt = L -> N < 2 ->
  __init__ perm_idx hadamard (Some nt) bs_error testing different th ph ga basis
    = raise units_error.
Proof.
  intros Hs Hlen HN. rewrite (init_unfold _ L N) by done.
  destruct (mask_loop_returns nt L 0
              (NdArray [L; N / 2] (replicate (L * (N / 2)) (float_of_int 0))))
    as [mask' ->]; [lia|].
  simpl. destruct (decide _) as [Hc|]; [lia|].
  destruct (decide _) as [|Hc]; [done | lia].
Qed.

Lemma init_returns perm_idx L N hadamard nt bs_error testing different th ph ga basis :
  shape perm_idx = [S L; N] -> length nt = L -> 2 <= N ->
  exists m,
    __init__ perm_idx hadamard (Some nt) bs_error testing different th ph ga basis = ret m.
Proof.
  intros Hs Hlen HN. rewrite (init_unfold _ L N) by done.
  destruct (mask_loop_returns nt L 0
              (NdArray [L; N / 2] (replicate (L * (N / 2)) (float_of_int 0))))
    as [mask' ->]; [lia|].
  simpl. destruct (decide _) as [Hc|]; [lia|].
  destruct (decide _) as [|Hc]; [lia | by eexists].
Qed.

(** What a successful construction stores. *)
Lemma init_inv perm_idx L N hadamard nt bs_error testing different th ph ga basis m :
  shape perm_idx = [S L; N] ->
  __init__ perm_idx hadamard (Some nt) bs_error testing different th ph ga basis = ret m ->
  length nt = L /\ 2 <= N /\
  units m = Z.of_nat N /\ num_layers m = Z.of_nat L /\ num_tunable m = nt /\
  MeshModel.bs_error m = bs_error /\ MeshModel.testing m = testing /\
  use_different_errors m = different /\
  shape (mask m) = [L; N / 2] /\ length (data (mask m)) = L * (N / 2) /\
  forall l t k, nt !! l = Some t -> k < N / 2 ->
    get2 (mask m) l k =
      Some (if decide (k < slice_stop t (N / 2)) then float_of_int 1 else float_of_int 0).
Proof.
  intros Hs Hinit. rewrite (init_unfold _ L N) in Hinit by done.
  destruct (mask_loop nt (seq 0 L) _) as [e|mask'] eqn:Eloop; [done|].
  simpl in Hinit.
  destruct (decide _) as [|Hlen]; [done|].
  destruct (decide _) as [|HN]; [done|].
  injection Hinit as <-. simpl.
  apply (mask_loop_get2 nt L (N / 2)) in Eloop as (Hs' & Hlen' & Hget);
    [| done | simpl; by rewrite length_replicate | lia].
  assert (length nt = L) as Hl by lia.
  repeat split; try done; try lia.
  intros l t k Hl' Hk. rewrite Hget by done. rewrite Hl'.
  pose proof (lookup_lt_Some _ _ _ Hl') as Hlt.
  destruct (decide (0 <= l < 0 + L /\ k < slice_stop t (N / 2))) as [[_ ?]|Hno].
  - destruct (decide _); [done | lia].
  - destruct (decide _) as [|_]; [exfalso; apply Hno; lia|].
    apply get2_full; lia.
Qed.
(** With [num_tunable] omitted the constructor runs as with [units // 2]
    for every layer. *)
Lemma init_default perm_idx L N hadamard bs_error testing different th ph ga basis :
  shape perm_idx = [S L; N] ->
  __init__ perm_idx hadamard None bs_error testing different th ph ga basis
  = __init__ perm_idx hadamard (Some (replicate L (Z.of_nat (N / 2)))) bs_error
      testing different th ph ga basis.
Proof.
  intros Hs. unfold __init__, shape_at. rewrite Hs. simpl.
  replace (Z.of_nat (S L) - 1)%Z with (Z.of_nat L) by lia.
  rewrite (np_full_ok 1%Z [Z.of_nat L]) by (repeat constructor; lia).
  simpl. rewrite Nat2Z.id. replace (L * 1) with L by lia.
  rewrite fmap_replicate.
  replace (Z.of_nat N / 2 * 1)%Z with (Z.of_nat (N / 2)); [done|].
  change 2%Z with (Z.of_nat 2). rewrite <- Nat2Z.inj_div. lia.
Qed.

(** The arguments [__init__] stores unchanged, whatever [perm_idx] and
    [num_tunable]. *)
Lemma init_flags perm_idx hadamard nto bs_error testing different th ph ga basis m :
  __init__ perm_idx hadamard nto bs_error testing different th ph ga basis = ret m ->
  MeshModel.testing m = testing /\ use_different_errors m = different
  /\ MeshModel.bs_error m = bs_error /\ MeshModel.hadamard m = hadamard.
Proof.
  unfold __init__, shape_at.
  destruct (shape perm_idx !! 1) as [c|]; [|done].
  destruct (shape perm_idx !! 0) as [r|]; [|done]. simpl.
  destruct nto as [nt|]; simpl;
    [|destruct (np_full 1%Z _) as [|ones]; [done|]; simpl];
    (destruct (np_full _ _) as [|mask0]; [done|]); simpl;
    destruct (split_phase_arg th), (split_phase_arg ph), (split_phase_arg ga);
    (destruct (mask_loop _ _ _) as [|mask1]; [done|]); simpl;
    (destruct (decide _) as [|Hlen]; [done|]);
    (destruct (decide _) as [|Hu]; [done|]);
    intros Hm; injection Hm as <-; done.
Qed.

(** The layout of a constructed model, whether [num_tunable] was given or
    not: the dimensions, the shape of the mask, and a mask that holds 0.0
    and 1.0 only. *)
Lemma constructed_layout perm_idx L N m :
  shape perm_idx = [S L; N] -> constructed_from perm_idx m ->
  2 <= N /\ units m = Z.of_nat N /\ num_layers m = Z.of_nat L
  /\ Z.to_nat (units m / 2) = N / 2
  /\ shape (mask m) = [L; N / 2]
  /\ forall l k y, get2 (mask m) l k = Some y ->
       y = float_of_int 0 \/ y = float_of_int 1.
Proof.
  intros Hs (hadamard & nto & bs & testing & different & th & ph & ga & basis & Hm).
  assert (exists nt,
             __init__ perm_idx hadamard (Some nt) bs testing different th ph ga basis
             = ret m) as [nt Hm'].
  { destruct nto as [nt|]; [by exists nt|].
    rewrite (init_default _ L N) in Hm by done. by eexists. }
  destruct (init_inv _ _ _ _ _ _ _ _ _ _ _ _ _ Hs Hm')
    as (Hlen & HN & Hu & Hl & _ & _ & _ & _ & Hshape & Hdata & Hget).
  repeat split; try done.
  - rewrite Hu. change 2%Z with (Z.of_nat 2). by rewrite <- Nat2Z.inj_div, Nat2Z.id.
  - intros l k y Hy.
    assert (k < N / 2 /\ l < L) as [Hk Hlt].
    { revert Hy. unfold get2, ncols. rewrite Hshape. simpl.
      destruct (decide _) as [Hk|]; [|done]. intros Hy.
      apply lookup_lt_Some in Hy. rewrite Hdata in Hy. split; [done | nia]. }
    destruct (lookup_lt_is_Some_2 nt l) as [t Ht]; [lia|].
    rewrite (Hget l t k Ht Hk) in Hy. injection Hy as <-.
    destruct (decide _); tauto.
Qed.
(** The buffer of the mask of a constructed model holds 0.0 and 1.0 only. *)
Lemma constructed_mask_values perm_idx L N m :
  shape perm_idx = [S L; N] -> constructed_from perm_idx m ->
  Forall (fun y => y = float_of_int 0 \/ y = float_of_int 1) (data (mask m)).
Proof.
  intros Hs Hc.
  destruct (constructed_layout _ _ _ _ Hs Hc) as (HN & _ & _ & _ & Hshape & Hget).
  apply Forall_lookup. intros i y Hi.
  assert (0 < N / 2) as HC by (apply Nat.div_str_pos; lia).
  apply (Hget (i / (N / 2)) (i mod (N / 2)) y).
  unfold get2, ncols. rewrite Hshape. simpl.
  destruct (decide _) as [_|Hno].
  - rewrite <- Hi. f_equal. rewrite (Nat.div_mod i (N / 2)) at 3 by lia. lia.
  - exfalso. apply Hno. apply Nat.mod_upper_bound. lia.
Qed.
End Construction.

(** ** The accessors do not write to the model *)

Section Frame.
Context `{Helpers}.
Import MeshModel.

Lemma frames_mret {A} (a : A) : frames_self (mret a).
Proof. by intros w. Qed.
Lemma frames_mraise {A} (e : exn) : frames_self (@mraise _ _ A e).
Proof. by intros w. Qed.
Lemma frames_lift {A} (r : result A) : frames_self (lift r).
Proof. by intros w. Qed.
Lemma frames_get_self : frames_self get_self.
Proof. by intros w. Qed.
Lemma frames_seed s : frames_self (np_random_seed s).
Proof. by intros w. Qed.
Lemma frames_randn d0 d1 : frames_self (np_random_randn d0 d1).
Proof.
  intros w. unfold np_random_randn.
  destruct (decide _); [done|]. by destruct (random_randn _ _ _).
Qed.
Lemma frames_call_provider {A} (p : RandomState -> result A * RandomState) :
  frames_self (call_provider p).
Proof. intros w. unfold call_provider. by destruct (p _). Qed.
Lemma frames_when b c : frames_self c -> frames_self (when b c).
Proof. destruct b; [done | intros _; apply frames_mret]. Qed.
Lemma frames_bind {A B} (c : M A) (k : A -> M B) :
  frames_self c -> (forall a, frames_self (k a)) -> frames_self (mbind c k).
Proof.
  intros Hc Hk w. unfold mbind. specialize (Hc w).
  destruct (c w) as [[e|a] w']; simpl in *; [done|].
  rewrite Hk. done.
Qed.

Ltac frames :=
  repeat first
    [ apply frames_mret | apply frames_mraise | apply frames_lift
    | apply frames_get_self | apply frames_seed | apply frames_randn
    | apply frames_call_provider
    | apply frames_when
    | apply frames_bind; [|intros ?]
    | progress cbv zeta
    | match goal with
      | |- frames_self (match ?x with _ => _ end) => destruct x
      | |- frames_self (let (_, _) := ?x in _) => destruct x
      end ].

Lemma frames_init : frames_self init.
Proof. unfold init, resolve_init. frames. Qed.

Lemma frames_scalar_errors m x : frames_self (scalar_errors m x).
Proof. unfold scalar_errors. frames. Qed.

Lemma frames_mzi_error_matrices : frames_self mzi_error_matrices.
Proof. unfold mzi_error_matrices. frames. Qed.

Lemma frames_mzi_error_tensors : frames_self mzi_error_tensors.
Proof. unfold mzi_error_tensors. frames. Qed.

Lemma access_step_self a w : self (access_step a w) = self w.
Proof.
  destruct a; simpl;
    [apply frames_init | apply frames_mzi_error_matrices | apply frames_mzi_error_tensors].
Qed.

Lemma access_run_self l : forall w, self (access_run l w) = self w.
Proof.
  induction l as [|a l IH]; intros w; [done|].
  change (self (access_run l (access_step a w)) = self w).
  rewrite IH. apply access_step_self.
Qed.
End Frame.

(** ** Claims on construction and on the mask *)

Section MeshModelClaims.
Context `{Helpers}.
Import MeshModel.

(** C1 (the code departs from the claim). Construction with a [num_tunable]
    shorter than the layer count does fail, but not with the validation
    error of line 55: the mask loop of lines 52-53 reads
    [num_tunable[layer]] before the length is checked, so numpy's
    [IndexError] comes first. With [perm_idx] of shape 3 x 4 (two layers)
    and [num_tunable = [2]] the result is that [IndexError]; the same
    happens with a single unit (shape 3 x 1), where the claim expects the
    [units] validation error; and an [IndexError] is neither of the two
    validation errors. *)
Theorem C1_short_num_tunable_raises_index_error
    (hadamard : bool) (bs_error : PyObj) (testing different : bool)
    (th ph ga : PhaseArg) (basis : string) :
  __init__ (zeros_perm 3 4) hadamard (Some [2%Z]) bs_error testing different
    th ph ga basis = raise index_error
  /\ __init__ (zeros_perm 3 1) hadamard (Some [0%Z]) bs_error testing different
       th ph ga basis = raise index_error
  /\ ~ is_validation_error index_error.
Proof.
  split; [|split].
  - apply (init_short _ 2 4); [reflexivity | simpl; lia].
  - apply (init_short _ 2 1); [reflexivity | simpl; lia].
  - intros [E|E]; discriminate E.
Qed.

(** C2 (amended). For a model constructed from a [perm_idx] of shape
    (L+1) x N and a [num_tunable] array of length L, the mask has shape
    (L, N // 2); for every layer [l] whose count [num_tunable[l]] is not
    negative, slot [k] of row [l] is 1 when [k < num_tunable[l]] and 0
    otherwise; and no sequence of later accesses to the model's properties
    changes the mask. *)
Theorem C2_mask_of_constructed_model
    (perm_idx : ndarray Z) (L N : nat) (hadamard : bool) (nt : list Z)
    (bs_error : PyObj) (testing different : bool) (th ph ga : PhaseArg)
    (basis : string) (m : t) :
  shape perm_idx = [S L; N] ->
  __init__ perm_idx hadamard (Some nt) bs_error testing different th ph ga basis
    = ret m ->
  length nt = L
  /\ shape (mask m) = [L; N / 2]
  /\ (forall l t k, nt !! l = Some t -> (0 <= t)%Z -> k < N / 2 ->
        get2 (mask m) l k =
          Some (if decide (Z.of_nat k < t)%Z then float_of_int 1 else float_of_int 0))
  /\ (forall accesses st,
        mask (self (access_run accesses (MkWorld m st))) = mask m).
Proof.
  intros Hs Hinit.
  destruct (init_inv _ _ _ _ _ _ _ _ _ _ _ _ _ Hs Hinit)
    as (Hlen & _ & _ & _ & _ & _ & _ & _ & Hshape & _ & Hget).
  repeat split; try done.
  - intros l t k Hl Ht Hk. rewrite (Hget l t k) by done. f_equal.
    pose proof (slice_stop_nonneg t (N / 2) k Ht Hk) as Hiff.
    destruct (decide (k < slice_stop t (N / 2))), (decide (Z.of_nat k < t)%Z);
      tauto.
  - intros accesses st. by rewrite access_run_self.
Qed.

(** Whatever the sign of the count, the slots set are those before the end
    of the Python slice [[:num_tunable[l]]]. *)
Lemma mask_of_constructed_model_slice
    (perm_idx : ndarray Z) (L N : nat) (hadamard : bool) (nt : list Z)
    (bs_error : PyObj) (testing different : bool) (th ph ga : PhaseArg)
    (basis : string) (m : t) :
  shape perm_idx = [S L; N] ->
  __init__ perm_idx hadamard (Some nt) bs_error testing different th ph ga basis
    = ret m ->
  forall l t k, nt !! l = Some t -> k < N / 2 ->
    get2 (mask m) l k =
      Some (if decide (k < slice_stop t (N / 2)) then float_of_int 1 else float_of_int 0).
Proof.
  intros Hs Hinit.
  by destruct (init_inv _ _ _ _ _ _ _ _ _ _ _ _ _ Hs Hinit)
    as (_ & _ & _ & _ & _ & _ & _ & _ & _ & _ & Hget).
Qed.
End MeshModelClaims.

(** The amended C2 at a two-layer mesh of four units with counts [2; 1]. *)
Lemma C2_mask_witness :
  exists m,
    sample_model (zeros_perm 3 4) (Some [2%Z; 1%Z]) (PyFloat (float_of_int 0))
      false false = ret m
    /\ length [2%Z; 1%Z] = 2
    /\ shape (MeshModel.mask m) = [2; 4 / 2]
    /\ (forall l t k, [2%Z; 1%Z] !! l = Some t -> (0 <= t)%Z -> k < 4 / 2 ->
          get2 (MeshModel.mask m) l k =
            Some (if decide (Z.of_nat k < t)%Z then float_of_int 1 else float_of_int 0))
    /\ (forall accesses st,
          MeshModel.mask (MeshModel.self
            (access_run accesses (MeshModel.MkWorld m st))) = MeshModel.mask m).
Proof.
  eexists. split; [reflexivity|].
  apply (C2_mask_of_constructed_model (zeros_perm 3 4) 2 4 false [2%Z; 1%Z]
           (PyFloat (float_of_int 0)) false false
           (MeshModel.Plain (MeshModel.InitName "random_theta"))
           (MeshModel.Plain (MeshModel.InitName "random_phi"))
           (MeshModel.Plain (MeshModel.InitName "random_gamma"))
           (@BLOCH sample_numpy simple_helpers));
    reflexivity.
Defined.

(** C2 as stated fails on a negative count: with [num_tunable = [-1]] on a
    one-layer mesh of four units, [mask[0][: -1] = 1] sets slot 0, although
    [0 >= num_tunable[0]]. *)
Lemma C2_negative_count_counterexample :
  exists m,
    sample_model (zeros_perm 2 4) (Some [(-1)%Z]) (PyFloat (float_of_int 0))
      false false = ret m
    /\ MeshModel.num_tunable m !! 0 = Some (-1)%Z
    /\ (Z.of_nat 0 >= -1)%Z
    /\ get2 (MeshModel.mask m) 0 0 = Some (float_of_int 1)
    /\ float_of_int 1 <> float_of_int 0.
Proof.
  eexists. split; [reflexivity|].
  repeat split; [lia | discriminate].
Qed.

(** ** The beamsplitter-error accessors *)

Section ErrorMatrices.
Context `{Helpers}.
Import MeshModel.


Lemma coefficient_eq (f g : float -> float) (e_l e_r : ndarray float) :
  np_multiply (np_map f (pi_4_plus e_l)) (np_map g (pi_4_plus e_r))
  = coefficient f g e_l e_r.
Proof.
  unfold np_multiply, np_map, pi_4_plus, np_add_l, np_map, coefficient. simpl.
  f_equal. rewrite <- !list_fmap_compose.
  rewrite zip_with_fmap_l, zip_with_fmap_r. reflexivity.
Qed.

Lemma twice_eq (a : ndarray float) : np_scale_l (float_of_int 2) a = twice a.
Proof. reflexivity. Qed.

(** The accessor on an array. *)
Lemma matrices_array (m : t) (st : RandomState) (a : ndarray float) :
  bs_error m = PyArray a ->
  mzi_error_matrices (MkWorld m st) =
    (if decide (shape a <> shape (mask m)) then raise shape_error
     else ret (np_multiply a (mask m), np_multiply a (mask m)),
     MkWorld m (reseeded m st)).
Proof.
  intros Hbs. unfold mzi_error_matrices, mbind, get_self, when, reseeded. simpl.
  rewrite Hbs. destruct (testing m); simpl; destruct (decide _); reflexivity.
Qed.

(** The accessor on a pair of arrays. *)
Lemma matrices_pair (m : t) (st : RandomState) (a b : ndarray float) :
  bs_error m = PyTuple [PyArray a; PyArray b] ->
  mzi_error_matrices (MkWorld m st) =
    (if decide (shape a <> shape (mask m) \/ shape b <> shape (mask m))
     then raise shape_error
     else ret (np_multiply a (mask m), np_multiply b (mask m)),
     MkWorld m (reseeded m st)).
Proof.
  intros Hbs. unfold mzi_error_matrices, mbind, get_self, when, reseeded. simpl.
  rewrite Hbs. destruct (testing m); simpl;
    destruct (decide (shape a <> shape (mask m))) as [Ha|Ha]; simpl;
    try (destruct (decide (_ \/ _)) as [|Hc]; [reflexivity | exfalso; tauto]);
    unfold bool_decide;
    destruct (decide_rel _ (shape b) (shape (mask m))) as [Hb|Hb]; simpl;
    destruct (decide (_ \/ _)) as [Hc|Hc]; try reflexivity; exfalso; tauto.
Qed.

(** The scalar branch, run: [randn] refuses negative dimensions; then the
    samples are drawn; then the scalar is converted, which may raise. *)
Lemma scalar_errors_run (m : t) (scalar : result float) (st : RandomState) :
  scalar_errors m scalar (MkWorld m st) =
    if decide (num_layers m < 0 \/ units m / 2 < 0)%Z
    then (raise negative_dims_error, MkWorld m st)
    else
      let r1 := random_randn (num_layers m) (units m / 2)%Z st in
      match scalar with
      | inl e => (inl e, MkWorld m r1.2)
      | inr x =>
          let e_l := np_scale_r r1.1 x in
          if use_different_errors m
          then
            let r2 := random_randn (num_layers m) (units m / 2)%Z
                        (if testing m then random_seed (TEST_SEED + 1)%Z else r1.2) in
            (ret (e_l, np_scale_r r2.1 x), MkWorld m r2.2)
          else (ret (e_l, e_l), MkWorld m r1.2)
      end.
Proof.
  unfold scalar_errors, mbind, np_random_randn, when, lift. simpl.
  destruct (decide _) as [Hneg|Hpos]; [reflexivity|].
  destruct (random_randn _ _ st) as [z st1] eqn:E1. simpl.
  destruct scalar as [e|x]; [reflexivity|].
  destruct (use_different_errors m); [|reflexivity].
  destruct (testing m); simpl.
  - by destruct (random_randn _ _ (random_seed _)).
  - by destruct (random_randn _ _ st1).
Qed.

(** The accessor on a scalar [bs_error], whatever it is. *)
Lemma matrices_scalar_run (m : t) (st : RandomState) :
  is_scalar (bs_error m) ->
  mzi_error_matrices (MkWorld m st) =
    if decide (num_layers m < 0 \/ units m / 2 < 0)%Z
    then (raise negative_dims_error, MkWorld m (reseeded m st))
    else
      let d0 := num_layers m in
      let d1 := (units m / 2)%Z in
      let r1 := random_randn d0 d1 (reseeded m st) in
      match scalar_value (bs_error m) with
      | None => (raise overflow_error, MkWorld m r1.2)
      | Some x =>
          let e_l := np_scale_r r1.1 x in
          if use_different_errors m
          then
            let r2 := random_randn d0 d1
                        (if testing m then random_seed (TEST_SEED + 1)%Z else r1.2) in
            (ret (np_multiply e_l (mask m), np_multiply (np_scale_r r2.1 x) (mask m)),
             MkWorld m r2.2)
          else (ret (np_multiply e_l (mask m), np_multiply e_l (mask m)),
                MkWorld m r1.2)
      end.
Proof.
  intros Hs.
  unfold mzi_error_matrices, mbind, get_self, when, reseeded. simpl.
  destruct (bs_error m) as [y|n| | | |]; simpl in Hs; try tauto; simpl;
    unfold int_operand;
    destruct (testing m) eqn:Et; simpl; rewrite scalar_errors_run;
    (destruct (decide _) as [Hneg|Hpos]; [reflexivity|]); cbv zeta;
    try (destruct (float_of_pyint n) as [x|]; [|reflexivity]);
    destruct (use_different_errors m); simpl; rewrite ?Et; reflexivity.
Qed.

(** The accessor on a scalar that converts, on valid dimensions. *)
Lemma matrices_scalar (m : t) (st : RandomState) (x : float) :
  valid_dims m ->
  scalar_value (bs_error m) = Some x ->
  mzi_error_matrices (MkWorld m st) =
    let d0 := num_layers m in
    let d1 := (units m / 2)%Z in
    let r1 := random_randn d0 d1 (reseeded m st) in
    let e_l := np_scale_r r1.1 x in
    if use_different_errors m
    then
      let r2 := random_randn d0 d1
                  (if testing m then random_seed (TEST_SEED + 1)%Z else r1.2) in
      (ret (np_multiply e_l (mask m), np_multiply (np_scale_r r2.1 x) (mask m)),
       MkWorld m r2.2)
    else (ret (np_multiply e_l (mask m), np_multiply e_l (mask m)), MkWorld m r1.2).
Proof.
  intros [Hl Hu] Hbs.
  rewrite matrices_scalar_run by (destruct (bs_error m); simpl in *; done).
  destruct (decide _) as [Hneg|_]; [lia|]. by rewrite Hbs.
Qed.

(** An [int] beyond the [float64] range: the samples are drawn, then the
    product raises. *)
Lemma matrices_scalar_overflow (m : t) (st : RandomState) :
  valid_dims m -> is_scalar (bs_error m) ->
  scalar_value (bs_error m) = None ->
  mzi_error_matrices (MkWorld m st) =
    (raise overflow_error,
     MkWorld m (random_randn (num_layers m) (units m / 2)%Z (reseeded m st)).2).
Proof.
  intros [Hl Hu] Hs Hbs. rewrite matrices_scalar_run by done.
  destruct (decide _) as [Hneg|_]; [lia|]. by rewrite Hbs.
Qed.

(** Where the accessor returns on a scalar, the scalar converted and the
    dimensions were valid. *)
Lemma matrices_scalar_inv (m : t) (st : RandomState) p w' :
  is_scalar (bs_error m) ->
  mzi_error_matrices (MkWorld m st) = (ret p, w') ->
  valid_dims m /\ exists x, scalar_value (bs_error m) = Some x.
Proof.
  intros Hs. rewrite matrices_scalar_run by done.
  destruct (decide _) as [Hneg|Hpos]; [discriminate|]. cbv zeta.
  destruct (scalar_value (bs_error m)) as [x|]; [|discriminate].
  intros _. split; [split; lia | by exists x].
Qed.

(** Anything that is not a scalar, an array or a tuple. *)
Lemma matrices_other (m : t) (st : RandomState) :
  ~ is_scalar (bs_error m) -> ~ is_array (bs_error m) -> ~ is_tuple (bs_error m) ->
  mzi_error_matrices (MkWorld m st) = (raise bs_type_error, MkWorld m (reseeded m st)).
Proof.
  intros Hs Ha Ht. unfold mzi_error_matrices, mbind, get_self, when, reseeded. simpl.
  destruct (bs_error m); simpl in *; try tauto;
    destruct (testing m); reflexivity.
Qed.
End ErrorMatrices.

Section ErrorMatricesTuple.
Context `{Helpers}.
Import MeshModel.

Ltac run_tuple :=
  unfold mzi_error_matrices, mbind, get_self, when, lift, tuple_item, py_shape,
    unpack2, mraise, mret, np_random_seed, reseeded, raise, ret;
  simpl;
  repeat match goal with
         | H : bs_error _ = _ |- _ => rewrite H
         | |- context [decide ?P] => destruct (decide P); simpl
         | |- context [bool_decide ?P] =>
             unfold bool_decide; destruct (decide_rel _ _ _); simpl
         | |- context [match ?o with PyFloat _ => _ | _ => _ end] => destruct o; simpl
         | |- context [match ?l with [] => _ | _ :: _ => _ end] => destruct l; simpl
         | |- context [if testing ?m then _ else _] => destruct (testing m); simpl
         end.

(** On a tuple the accessor reseeds like on anything else, never raises the
    type error of line 106, and returns only for a pair of arrays of the
    mask's shape. *)
Lemma matrices_tuple (m : t) (st : RandomState) (items : list PyObj) :
  bs_error m = PyTuple items ->
  (mzi_error_matrices (MkWorld m st)).2 = MkWorld m (reseeded m st)
  /\ (mzi_error_matrices (MkWorld m st)).1 <> raise bs_type_error
  /\ (forall e_l e_r, (mzi_error_matrices (MkWorld m st)).1 = ret (e_l, e_r) ->
        exists a b, items = [PyArray a; PyArray b]
                    /\ shape a = shape (mask m) /\ shape b = shape (mask m)).
Proof.
  intros Hbs. repeat split.
  - run_tuple; reflexivity.
  - run_tuple; discriminate.
  - intros e_l e_r. run_tuple; intros Hr; try discriminate Hr;
      eexists _, _; repeat split; try reflexivity;
      first [ assumption
            | match goal with
              | Hn : ~ ?x <> ?y |- ?x = ?y => by destruct (decide (x = y))
              end ].
Qed.

(** The value of the accessor does not depend on the generator when
    [bs_error] is not a scalar. *)
Lemma matrices_value_no_scalar (m : t) (st1 st2 : RandomState) :
  ~ is_scalar (bs_error m) ->
  (mzi_error_matrices (MkWorld m st1)).1 = (mzi_error_matrices (MkWorld m st2)).1.
Proof.
  intros Hs. destruct (bs_error m) as [x|n|a|items| |] eqn:Hbs;
    simpl in Hs; try tauto.
  - by rewrite !(matrices_array m _ a).
  - clear Hs. run_tuple; reflexivity.
  - by rewrite !matrices_other by (rewrite Hbs; simpl; tauto).
  - by rewrite !matrices_other by (rewrite Hbs; simpl; tauto).
Qed.

(** The generator after the accessor, when [bs_error] is not a scalar. *)
Lemma matrices_state_no_scalar (m : t) (st : RandomState) :
  ~ is_scalar (bs_error m) ->
  (mzi_error_matrices (MkWorld m st)).2 = MkWorld m (reseeded m st).
Proof.
  intros Hs. destruct (bs_error m) as [x|n|a|items| |] eqn:Hbs;
    simpl in Hs; try tauto.
  - by rewrite (matrices_array m _ a).
  - by apply (matrices_tuple m st items).
  - by rewrite matrices_other by (rewrite Hbs; simpl; tauto).
  - by rewrite matrices_other by (rewrite Hbs; simpl; tauto).
Qed.
End ErrorMatricesTuple.

(** ** Shapes of the returned error arrays *)

Section ReturnedShapes.
Context `{Helpers}.
Import MeshModel.

Lemma random_randn_shape (d0 d1 : Z) (st : RandomState) :
  shape (random_randn d0 d1 st).1 = [Z.to_nat d0; Z.to_nat d1].
Proof. unfold random_randn. by destruct (random_normals _ st). Qed.

(** Both arrays returned by [mzi_error_matrices] have the mask's shape: the
    element-wise products of the accessors are taken between arrays of one
    shape, and [randn] returns the shape it is asked for. *)
Lemma mzi_error_matrices_shapes (m : t) (st : RandomState) (e_l e_r : ndarray float) :
  shape (mask m) = [Z.to_nat (num_layers m); Z.to_nat (units m / 2)] ->
  (mzi_error_matrices (MkWorld m st)).1 = ret (e_l, e_r) ->
  shape e_l = shape (mask m) /\ shape e_r = shape (mask m).
Proof.
  intros Hmask Hr.
  destruct (bs_error m) as [x|n|a|items| |] eqn:Hbs.
  1,2: destruct (mzi_error_matrices (MkWorld m st)) as [r w'] eqn:Hrun;
    simpl in Hr; subst r;
    destruct (matrices_scalar_inv m st _ _ ltac:(by rewrite Hbs) Hrun)
      as [Hdims [y Hy]];
    rewrite (matrices_scalar m st y Hdims Hy) in Hrun; cbv zeta in Hrun;
    destruct (use_different_errors m); injection Hrun as <- <- _; simpl;
    by rewrite !random_randn_shape, Hmask.
  - rewrite (matrices_array m st a Hbs) in Hr. simpl in Hr.
    destruct (decide _) as [|Heq]; [done|]. injection Hr as <- <-. simpl.
    by destruct (decide (shape a = shape (mask m))).
  - destruct (matrices_tuple m st items Hbs) as (_ & _ & Hret).
    destruct (Hret e_l e_r Hr) as (a & b & -> & Ha & Hb).
    rewrite (matrices_pair m st a b Hbs) in Hr. simpl in Hr.
    destruct (decide _) as [|_]; [done|]. by injection Hr as <- <-.
  - rewrite matrices_other in Hr by (rewrite Hbs; simpl; tauto). done.
  - rewrite matrices_other in Hr by (rewrite Hbs; simpl; tauto). done.
Qed.

(** [mzi_error_tensors], run after [mzi_error_matrices] returned. *)
Lemma tensors_run (w w1 : World) (e_l e_r : ndarray float) :
  mzi_error_matrices w = (ret (e_l, e_r), w1) ->
  exists Sss Scs Ssc Scc,
    to_stripe_array (coefficient fsin fsin e_l e_r) (units (self w)) = ret Sss
    /\ to_stripe_array (coefficient fcos fsin e_l e_r) (units (self w)) = ret Scs
    /\ to_stripe_array (coefficient fsin fcos e_l e_r) (units (self w)) = ret Ssc
    /\ to_stripe_array (coefficient fcos fcos e_l e_r) (units (self w)) = ret Scc
    /\ mzi_error_tensors w = (ret (twice Sss, twice Scs, twice Ssc, twice Scc), w1).
Proof.
  intros Hm.
  pose proof (frames_mzi_error_matrices w) as Hself. rewrite Hm in Hself.
  simpl in Hself.
  do 4 eexists. do 4 (split; [reflexivity|]).
  unfold mzi_error_tensors, mbind. rewrite Hm. simpl. rewrite Hself.
  unfold lift, stripe2, np_cos, np_sin. rewrite !coefficient_eq. reflexivity.
Qed.
End ReturnedShapes.

(** ** Claims on the error accessors *)

Section AccessorClaims.
Context `{Helpers}.
Import MeshModel.

(** C3. On a model constructed from an (L+1) x N [perm_idx], whenever
    [mzi_error_matrices] returns a pair [(e_l, e_r)], [mzi_error_tensors]
    returns exactly the four arrays [(ss, cs, sc, cc)], in this order, with
    [ss = 2 * stripe(sin(pi/4 + e_l) * sin(pi/4 + e_r))] and likewise for
    [cs], [sc], [cc] (products taken slot by slot, the stripe transform as
    the specification describes it); each of the four is L x N; the
    generator is left as [mzi_error_matrices] left it; and a second access
    that meets the same pair on a model of the same [units] returns the
    same four arrays. *)
Theorem C3_error_tensors_formula
    (perm_idx : ndarray Z) (L N : nat) (m : t) (st : RandomState)
    (e_l e_r : ndarray float) (w' : World) :
  shape perm_idx = [S L; N] ->
  constructed_from perm_idx m ->
  mzi_error_matrices (MkWorld m st) = (ret (e_l, e_r), w') ->
  exists Sss Scs Ssc Scc,
    to_stripe_array (coefficient fsin fsin e_l e_r) (units m) = ret Sss
    /\ to_stripe_array (coefficient fcos fsin e_l e_r) (units m) = ret Scs
    /\ to_stripe_array (coefficient fsin fcos e_l e_r) (units m) = ret Ssc
    /\ to_stripe_array (coefficient fcos fcos e_l e_r) (units m) = ret Scc
    /\ mzi_error_tensors (MkWorld m st)
       = (ret (twice Sss, twice Scs, twice Ssc, twice Scc), w')
    /\ Forall (fun a => shape a = [L; N]) [twice Sss; twice Scs; twice Ssc; twice Scc]
    /\ (forall w2 w2',
          units (self w2) = units m ->
          mzi_error_matrices w2 = (ret (e_l, e_r), w2') ->
          (mzi_error_tensors w2).1 = (mzi_error_tensors (MkWorld m st)).1).
Proof.
  intros Hs Hc Hm.
  destruct (constructed_layout _ _ _ _ Hs Hc) as (_ & Hu & Hl & Hhalf & Hmask & _).
  assert (shape e_l = [L; N / 2]) as Hshape.
  { rewrite <- Hmask. apply (mzi_error_matrices_shapes m st e_l e_r).
    - by rewrite Hmask, Hl, Hhalf, Nat2Z.id.
    - by rewrite Hm. }
  do 4 eexists. do 4 (split; [reflexivity|]).
  assert (forall v v', units (self v) = units m ->
            mzi_error_matrices v = (ret (e_l, e_r), v') ->
            mzi_error_tensors v
              = ((mzi_error_tensors (MkWorld m st)).1, v')) as Hrun.
  { intros v v' Hv Hr.
    pose proof (frames_mzi_error_matrices v) as Hself. rewrite Hr in Hself.
    simpl in Hself.
    unfold mzi_error_tensors, mbind. rewrite Hr, Hm. simpl.
    pose proof (frames_mzi_error_matrices (MkWorld m st)) as Hself0.
    rewrite Hm in Hself0. simpl in Hself0.
    unfold lift, stripe2, to_stripe_array. simpl. by rewrite Hself, Hv, Hself0. }
  split; [|split].
  - pose proof (frames_mzi_error_matrices (MkWorld m st)) as Hself0.
    rewrite Hm in Hself0. simpl in Hself0.
    unfold mzi_error_tensors, mbind. rewrite Hm. simpl. rewrite Hself0.
    unfold lift, stripe2, np_cos, np_sin. rewrite !coefficient_eq. reflexivity.
  - repeat constructor; simpl; by rewrite Hshape, Hu, Nat2Z.id.
  - intros w2 w2' Hv Hr. by rewrite (Hrun w2 w2' Hv Hr).
Qed.


(** C5 (amended). With [testing] set and a scalar [bs_error], the outcome
    of [mzi_error_matrices] is the same from every state of the generator.
    On a model whose dimensions [randn] accepts (as on every constructed
    model): when the scalar is a float, or an int within the [float64]
    range, the access returns the pair where [e_l] is drawn right after
    seeding with [TEST_SEED], and [e_r] right after seeding with
    [TEST_SEED + 1] when [use_different_errors] is set; when the scalar is
    an int beyond the [float64] range, every access raises
    [OverflowError] and returns no pair. When [use_different_errors] is
    not set, every returned [e_r] is [e_l]. *)
Theorem C5_testing_scalar_deterministic (m : t) :
  testing m = true -> is_scalar (bs_error m) ->
  (forall st1 st2,
      (mzi_error_matrices (MkWorld m st1)).1 = (mzi_error_matrices (MkWorld m st2)).1)
  /\ (valid_dims m ->
      forall x, scalar_value (bs_error m) = Some x ->
      forall st,
        (mzi_error_matrices (MkWorld m st)).1 =
          ret (seeded_errors m TEST_SEED x,
               if use_different_errors m then seeded_errors m (TEST_SEED + 1) x
               else seeded_errors m TEST_SEED x))
  /\ (valid_dims m -> scalar_value (bs_error m) = None ->
      forall st, (mzi_error_matrices (MkWorld m st)).1 = raise overflow_error)
  /\ (use_different_errors m = false ->
      forall st e_l e_r,
        (mzi_error_matrices (MkWorld m st)).1 = ret (e_l, e_r) -> e_r = e_l).
Proof.
  intros Ht Hs. split; [|split; [|split]].
  - intros st1 st2. rewrite !matrices_scalar_run by done.
    unfold reseeded. rewrite Ht.
    destruct (decide _); [reflexivity|]. cbv zeta.
    destruct (scalar_value (bs_error m)); [|reflexivity].
    by destruct (use_different_errors m).
  - intros Hdims x Hx st. rewrite (matrices_scalar m st x Hdims Hx).
    unfold reseeded, seeded_errors.
    rewrite Ht. simpl. by destruct (use_different_errors m).
  - intros Hdims Hx st. by rewrite (matrices_scalar_overflow m st Hdims Hs Hx).
  - intros Hd st e_l e_r Hr. rewrite matrices_scalar_run in Hr by done.
    destruct (decide _); [discriminate Hr|]. cbv zeta in Hr.
    destruct (scalar_value (bs_error m)); [|discriminate Hr].
    rewrite Hd in Hr. simpl in Hr. by injection Hr as <- <-.
Qed.

(** C9 (amended). With [testing] set and a [bs_error] that is not a scalar
    (an array, a tuple, or anything else), every access of
    [mzi_error_matrices] leaves the process-wide generator in the state
    [np.random.seed(TEST_SEED)] produces, whatever its state was before and
    whether the access returns or raises, although no sample is drawn; the
    model itself is unchanged and the outcome does not depend on the
    generator. *)
Theorem C9_testing_access_reseeds (m : t) (st : RandomState) :
  testing m = true -> ~ is_scalar (bs_error m) ->
  np_random (mzi_error_matrices (MkWorld m st)).2 = random_seed TEST_SEED
  /\ self (mzi_error_matrices (MkWorld m st)).2 = m
  /\ (forall st',
        (mzi_error_matrices (MkWorld m st')).1 = (mzi_error_matrices (MkWorld m st)).1).
Proof.
  intros Ht Hs. rewrite (matrices_state_no_scalar m st Hs). unfold reseeded.
  rewrite Ht. repeat split. intros st'. by apply matrices_value_no_scalar.
Qed.
End AccessorClaims.

(** ** The accessor claims on a concrete mesh

    A mesh of two layers and four units with tunable counts [2; 1], under
    the concrete interpretation. *)

Section AccessorSamples.
#[local] Existing Instance sample_numpy.
#[local] Existing Instance simple_helpers.
Import MeshModel.

Lemma sample_model_constructed perm_idx nt bs testing different m :
  sample_model perm_idx nt bs testing different = ret m ->
  constructed_from perm_idx m.
Proof. intros Hm. unfold sample_model in Hm. do 9 eexists. exact Hm. Qed.

(** C3 on the sample mesh with an explicit error array. *)
Lemma C3_error_tensors_witness :
  exists m e_l e_r w',
    shape (zeros_perm 3 4) = [3; 4]
    /\ sample_model (zeros_perm 3 4) (Some [2%Z; 1%Z]) (PyArray sample_errors)
         false false = ret m
    /\ mzi_error_matrices (MkWorld m 7%Z) = (ret (e_l, e_r), w')
    /\ exists Sss Scs Ssc Scc,
         to_stripe_array (coefficient fsin fsin e_l e_r) (units m) = ret Sss
         /\ to_stripe_array (coefficient fcos fsin e_l e_r) (units m) = ret Scs
         /\ to_stripe_array (coefficient fsin fcos e_l e_r) (units m) = ret Ssc
         /\ to_stripe_array (coefficient fcos fcos e_l e_r) (units m) = ret Scc
         /\ mzi_error_tensors (MkWorld m 7%Z)
            = (ret (twice Sss, twice Scs, twice Ssc, twice Scc), w')
         /\ Forall (fun a => shape a = [2; 4])
              [twice Sss; twice Scs; twice Ssc; twice Scc].
Proof.
  do 4 eexists. split; [reflexivity|]. split; [reflexivity|].
  split; [reflexivity|].
  match goal with
  | |- exists Sss Scs Ssc Scc,
        _ /\ _ /\ _ /\ _ /\ mzi_error_tensors (MkWorld ?m ?st) = (_, ?w') /\ _ =>
      assert (constructed_from (zeros_perm 3 4) m) as Hc
        by (apply (sample_model_constructed (zeros_perm 3 4) (Some [2%Z; 1%Z])
                     (PyArray sample_errors) false false m); reflexivity);
      destruct (C3_error_tensors_formula (zeros_perm 3 4) 2 4 m st _ _ w'
                  eq_refl Hc eq_refl)
        as (Sss & Scs & Ssc & Scc & H1 & H2 & H3 & H4 & H5 & H6 & _)
  end.
  exists Sss, Scs, Ssc, Scc. repeat split; assumption.
Defined.



(** The amended C5 on the sample mesh in testing mode with the scalar
    error 2 and different left and right errors. *)
Lemma C5_testing_scalar_witness :
  exists m,
    sample_model (zeros_perm 3 4) (Some [2%Z; 1%Z]) (PyInt 2) true true = ret m
    /\ valid_dims m
    /\ testing m = true
    /\ is_scalar (bs_error m)
    /\ scalar_value (bs_error m) = Some (float_of_int 2)
    /\ (forall st1 st2,
          (mzi_error_matrices (MkWorld m st1)).1
          = (mzi_error_matrices (MkWorld m st2)).1)
    /\ (forall st,
          (mzi_error_matrices (MkWorld m st)).1 =
            ret (seeded_errors m TEST_SEED (float_of_int 2),
                 if use_different_errors m
                 then seeded_errors m (TEST_SEED + 1) (float_of_int 2)
                 else seeded_errors m TEST_SEED (float_of_int 2))).
Proof.
  eexists. split; [reflexivity|].
  match goal with
  | |- valid_dims ?m /\ _ =>
      assert (valid_dims m) as Hdims
        by (split; vm_compute; intros Hgt; discriminate Hgt);
      destruct (C5_testing_scalar_deterministic m eq_refl I)
        as (Hsame & Hval & _)
  end.
  split; [exact Hdims|]. do 3 (split; [reflexivity|]).
  split; [exact Hsame | exact (Hval Hdims _ eq_refl)].
Defined.

(** C5 as stated fails for an int beyond the [float64] range: on the sample
    mesh in testing mode with [bs_error = 10 ** 400], the samples are drawn
    and the product with the scalar raises [OverflowError]; no access
    returns a pair. *)
Lemma C5_huge_int_counterexample :
  exists m,
    sample_model (zeros_perm 3 4) (Some [2%Z; 1%Z]) (PyInt (10 ^ 400)) true false
      = ret m
    /\ testing m = true
    /\ is_scalar (bs_error m)
    /\ (mzi_error_matrices (MkWorld m 7%Z)).1 = raise overflow_error
    /\ (mzi_error_matrices (MkWorld m 8%Z)).1 = raise overflow_error.
Proof.
  eexists. split; [reflexivity|].
  split; [reflexivity|]. split; [exact I|].
  split; vm_compute; reflexivity.
Qed.

(** The amended C9 on the sample mesh in testing mode with an explicit
    error array. *)
Lemma C9_testing_access_witness :
  exists m,
    sample_model (zeros_perm 3 4) (Some [2%Z; 1%Z]) (PyArray sample_errors)
      true false = ret m
    /\ testing m = true
    /\ ~ is_scalar (bs_error m)
    /\ np_random (mzi_error_matrices (MkWorld m 7%Z)).2 = random_seed TEST_SEED
    /\ self (mzi_error_matrices (MkWorld m 7%Z)).2 = m
    /\ (forall st',
          (mzi_error_matrices (MkWorld m st')).1
          = (mzi_error_matrices (MkWorld m 7%Z)).1).
Proof.
  eexists. split; [reflexivity|].
  split; [reflexivity|]. split; [simpl; tauto|].
  apply C9_testing_access_reseeds; [reflexivity | simpl; tauto].
Defined.

(** C9 as stated fails when the generator is already in the seeded state,
    as it is right after a previous access: the second access leaves the
    state exactly as it found it. *)
Lemma C9_same_state_counterexample :
  exists m,
    sample_model (zeros_perm 3 4) (Some [2%Z; 1%Z]) (PyArray sample_errors)
      true false = ret m
    /\ testing m = true
    /\ is_array (bs_error m)
    /\ let before := (mzi_error_matrices (MkWorld m 7%Z)).2 in
       let after := (mzi_error_matrices before).2 in
       np_random before = random_seed TEST_SEED
       /\ np_random after = np_random before.
Proof.
  eexists. split; [reflexivity|].
  repeat split.
Qed.
End AccessorSamples.

(** ** Tunable counts of the topology variants *)

Section Counts.

Lemma strided_odd i : (1 <= i /\ (i - 1) `mod` 2 = 0) <-> Nat.even i = false.
Proof.
  rewrite <- Nat.negb_odd, negb_false_iff, Nat.odd_spec. split.
  - intros [H1 H2]. exists ((i - 1) / 2).
    pose proof (Nat.div_mod_eq (i - 1) 2). lia.
  - intros [k ->]. split; [lia|].
    replace (2 * k + 1 - 1) with (k * 2) by lia. apply Nat.Div0.mod_mul.
Qed.

(** The counts of [n] layers computed by the code are the alternating
    policy; a negative [n] is refused by [np.ones]. *)
Lemma alternating_num_mzis_eq units n :
  (0 <= n)%Z ->
  alternating_num_mzis units n = ret (alternating_policy units (Z.to_nat n)).
Proof.
  intros Hn. unfold alternating_num_mzis.
  rewrite np_full_ok by (repeat constructor; lia). simpl.
  f_equal. unfold set_strided, alternating_policy.
  replace (Z.to_nat n * 1) with (Z.to_nat n) by lia.
  apply list_eq. intros i.
  rewrite list_lookup_imap, !list_lookup_fmap.
  destruct (decide (i < Z.to_nat n)) as [Hi|Hi].
  - rewrite lookup_replicate_2, lookup_seq_lt by done. simpl. f_equal.
    replace (1 * units)%Z with units by lia.
    destruct (decide _) as [Hodd|Hodd].
    + apply strided_odd in Hodd. by rewrite Hodd.
    + destruct (Nat.even i) eqn:E; [done|]. exfalso. by apply Hodd, strided_odd.
  - rewrite lookup_seq_ge by lia.
    assert (replicate (Z.to_nat n) 1%Z !! i = None) as ->; [|done].
    apply lookup_replicate_None. lia.
Qed.

Lemma alternating_num_mzis_neg units n :
  (n < 0)%Z ->
  alternating_num_mzis units n = raise (ValueError "negative dimensions are not allowed").
Proof.
  intros Hn. unfold alternating_num_mzis.
  rewrite (np_full_neg _ _ n); [done | by apply list_elem_of_singleton | done].
Qed.

Lemma alternating_policy_length units n : length (alternating_policy units n) = n.
Proof. unfold alternating_policy. by rewrite length_fmap, length_seq. Qed.

Lemma alternating_policy_lookup units n i :
  i < n ->
  alternating_policy units n !! i
  = Some (if Nat.even i then (units / 2)%Z else ((units - 1) / 2)%Z).
Proof.
  intros Hi. unfold alternating_policy.
  by rewrite list_lookup_fmap, lookup_seq_lt.
Qed.

Lemma arange_up_length start stop :
  length (arange start stop 1) = Z.to_nat (stop - start).
Proof.
  unfold arange. simpl. rewrite length_fmap, length_seq.
  f_equal. rewrite Z.div_1_r. lia.
Qed.

Lemma arange_down_length start stop :
  length (arange start stop (-1)) = Z.to_nat (start - stop).
Proof.
  unfold arange. simpl. rewrite length_fmap, length_seq.
  f_equal. rewrite Z.div_1_r. lia.
Qed.

Lemma arange_lookup start stop step i :
  i < length (arange start stop step) ->
  arange start stop step !! i = Some (start + Z.of_nat i * step)%Z.
Proof.
  unfold arange. rewrite length_fmap, length_seq. intros Hi.
  by rewrite list_lookup_fmap, lookup_seq_lt.
Qed.

(** The counts of a triangular mesh: [2 * units - 3] of them, the count of
    layer [l] being the ceiling of half the profile at [l]. *)
Lemma triangular_num_mzis units :
  (2 <= units)%Z ->
  exists counts,
    TriangularMeshModel.num_mzis units = ret counts
    /\ length counts = Z.to_nat (2 * units - 3)
    /\ forall l, (0 <= l < 2 * units - 3)%Z ->
         exists c, counts !! Z.to_nat l = Some c
                   /\ is_ceil_half (triangle_profile units l) c.
Proof.
  intros Hu. unfold TriangularMeshModel.num_mzis. simpl. eexists. split; [reflexivity|].
  rewrite app_nil_r. split.
  - rewrite length_fmap, length_app, arange_up_length, arange_down_length. lia.
  - intros l Hl. rewrite list_lookup_fmap. unfold triangle_profile, is_ceil_half.
    destruct (decide (l < units - 1)%Z) as [Hlt|Hge].
    + rewrite lookup_app_l by (rewrite arange_up_length; lia).
      rewrite arange_lookup by (rewrite arange_up_length; lia). simpl.
      eexists. split; [reflexivity|].
      rewrite Z2Nat.id by lia. Z.div_mod_to_equations. lia.
    + rewrite lookup_app_r by (rewrite arange_up_length; lia).
      rewrite arange_up_length.
      rewrite arange_lookup by (rewrite arange_down_length; lia). simpl.
      eexists. split; [reflexivity|].
      replace (Z.of_nat (Z.to_nat l - Z.to_nat (units - 1)))
        with (l - (units - 1))%Z by lia.
      Z.div_mod_to_equations. lia.
Qed.
End Counts.

(** ** Claims on the topology variants *)

Section VariantClaims.
Context `{Helpers}.
Import MeshModel.

Lemma bind_ret {A B} (a : A) (k : A -> result B) : bind (ret a) k = k a.
Proof. reflexivity. Qed.

(** What [MeshModel.__init__] stores, whatever the shape of [perm_idx]. *)
Lemma init_stores perm_idx hadamard nt bs_error testing different th ph ga basis m :
  __init__ perm_idx hadamard (Some nt) bs_error testing different th ph ga basis = ret m ->
  num_tunable m = nt /\ MeshModel.perm_idx m = perm_idx
  /\ Z.of_nat (length nt) = num_layers m /\ (2 <= units m)%Z
  /\ shape perm_idx !! 1 = Some (Z.to_nat (units m))
  /\ shape perm_idx !! 0 = Some (S (Z.to_nat (num_layers m))).
Proof.
  unfold __init__, shape_at.
  destruct (shape perm_idx !! 1) as [c|]; [|done].
  destruct (shape perm_idx !! 0) as [r|]; [|done]. simpl.
  destruct (np_full _ _) as [|mask0]; [done|]. simpl.
  destruct (split_phase_arg th), (split_phase_arg ph), (split_phase_arg ga).
  destruct (mask_loop _ _ _) as [|mask1]; [done|]. simpl.
  destruct (decide _) as [|Hlen]; [done|].
  destruct (decide _) as [|Hu]; [done|].
  intros Hm. injection Hm as <-. simpl.
  repeat split; try lia; f_equal; lia.
Qed.

Lemma resolve_num_layers_requested units num_layers :
  RectangularMeshModel.resolve_num_layers units num_layers
  = requested_layers units num_layers.
Proof.
  unfold RectangularMeshModel.resolve_num_layers, requested_layers, truthy.
  destruct num_layers as [n|]; [|done]. simpl.
  destruct (decide (n = 0)%Z) as [->|Hn]; [done|].
  by apply Z.eqb_neq in Hn as ->.
Qed.

(** Construction of a rectangular mesh of [L] layers, given the array the
    permutation provider returns for it. *)
Lemma rectangular_init units num_layers (L : nat) hadamard bs_error basis th ph ga perm_idx :
  (2 <= units)%Z ->
  requested_layers units num_layers = Z.of_nat L ->
  grid_permutation units (Z.of_nat L) = ret perm_idx ->
  shape perm_idx = [S L; Z.to_nat units] ->
  exists m,
    RectangularMeshModel.__init__ units num_layers hadamard bs_error basis th ph ga = ret m
    /\ MeshModel.num_layers m = Z.of_nat L /\ MeshModel.units m = units
    /\ num_tunable m = alternating_policy units L.
Proof.
  intros Hu HL Hgrid Hshape. unfold RectangularMeshModel.__init__.
  rewrite resolve_num_layers_requested, HL, Hgrid. simpl.
  rewrite alternating_num_mzis_eq by lia. simpl. rewrite Nat2Z.id.
  destruct (init_returns perm_idx L (Z.to_nat units) hadamard
              (alternating_policy units L) bs_error false false th ph ga basis)
    as [m Hm]; [done | apply alternating_policy_length | lia |].
  exists m. split; [done|].
  destruct (init_inv _ _ _ _ _ _ _ _ _ _ _ _ _ Hshape Hm)
    as (_ & _ & Hunits & Hlayers & Hnt & _).
  repeat split; try done. lia.
Qed.

(** C6 (amended). For every [units] N >= 2, a rectangular mesh has
    L = [num_layers] layers when [num_layers] is given and is not zero, and
    L = N layers when it is absent or zero; the tunable count of every
    even-indexed layer is floor(N/2) and of every odd-indexed layer
    floor((N-1)/2); in particular with N = 4, layer 0 has count 2 and
    layer 1 has count 1. (The permutation provider is assumed to return an
    (L+1) x N array.) *)
Theorem C6_rectangular_layout
    (units : Z) (num_layers : option Z) (L : nat) (hadamard : bool)
    (bs_error : PyObj) (basis : string) (th ph ga : PhaseArg) (perm_idx : ndarray Z) :
  (2 <= units)%Z ->
  requested_layers units num_layers = Z.of_nat L ->
  grid_permutation units (Z.of_nat L) = ret perm_idx ->
  shape perm_idx = [S L; Z.to_nat units] ->
  exists m,
    RectangularMeshModel.__init__ units num_layers hadamard bs_error basis th ph ga = ret m
    /\ MeshModel.num_layers m = Z.of_nat L
    /\ MeshModel.units m = units
    /\ length (num_tunable m) = L
    /\ (forall l, l < L ->
          num_tunable m !! l
          = Some (if Nat.even l then (units / 2)%Z else ((units - 1) / 2)%Z))
    /\ (units = 4%Z -> 2 <= L ->
          num_tunable m !! 0 = Some 2%Z /\ num_tunable m !! 1 = Some 1%Z).
Proof.
  intros Hu HL Hgrid Hshape.
  destruct (rectangular_init units num_layers L hadamard bs_error basis th ph ga
              perm_idx Hu HL Hgrid Hshape) as (m & Hm & Hl & Hn & Hnt).
  exists m. rewrite Hnt. do 3 (split; [done|]).
  split; [apply alternating_policy_length|].
  split; [intros l Hlt; by apply alternating_policy_lookup|].
  intros Hfour Htwo. rewrite Hfour.
  split; by rewrite alternating_policy_lookup by lia.
Qed.

(** A rectangular constructor call, as the base constructor call it makes. *)
Lemma rectangular_init_base
    units num_layers (L : nat) hadamard bs_error basis th ph ga perm_idx :
  requested_layers units num_layers = Z.of_nat L ->
  grid_permutation units (Z.of_nat L) = ret perm_idx ->
  RectangularMeshModel.__init__ units num_layers hadamard bs_error basis th ph ga
  = __init__ perm_idx hadamard (Some (alternating_policy units L)) bs_error false false
      th ph ga basis.
Proof.
  intros HL Hgrid. unfold RectangularMeshModel.__init__.
  rewrite resolve_num_layers_requested, HL, Hgrid, bind_ret.
  rewrite alternating_num_mzis_eq by lia. rewrite bind_ret. by rewrite Nat2Z.id.
Qed.

(** C10 (amended). [num_layers = 0] is resolved to [units], like an absent
    [num_layers] (and unlike any other given value): the two constructions
    run the same computation and have the same outcome, for every [units].
    For [units] N >= 2 (the permutation provider returning an (N+1) x N
    array) that outcome is the mesh the base constructor builds on that
    array with the alternating counts: N layers, N units, the counts
    floor(N/2) and floor((N-1)/2) in turn, the mask they give, and
    [testing] and [use_different_errors] unset. For N = 0 or 1 the
    construction fails with the [units] error, and for a negative N it
    returns no mesh whatever the provider does. *)
Theorem C10_zero_layers_is_default
    (units : Z) (hadamard : bool) (bs_error : PyObj) (basis : string)
    (th ph ga : PhaseArg) :
  RectangularMeshModel.resolve_num_layers units (Some 0%Z) = units
  /\ RectangularMeshModel.resolve_num_layers units None = units
  /\ (forall n, n <> 0%Z ->
        RectangularMeshModel.resolve_num_layers units (Some n) = n)
  /\ RectangularMeshModel.__init__ units (Some 0%Z) hadamard bs_error basis th ph ga
     = RectangularMeshModel.__init__ units None hadamard bs_error basis th ph ga
  /\ (forall perm_idx,
        grid_permutation units units = ret perm_idx ->
        shape perm_idx = [S (Z.to_nat units); Z.to_nat units] ->
        ((2 <= units)%Z ->
         exists m,
           RectangularMeshModel.__init__ units (Some 0%Z) hadamard bs_error basis
             th ph ga = ret m
           /\ MeshModel.__init__ perm_idx hadamard
                (Some (alternating_policy units (Z.to_nat units))) bs_error
                false false th ph ga basis = ret m
           /\ num_layers m = units /\ MeshModel.units m = units
           /\ MeshModel.perm_idx m = perm_idx
           /\ num_tunable m = alternating_policy units (Z.to_nat units)
           /\ MeshModel.bs_error m = bs_error /\ MeshModel.hadamard m = hadamard
           /\ testing m = false /\ use_different_errors m = false
           /\ shape (mask m) = [Z.to_nat units; Z.to_nat units / 2]
           /\ forall l t k,
                alternating_policy units (Z.to_nat units) !! l = Some t ->
                k < Z.to_nat units / 2 ->
                get2 (mask m) l k
                = Some (if decide (k < slice_stop t (Z.to_nat units / 2))
                        then float_of_int 1 else float_of_int 0))
        /\ ((0 <= units < 2)%Z ->
            RectangularMeshModel.__init__ units (Some 0%Z) hadamard bs_error basis
              th ph ga = raise units_error))
  /\ ((units < 0)%Z ->
      forall m,
        RectangularMeshModel.__init__ units (Some 0%Z) hadamard bs_error basis
          th ph ga <> ret m).
Proof.
  split; [done|]. split; [done|]. split; [|split; [done|split]].
  - intros n Hn. rewrite resolve_num_layers_requested. simpl.
    by destruct (decide (n = 0)%Z).
  - intros perm_idx Hgrid Hshape.
    assert ((0 <= units)%Z ->
            RectangularMeshModel.__init__ units (Some 0%Z) hadamard bs_error basis
              th ph ga
            = MeshModel.__init__ perm_idx hadamard
                (Some (alternating_policy units (Z.to_nat units))) bs_error
                false false th ph ga basis) as Hbase.
    { intros Hu.
      apply (rectangular_init_base units (Some 0%Z) (Z.to_nat units));
        [simpl; lia | by rewrite Z2Nat.id by lia]. }
    split.
    + intros Hu. rewrite Hbase by lia.
      destruct (init_returns perm_idx (Z.to_nat units) (Z.to_nat units) hadamard
                  (alternating_policy units (Z.to_nat units)) bs_error false false
                  th ph ga basis)
        as [m Hm]; [done | apply alternating_policy_length | lia |].
      exists m. do 2 (split; [done|]).
      destruct (init_inv _ _ _ _ _ _ _ _ _ _ _ _ _ Hshape Hm)
        as (_ & _ & Hunits & Hlayers & Hnt & Hbs & Ht & Hd & Hmask & _ & Hget).
      destruct (init_stores _ _ _ _ _ _ _ _ _ _ _ Hm) as (_ & Hperm & _).
      destruct (init_flags _ _ _ _ _ _ _ _ _ _ _ Hm) as (_ & _ & _ & Hh).
      repeat split; try done; lia.
    + intros Hu. rewrite Hbase by lia.
      apply (init_few_units _ (Z.to_nat units) (Z.to_nat units));
        [done | apply alternating_policy_length | lia].
  - intros Hu m. unfold RectangularMeshModel.__init__.
    rewrite resolve_num_layers_requested. simpl.
    destruct (grid_permutation units units) as [e|p]; [done|].
    rewrite bind_ret. by rewrite alternating_num_mzis_neg.
Qed.

(** Construction of a triangular mesh of at least two units, given the
    array the permutation provider returns for it. *)
Lemma triangular_init
    (units : Z) (hadamard : bool) (bs_error : PyObj) (basis : string)
    (th ph ga : PhaseArg) (perm_idx : ndarray Z) :
  (2 <= units)%Z ->
  grid_permutation units (2 * units - 3)%Z = ret perm_idx ->
  shape perm_idx = [S (Z.to_nat (2 * units - 3)); Z.to_nat units] ->
  exists m,
    TriangularMeshModel.__init__ units hadamard bs_error basis th ph ga = ret m
    /\ num_layers m = (2 * units - 3)%Z
    /\ MeshModel.units m = units
    /\ length (num_tunable m) = Z.to_nat (2 * units - 3)
    /\ (forall l, (0 <= l < 2 * units - 3)%Z ->
          exists c, num_tunable m !! Z.to_nat l = Some c
                    /\ is_ceil_half (triangle_profile units l) c)
    /\ (units = 5%Z ->
          num_layers m = 7%Z /\ num_tunable m = [1; 1; 2; 2; 2; 1; 1]%Z).
Proof.
  intros Hu Hgrid Hshape. unfold TriangularMeshModel.__init__.
  rewrite Hgrid, bind_ret.
  destruct (triangular_num_mzis units Hu) as (counts & Hcounts & Hlen & Hget).
  assert (units = 5%Z -> counts = [1; 1; 2; 2; 2; 1; 1]%Z) as Hfive.
  { intros ->. vm_compute in Hcounts. by injection Hcounts as <-. }
  rewrite Hcounts, bind_ret.
  destruct (init_returns perm_idx (Z.to_nat (2 * units - 3)) (Z.to_nat units) hadamard
              counts bs_error false false th ph ga basis)
    as [m Hm]; [done | done | lia |].
  exists m. split; [done|].
  destruct (init_inv _ _ _ _ _ _ _ _ _ _ _ _ _ Hshape Hm)
    as (_ & _ & Hunits & Hlayers & Hnt & _).
  rewrite Hnt. repeat split; try done; try lia.
  by apply Hfive.
Qed.

(** C7. For every [units] N, a triangular mesh that is constructed has
    exactly L = 2N - 3 layers, and the tunable count of its layer [l] is
    the ceiling of half of [v_l], for [v = (1, 2, ..., N-1, N-2, ..., 1)];
    with N = 5, L = 7 and the counts are [1, 1, 2, 2, 2, 1, 1]. The mesh is
    constructed for every N >= 2 (and for no smaller N). The permutation
    provider is assumed to return an array of 2N - 2 rows and N columns. *)
Theorem C7_triangular_layout
    (units : Z) (hadamard : bool) (bs_error : PyObj) (basis : string)
    (th ph ga : PhaseArg) (perm_idx : ndarray Z) :
  grid_permutation units (2 * units - 3)%Z = ret perm_idx ->
  shape perm_idx = [Z.to_nat (2 * units - 3 + 1); Z.to_nat units] ->
  (forall m,
      TriangularMeshModel.__init__ units hadamard bs_error basis th ph ga = ret m ->
      (2 <= units)%Z
      /\ num_layers m = (2 * units - 3)%Z
      /\ MeshModel.units m = units
      /\ length (num_tunable m) = Z.to_nat (2 * units - 3)
      /\ (forall l, (0 <= l < 2 * units - 3)%Z ->
            exists c, num_tunable m !! Z.to_nat l = Some c
                      /\ is_ceil_half (triangle_profile units l) c)
      /\ (units = 5%Z ->
            num_layers m = 7%Z /\ num_tunable m = [1; 1; 2; 2; 2; 1; 1]%Z))
  /\ ((2 <= units)%Z ->
      exists m,
        TriangularMeshModel.__init__ units hadamard bs_error basis th ph ga = ret m).
Proof.
  intros Hgrid Hshape.
  assert ((2 <= units)%Z ->
          shape perm_idx = [S (Z.to_nat (2 * units - 3)); Z.to_nat units]) as Hshape'.
  { intros Hu. rewrite Hshape. do 2 f_equal. lia. }
  split.
  - intros m Hm.
    assert (2 <= units)%Z as Hu.
    { unfold TriangularMeshModel.__init__ in Hm. rewrite Hgrid, bind_ret in Hm.
      destruct (TriangularMeshModel.num_mzis units) as [|counts]; [done|].
      rewrite bind_ret in Hm.
      apply init_stores in Hm as (_ & _ & _ & Hunits & Hcols & _).
      rewrite Hshape in Hcols. simpl in Hcols. injection Hcols as Hcols. lia. }
    destruct (triangular_init units hadamard bs_error basis th ph ga perm_idx
                Hu Hgrid (Hshape' Hu)) as (m' & Hm' & Hprops).
    rewrite Hm in Hm'. injection Hm' as <-. by split.
  - intros Hu.
    destruct (triangular_init units hadamard bs_error basis th ph ga perm_idx
                Hu Hgrid (Hshape' Hu)) as (m & Hm & _).
    by exists m.
Qed.
End VariantClaims.

Section PermutingClaims.
Context `{Helpers}.
Import MeshModel.

(** The loop over the blocks appends the alternating counts of each block,
    and returns exactly when no block size is negative. *)
Lemma num_mzis_loop_ok units : forall blocks acc,
  Forall (fun b => 0 <= b)%Z blocks ->
  PermutingRectangularMeshModel.num_mzis_loop units blocks acc
  = ret (acc ++ (block_policy units <$> blocks)).
Proof.
  induction blocks as [|b blocks IH]; intros acc Hpos; simpl.
  - by rewrite app_nil_r.
  - inversion Hpos as [|? ? Hb Hrest]; subst.
    rewrite alternating_num_mzis_eq, bind_ret by done.
    rewrite IH by done. by rewrite <- app_assoc.
Qed.

Lemma num_mzis_loop_inv units : forall blocks acc r,
  PermutingRectangularMeshModel.num_mzis_loop units blocks acc = ret r ->
  Forall (fun b => 0 <= b)%Z blocks.
Proof.
  induction blocks as [|b blocks IH]; intros acc r Hr; [constructor|].
  simpl in Hr. destruct (decide (0 <= b)%Z) as [Hb|Hb].
  - rewrite alternating_num_mzis_eq, bind_ret in Hr by done.
    constructor; [done | by eapply IH].
  - rewrite alternating_num_mzis_neg in Hr by lia. done.
Qed.

Lemma concat_policy_length units blocks :
  Forall (fun b => 0 <= b)%Z blocks ->
  Z.of_nat (length (concat (block_policy units <$> blocks))) = sum_list_Z blocks.
Proof.
  induction 1 as [|b blocks Hb _ IH]; [done|].
  rewrite fmap_cons. cbn [concat]. unfold block_policy at 1.
  rewrite length_app, alternating_policy_length.
  change (sum_list_Z (b :: blocks)) with (b + sum_list_Z blocks)%Z. lia.
Qed.

Lemma num_mzis_ok units blocks :
  blocks <> [] -> Forall (fun b => 0 <= b)%Z blocks ->
  PermutingRectangularMeshModel.num_mzis units blocks
  = ret (concat (block_policy units <$> blocks)).
Proof.
  intros Hne Hpos. unfold PermutingRectangularMeshModel.num_mzis.
  rewrite num_mzis_loop_ok, bind_ret by done. simpl.
  by destruct blocks.
Qed.

Lemma num_mzis_inv units blocks counts :
  PermutingRectangularMeshModel.num_mzis units blocks = ret counts ->
  blocks <> [] /\ Forall (fun b => 0 <= b)%Z blocks
  /\ counts = concat (block_policy units <$> blocks).
Proof.
  unfold PermutingRectangularMeshModel.num_mzis. intros Hr.
  destruct (PermutingRectangularMeshModel.num_mzis_loop units blocks [])
    as [|r] eqn:Hloop; [done|].
  pose proof (num_mzis_loop_inv _ _ _ _ Hloop) as Hpos.
  rewrite num_mzis_loop_ok in Hloop by done. injection Hloop as <-.
  simpl in Hr. destruct blocks as [|b blocks]; [done|].
  injection Hr as <-. done.
Qed.

(** C8. Block sizes are resolved by strict precedence: a given
    [tunable_layers_per_block] goes to the efficient heuristic whatever else
    is given; without it the explicit lists are used when both are given,
    and the default heuristic otherwise. A model that is constructed stores
    the resolved lists, its tunable counts are the concatenation, block by
    block, of the alternating counts of a block of that size, and their
    number is the sum of the block sizes. Construction returns whenever the
    resolved block list is not empty and holds no negative size, for
    [units] >= 2 (the permutation provider returning an array of
    (sum of the sizes + 1) x [units]). *)
Theorem C8_permuting_blocks
    (units : Z) (tunable_layers_per_block : option Z)
    (num_tunable_layers_list sampling_frequencies : option (list Z))
    (bs_error : PyObj) (hadamard : bool) (th ph ga : PhaseArg) :
  let resolved :=
    PermutingRectangularMeshModel.resolve_blocks units tunable_layers_per_block
      num_tunable_layers_list sampling_frequencies in
  let construct :=
    PermutingRectangularMeshModel.__init__ units tunable_layers_per_block
      num_tunable_layers_list sampling_frequencies bs_error hadamard th ph ga in
  (forall n, tunable_layers_per_block = Some n ->
     resolved = get_efficient_coarse_grain_block_sizes units n)
  /\ (forall l f, tunable_layers_per_block = None ->
        num_tunable_layers_list = Some l -> sampling_frequencies = Some f ->
        resolved = ret (l, f))
  /\ (tunable_layers_per_block = None ->
      num_tunable_layers_list = None \/ sampling_frequencies = None ->
      resolved = get_default_coarse_grain_block_sizes units)
  /\ (forall m, construct = ret m ->
        resolved = ret (PermutingRectangularMeshModel.block_sizes m,
                        PermutingRectangularMeshModel.sampling_frequencies m)
        /\ num_tunable (PermutingRectangularMeshModel.base m)
           = concat (block_policy units <$> PermutingRectangularMeshModel.block_sizes m)
        /\ Z.of_nat (length (num_tunable (PermutingRectangularMeshModel.base m)))
           = sum_list_Z (PermutingRectangularMeshModel.block_sizes m))
  /\ (forall blocks freqs perm_idx,
        resolved = ret (blocks, freqs) ->
        blocks <> [] -> Forall (fun b => 0 <= b)%Z blocks -> (2 <= units)%Z ->
        prm_permutation units blocks freqs false = ret perm_idx ->
        shape perm_idx = [S (Z.to_nat (sum_list_Z blocks)); Z.to_nat units] ->
        exists m, construct = ret m
                  /\ PermutingRectangularMeshModel.block_sizes m = blocks
                  /\ PermutingRectangularMeshModel.sampling_frequencies m = freqs).
Proof.
  intros resolved construct. subst resolved construct.
  split; [|split; [|split; [|split]]].
  - by intros n ->.
  - by intros l f -> -> ->.
  - intros -> [-> | ->]; simpl; [by destruct sampling_frequencies | done].
  - intros m. unfold PermutingRectangularMeshModel.__init__.
    destruct (PermutingRectangularMeshModel.resolve_blocks _ _ _ _)
      as [|[blocks freqs]]; [done|]. rewrite bind_ret.
    destruct (PermutingRectangularMeshModel.num_mzis units blocks)
      as [|counts] eqn:Hcounts; [done|]. rewrite bind_ret.
    destruct (prm_permutation _ _ _ _) as [|perm_idx]; [done|]. rewrite bind_ret.
    destruct (__init__ _ _ _ _ _ _ _ _ _ _) as [|base] eqn:Hbase; [done|].
    rewrite bind_ret. intros Hm. injection Hm as <-. simpl.
    apply init_stores in Hbase as (-> & _).
    apply num_mzis_inv in Hcounts as (_ & Hpos & ->).
    repeat split. by apply concat_policy_length.
  - intros blocks freqs perm_idx Hres Hne Hpos Hu Hperm Hshape.
    unfold PermutingRectangularMeshModel.__init__.
    rewrite Hres, bind_ret, num_mzis_ok, bind_ret, Hperm, bind_ret by done.
    destruct (init_returns perm_idx (Z.to_nat (sum_list_Z blocks)) (Z.to_nat units)
                hadamard (concat (block_policy units <$> blocks)) bs_error false false
                th ph ga BLOCH) as [base Hbase]; [done | | lia |].
    { pose proof (concat_policy_length units blocks Hpos). lia. }
    rewrite Hbase, bind_ret. by eexists.
Qed.
End PermutingClaims.

(** ** The variant claims on concrete meshes *)

Section VariantSamples.
#[local] Existing Instance sample_numpy.
#[local] Existing Instance simple_helpers.
Import MeshModel.

(** The amended C6 at [RectangularMeshModel(units=4)]. *)
Lemma C6_rectangular_witness :
  exists perm_idx,
    (2 <= 4)%Z
    /\ requested_layers 4 None = Z.of_nat 4
    /\ grid_permutation 4 (Z.of_nat 4) = ret perm_idx
    /\ shape perm_idx = [5; Z.to_nat 4]
    /\ exists m,
         RectangularMeshModel.__init__ 4 None false (PyFloat (float_of_int 0)) BLOCH
           (named_phase "haar_rect") (named_phase "random_phi")
           (named_phase "random_gamma") = ret m
         /\ MeshModel.num_layers m = Z.of_nat 4
         /\ MeshModel.units m = 4%Z
         /\ length (num_tunable m) = 4
         /\ (forall l, l < 4 ->
               num_tunable m !! l
               = Some (if Nat.even l then (4 / 2)%Z else ((4 - 1) / 2)%Z))
         /\ (4%Z = 4%Z -> 2 <= 4 ->
               num_tunable m !! 0 = Some 2%Z /\ num_tunable m !! 1 = Some 1%Z).
Proof.
  eexists. split; [lia|]. split; [reflexivity|]. split; [reflexivity|].
  split; [reflexivity|].
  eapply (C6_rectangular_layout 4 None 4); [lia | reflexivity..].
Defined.

(** C6 as stated fails at [num_layers = 0]: the value is given, yet the
    mesh has [units] layers, not zero. *)
Lemma C6_zero_layers_counterexample :
  exists m,
    RectangularMeshModel.__init__ 4 (Some 0%Z) false (PyFloat (float_of_int 0)) BLOCH
      (named_phase "haar_rect") (named_phase "random_phi")
      (named_phase "random_gamma") = ret m
    /\ MeshModel.num_layers m = 4%Z
    /\ MeshModel.num_layers m <> 0%Z.
Proof.
  eexists. split; [reflexivity|]. split; [reflexivity | discriminate].
Qed.

(** The amended C10 at [RectangularMeshModel(units=4, num_layers=0)]. *)
Lemma C10_zero_layers_witness :
  exists perm_idx,
    (2 <= 4)%Z
    /\ grid_permutation 4 4 = ret perm_idx
    /\ shape perm_idx = [S (Z.to_nat 4); Z.to_nat 4]
    /\ RectangularMeshModel.__init__ 4 (Some 0%Z) false (PyFloat (float_of_int 0)) BLOCH
         (named_phase "haar_rect") (named_phase "random_phi")
         (named_phase "random_gamma")
       = RectangularMeshModel.__init__ 4 None false (PyFloat (float_of_int 0)) BLOCH
           (named_phase "haar_rect") (named_phase "random_phi")
           (named_phase "random_gamma")
    /\ exists m,
         RectangularMeshModel.__init__ 4 (Some 0%Z) false (PyFloat (float_of_int 0)) BLOCH
           (named_phase "haar_rect") (named_phase "random_phi")
           (named_phase "random_gamma") = ret m
         /\ MeshModel.num_layers m = 4%Z /\ MeshModel.units m = 4%Z
         /\ num_tunable m = [2; 1; 2; 1]%Z
         /\ shape (mask m) = [4; 2].
Proof.
  eexists. split; [lia|]. split; [reflexivity|]. split; [reflexivity|].
  destruct (C10_zero_layers_is_default 4 false (PyFloat (float_of_int 0)) BLOCH
              (named_phase "haar_rect") (named_phase "random_phi")
              (named_phase "random_gamma")) as (_ & _ & _ & Hsame & Hmesh & _).
  split; [exact Hsame|].
  destruct (Hmesh _ eq_refl eq_refl) as [Hret _].
  destruct (Hret ltac:(lia))
    as (m & Hm & _ & Hl & Hu & _ & Hnt & _ & _ & _ & _ & Hmask & _).
  exists m. repeat split; assumption.
Defined.

(** C10 as stated fails below two units: at
    [RectangularMeshModel(units=1, num_layers=0)] the layer count is
    resolved to 1, the provider returns its 2 x 1 array, and the base
    constructor raises the [units] error; at [units = -1] the construction
    raises as well. No mesh is produced. *)
Lemma C10_one_unit_counterexample :
  RectangularMeshModel.resolve_num_layers 1 (Some 0%Z) = 1%Z
  /\ (exists perm_idx,
        grid_permutation 1 1 = ret perm_idx /\ shape perm_idx = [2; 1])
  /\ RectangularMeshModel.__init__ 1 (Some 0%Z) false (PyFloat (float_of_int 0)) BLOCH
       (named_phase "haar_rect") (named_phase "random_phi")
       (named_phase "random_gamma")
     = raise units_error
  /\ (exists e,
        RectangularMeshModel.__init__ (-1) (Some 0%Z) false (PyFloat (float_of_int 0))
          BLOCH (named_phase "haar_rect") (named_phase "random_phi")
          (named_phase "random_gamma")
        = raise e).
Proof.
  split; [reflexivity|]. split; [eexists; split; reflexivity|].
  split; [reflexivity|]. eexists. reflexivity.
Qed.

(** C7 at [TriangularMeshModel(units=5)]. *)
Lemma C7_triangular_witness :
  exists perm_idx m,
    grid_permutation 5 (2 * 5 - 3)%Z = ret perm_idx
    /\ shape perm_idx = [Z.to_nat (2 * 5 - 3 + 1); Z.to_nat 5]
    /\ TriangularMeshModel.__init__ 5 false (PyFloat (float_of_int 0)) BLOCH
         (named_phase "haar_tri") (named_phase "random_phi")
         (named_phase "random_gamma") = ret m
    /\ (2 <= 5)%Z
    /\ num_layers m = (2 * 5 - 3)%Z
    /\ MeshModel.units m = 5%Z
    /\ length (num_tunable m) = Z.to_nat (2 * 5 - 3)
    /\ (forall l, (0 <= l < 2 * 5 - 3)%Z ->
          exists c, num_tunable m !! Z.to_nat l = Some c
                    /\ is_ceil_half (triangle_profile 5 l) c)
    /\ (5%Z = 5%Z ->
          num_layers m = 7%Z /\ num_tunable m = [1; 1; 2; 2; 2; 1; 1]%Z).
Proof.
  do 2 eexists. split; [reflexivity|]. split; [reflexivity|].
  split; [reflexivity|].
  pose proof (C7_triangular_layout 5 false (PyFloat (float_of_int 0)) BLOCH
                (named_phase "haar_tri") (named_phase "random_phi")
                (named_phase "random_gamma") _ eq_refl eq_refl) as [Hall _].
  apply Hall. reflexivity.
Defined.

(** C8 at [PermutingRectangularMeshModel(units=4,
    num_tunable_layers_list=[2, 3], sampling_frequencies=[1])]. *)
Lemma C8_permuting_witness :
  exists perm_idx,
    PermutingRectangularMeshModel.resolve_blocks 4 None (Some [2; 3]%Z) (Some [1%Z])
      = ret ([2; 3]%Z, [1%Z])
    /\ [2; 3]%Z <> []
    /\ Forall (fun b => 0 <= b)%Z [2; 3]%Z
    /\ (2 <= 4)%Z
    /\ prm_permutation 4 [2; 3]%Z [1%Z] false = ret perm_idx
    /\ shape perm_idx = [S (Z.to_nat (sum_list_Z [2; 3]%Z)); Z.to_nat 4]
    /\ exists m,
         PermutingRectangularMeshModel.__init__ 4 None (Some [2; 3]%Z) (Some [1%Z])
           (PyFloat (float_of_int 0)) false (named_phase "haar_prm") (named_phase "random_phi")
           (named_phase "random_gamma") = ret m
         /\ PermutingRectangularMeshModel.block_sizes m = [2; 3]%Z
         /\ PermutingRectangularMeshModel.sampling_frequencies m = [1%Z]
         /\ num_tunable (PermutingRectangularMeshModel.base m) = [2; 1; 2; 1; 2]%Z
         /\ Z.of_nat (length (num_tunable (PermutingRectangularMeshModel.base m)))
            = sum_list_Z [2; 3]%Z.
Proof.
  destruct (C8_permuting_blocks 4 None (Some [2; 3]%Z) (Some [1%Z])
              (PyFloat (float_of_int 0))
              false (named_phase "haar_prm") (named_phase "random_phi")
              (named_phase "random_gamma")) as (_ & Hlists & _ & Hinv & Hreturns).
  eexists. split; [by apply Hlists|]. split; [discriminate|].
  split; [repeat constructor; lia|]. split; [lia|].
  split; [reflexivity|]. split; [reflexivity|].
  edestruct Hreturns as (m & Hm & Hblocks & Hfreqs);
    [ by apply Hlists | discriminate | repeat constructor; lia | lia
    | reflexivity | reflexivity | ].
  exists m. destruct (Hinv m Hm) as (_ & Hcounts & Hlen).
  rewrite Hblocks in Hcounts, Hlen.
  repeat split; try done.
Defined.
End VariantSamples.

(** ** Shapes of the error arrays *)

Section ErrorShapes.
Context `{Helpers}.
Import MeshModel.

(** X6. On a model constructed from an (L+1) x N [perm_idx], both arrays
    that [mzi_error_matrices] returns are L x floor(N/2), for every kind of
    [bs_error]; for a scalar this rests on the shape of what
    [np.random.randn] returns. *)
Lemma constructed_error_shapes
    (perm_idx : ndarray Z) (L N : nat) (hadamard : bool) (nt : list Z)
    (bs_error : PyObj) (testing different : bool) (th ph ga : PhaseArg)
    (basis : string) (m : t) (st : RandomState) (e_l e_r : ndarray float) :
  randn_shape_contract ->
  shape perm_idx = [S L; N] ->
  __init__ perm_idx hadamard (Some nt) bs_error testing different th ph ga basis
    = ret m ->
  (mzi_error_matrices (MkWorld m st)).1 = ret (e_l, e_r) ->
  shape e_l = [L; N / 2] /\ shape e_r = [L; N / 2].
Proof.
  intros Hrandn Hs Hinit Hr.
  destruct (init_inv _ _ _ _ _ _ _ _ _ _ _ _ _ Hs Hinit)
    as (_ & _ & Hunits & Hlayers & _ & _ & _ & _ & Hshape & _).
  assert (Z.to_nat (units m / 2) = N / 2) as Hhalf.
  { rewrite Hunits. change 2%Z with (Z.of_nat 2).
    by rewrite <- Nat2Z.inj_div, Nat2Z.id. }
  rewrite <- Hshape.
  apply (mzi_error_matrices_shapes m st); [|done].
  by rewrite Hshape, Hlayers, Hhalf, Nat2Z.id.
Qed.
End ErrorShapes.

(** ** Further runs of the model on the sample mesh *)

Section Examples.
#[local] Existing Instance sample_numpy.
#[local] Existing Instance simple_helpers.
Import MeshModel.

(** A pair of arrays of the mask's shape is returned masked. *)
Example pair_of_arrays_is_masked :
  exists m,
    sample_model (zeros_perm 3 4) (Some [2%Z; 1%Z])
      (PyTuple [PyArray sample_errors; PyArray sample_errors]) false false = ret m
    /\ (mzi_error_matrices (MkWorld m 7%Z)).1
       = ret (NdArray [2; 2] (float_of_int <$> [1%Z; 2%Z; 3%Z; 0%Z]),
              NdArray [2; 2] (float_of_int <$> [1%Z; 2%Z; 3%Z; 0%Z])).
Proof. eexists. split; reflexivity. Qed.

(** [None] is refused with the type error; an array of another shape with
    the shape error; a one-item tuple at [bs_error[1]]. *)
Example other_values_are_refused :
  exists m1 m2 m3,
    sample_model (zeros_perm 3 4) (Some [2%Z; 1%Z]) PyNone false false = ret m1
    /\ (mzi_error_matrices (MkWorld m1 7%Z)).1 = raise bs_type_error
    /\ sample_model (zeros_perm 3 4) (Some [2%Z; 1%Z])
         (PyArray (NdArray [4] (float_of_int <$> [1%Z; 2%Z; 3%Z; 4%Z]))) false false
       = ret m2
    /\ (mzi_error_matrices (MkWorld m2 7%Z)).1 = raise shape_error
    /\ sample_model (zeros_perm 3 4) (Some [2%Z; 1%Z])
         (PyTuple [PyArray sample_errors]) false false = ret m3
    /\ (mzi_error_matrices (MkWorld m3 7%Z)).1
       = raise (IndexError "tuple index out of range").
Proof. do 3 eexists. repeat split; reflexivity. Qed.

(** Without [testing], two accesses in a row draw different samples. *)
Example untested_scalar_draws_again :
  exists m,
    sample_model (zeros_perm 3 4) (Some [2%Z; 1%Z]) (PyInt 1) false false = ret m
    /\ let first := mzi_error_matrices (MkWorld m 7%Z) in
       let second := mzi_error_matrices first.2 in
       first.1 <> second.1.
Proof.
  eexists. split; [reflexivity|]. intros first second Heq.
  pose (head_is_7 := fun r : result (ndarray float * ndarray float) =>
          match r with
          | inr (a, _) => PrimFloat.eqb (default (float_of_int 0) (data a !! 0))
                            (float_of_int 7)
          | inl _ => false
          end).
  assert (head_is_7 first.1 = head_is_7 second.1) as Hx by (by rewrite Heq).
  vm_compute in Hx. discriminate Hx.
Qed.

(** [ButterflyMeshModel(num_layers=3)]: eight units, four tunable devices
    in each of the three layers. *)
Example butterfly_default_counts :
  exists m,
    ButterflyMeshModel.__init__ 3 false (PyFloat (float_of_int 0)) BLOCH
      (named_phase "random_theta") (named_phase "random_phi")
      (named_phase "random_gamma") = ret m
    /\ units m = 8%Z /\ num_layers m = 3%Z /\ num_tunable m = [4; 4; 4]%Z.
Proof. eexists. split; [reflexivity|]. repeat split. Qed.
End Examples.

(** * Further properties of construction *)

Section ConstructionOutcomes.
Context `{Helpers}.
Import MeshModel.

(** X1. On a two-dimensional [perm_idx] of L + 1 rows and N columns,
    construction with an explicit [num_tunable] returns a model exactly when
    [num_tunable] has L entries and N is at least 2. *)
Theorem construction_returns_iff
    (perm_idx : ndarray Z) (L N : nat) (hadamard : bool) (nt : list Z)
    (bs_error : PyObj) (testing different : bool) (th ph ga : PhaseArg)
    (basis : string) :
  shape perm_idx = [S L; N] ->
  (exists m,
      __init__ perm_idx hadamard (Some nt) bs_error testing different th ph ga basis
      = ret m)
  <-> length nt = L /\ 2 <= N.
Proof.
  intros Hs. split.
  - intros [m Hm].
    destruct (init_inv _ _ _ _ _ _ _ _ _ _ _ _ _ Hs Hm) as (Hlen & HN & _). done.
  - intros [Hlen HN]. by apply (init_returns _ L N).
Qed.

(** X2. When both validations of lines 54-57 would fail, the length check
    wins: a [num_tunable] longer than the layer count raises the mismatch
    error whatever the number of units, and the [units] error is raised only
    for a [num_tunable] of the right length. *)
Theorem construction_error_precedence
    (perm_idx : ndarray Z) (L N : nat) (hadamard : bool) (nt : list Z)
    (bs_error : PyObj) (testing different : bool) (th ph ga : PhaseArg)
    (basis : string) :
  shape perm_idx = [S L; N] ->
  (L < length nt ->
     __init__ perm_idx hadamard (Some nt) bs_error testing different th ph ga basis
     = raise mismatch_error)
  /\ (__init__ perm_idx hadamard (Some nt) bs_error testing different th ph ga basis
      = raise units_error -> length nt = L /\ N < 2)
  /\ (length nt = L -> N < 2 ->
      __init__ perm_idx hadamard (Some nt) bs_error testing different th ph ga basis
      = raise units_error).
Proof.
  intros Hs. split; [|split].
  - intros Hlen. by apply (init_long _ L N).
  - intros Herr.
    destruct (decide (length nt < L)) as [Hshort|Hshort].
    { rewrite (init_short _ L N) in Herr by done. discriminate Herr. }
    destruct (decide (L < length nt)) as [Hlong|Hlong].
    { rewrite (init_long _ L N) in Herr by done. discriminate Herr. }
    split; [lia|].
    destruct (decide (N < 2)) as [|HN]; [done|].
    destruct (init_returns perm_idx L N hadamard nt bs_error testing different
                th ph ga basis) as [m Hm]; [done | lia | lia |].
    rewrite Hm in Herr. discriminate Herr.
  - intros Hlen HN. by apply (init_few_units _ L N).
Qed.

(** X3. With [num_tunable] omitted, construction on an (L+1) x N [perm_idx]
    fails only for N < 2 (with the [units] error); otherwise every layer
    gets the count [N // 2] and every slot of the mask is 1. *)
Theorem default_num_tunable_all_tunable
    (perm_idx : ndarray Z) (L N : nat) (hadamard : bool)
    (bs_error : PyObj) (testing different : bool) (th ph ga : PhaseArg)
    (basis : string) :
  shape perm_idx = [S L; N] ->
  (N < 2 ->
     __init__ perm_idx hadamard None bs_error testing different th ph ga basis
     = raise units_error)
  /\ (2 <= N ->
      exists m,
        __init__ perm_idx hadamard None bs_error testing different th ph ga basis
        = ret m
        /\ num_tunable m = replicate L (Z.of_nat (N / 2))
        /\ shape (mask m) = [L; N / 2]
        /\ forall l k, l < L -> k < N / 2 ->
             get2 (mask m) l k = Some (float_of_int 1)).
Proof.
  intros Hs. rewrite (init_default _ L N) by done. split.
  - intros HN. apply (init_few_units _ L N); [done | apply length_replicate | done].
  - intros HN.
    destruct (init_returns perm_idx L N hadamard (replicate L (Z.of_nat (N / 2)))
                bs_error testing different th ph ga basis)
      as [m Hm]; [done | apply length_replicate | done |].
    exists m. split; [done|].
    destruct (init_inv _ _ _ _ _ _ _ _ _ _ _ _ _ Hs Hm)
      as (_ & _ & _ & _ & Hnt & _ & _ & _ & Hshape & _ & Hget).
    repeat split; try done.
    intros l k Hl Hk.
    rewrite (Hget l (Z.of_nat (N / 2)) k) by (by apply lookup_replicate_2 || done).
    destruct (decide _) as [|Hno]; [done|].
    exfalso. apply Hno. unfold slice_stop.
    destruct (Z.of_nat (N / 2) <? 0)%Z eqn:E; [apply Z.ltb_lt in E; lia | lia].
Qed.

(** X4. A [perm_idx] that is not at least two-dimensional is refused at
    [perm_idx.shape[1]] with an [IndexError]; one with no row gives the layer
    count -1, which numpy refuses as a negative dimension. Both happen
    whether [num_tunable] is given or not. *)
Theorem malformed_perm_idx_is_refused
    (perm_idx : ndarray Z) (hadamard : bool) (num_tunable : option (list Z))
    (bs_error : PyObj) (testing different : bool) (th ph ga : PhaseArg)
    (basis : string) :
  (length (shape perm_idx) < 2 ->
     __init__ perm_idx hadamard num_tunable bs_error testing different th ph ga basis
     = raise (IndexError "tuple index out of range"))
  /\ (forall N rest, shape perm_idx = 0 :: N :: rest ->
      __init__ perm_idx hadamard num_tunable bs_error testing different th ph ga basis
      = raise (ValueError "negative dimensions are not allowed")).
Proof.
  split.
  - intros Hlen. unfold __init__, shape_at.
    rewrite (lookup_ge_None_2 (shape perm_idx) 1) by lia. reflexivity.
  - intros N rest Hs. unfold __init__, shape_at. rewrite Hs. simpl.
    destruct num_tunable as [nt|]; reflexivity.
Qed.

(** X5. Counts outside [0, N // 2] are not refused but read by the slice
    rule: slot [k] of row [l] is 1 exactly when [k] is below the count, or
    below [N // 2 + count] for a negative count. So a count of [N // 2] or
    more makes the whole row tunable, and a negative count [-j] leaves the
    last [j] slots of the row at 0. *)
Theorem mask_counts_are_clamped
    (perm_idx : ndarray Z) (L N : nat) (hadamard : bool) (nt : list Z)
    (bs_error : PyObj) (testing different : bool) (th ph ga : PhaseArg)
    (basis : string) (m : t) :
  shape perm_idx = [S L; N] ->
  __init__ perm_idx hadamard (Some nt) bs_error testing different th ph ga basis
    = ret m ->
  forall l t k, nt !! l = Some t -> k < N / 2 ->
    get2 (mask m) l k
    = Some (if decide (Z.of_nat k < (if decide (t < 0) then Z.of_nat (N / 2) + t else t))%Z
            then float_of_int 1 else float_of_int 0)
    /\ ((Z.of_nat (N / 2) <= t)%Z -> get2 (mask m) l k = Some (float_of_int 1))
    /\ ((t <= - Z.of_nat (N / 2))%Z -> get2 (mask m) l k = Some (float_of_int 0)).
Proof.
  intros Hs Hinit l t k Hl Hk.
  destruct (init_inv _ _ _ _ _ _ _ _ _ _ _ _ _ Hs Hinit)
    as (_ & _ & _ & _ & _ & _ & _ & _ & _ & _ & Hget).
  rewrite (Hget l t k Hl Hk).
  assert (k < slice_stop t (N / 2)
          <-> (Z.of_nat k < (if decide (t < 0) then Z.of_nat (N / 2) + t else t))%Z)
    as Hiff.
  { unfold slice_stop. destruct (decide (t < 0)%Z) as [Hneg|Hpos].
    - apply Z.ltb_lt in Hneg as Hb. rewrite Hb. lia.
    - assert ((t <? 0)%Z = false) as -> by (apply Z.ltb_ge; lia). lia. }
  assert ((Z.of_nat (N / 2) <= t)%Z -> k < slice_stop t (N / 2)) as Hbig.
  { intros Hb. apply Hiff. destruct (decide (t < 0)%Z); lia. }
  assert ((t <= - Z.of_nat (N / 2))%Z -> ~ k < slice_stop t (N / 2)) as Hsmall.
  { intros Hb Hyes. apply Hiff in Hyes. destruct (decide (t < 0)%Z); lia. }
  set (bound := if decide (t < 0)%Z then (Z.of_nat (N / 2) + t)%Z else t) in *.
  destruct (decide (k < slice_stop t (N / 2))) as [Hyes|Hno],
           (decide (Z.of_nat k < bound)%Z) as [Hlt|Hge];
    try tauto; repeat split; try done; tauto.
Qed.
End ConstructionOutcomes.

Section ConstructionSamples.
#[local] Existing Instance sample_numpy.
#[local] Existing Instance simple_helpers.
Import MeshModel.

(** X1 on a 3 x 4 [perm_idx] with the counts [2; 1]. *)
Lemma construction_returns_iff_witness :
  shape (zeros_perm 3 4) = [3; 4]
  /\ ((exists m,
         sample_model (zeros_perm 3 4) (Some [2%Z; 1%Z]) (PyFloat (float_of_int 0)) false false
         = ret m)
      <-> length [2%Z; 1%Z] = 2 /\ 2 <= 4).
Proof.
  split; [reflexivity|]. unfold sample_model.
  apply (construction_returns_iff (zeros_perm 3 4) 2 4). reflexivity.
Defined.

(** X2 on a 3 x 1 [perm_idx] with three counts: too long and too few
    units, the mismatch error is the one raised. *)
Lemma construction_error_precedence_witness :
  shape (zeros_perm 3 1) = [3; 1]
  /\ 2 < length [0%Z; 0%Z; 0%Z]
  /\ sample_model (zeros_perm 3 1) (Some [0%Z; 0%Z; 0%Z]) (PyFloat (float_of_int 0)) false false
     = raise mismatch_error.
Proof.
  split; [reflexivity|]. split; [simpl; lia|]. unfold sample_model.
  apply (construction_error_precedence (zeros_perm 3 1) 2 1); [reflexivity|].
  simpl. lia.
Defined.

(** X3 on a 3 x 5 [perm_idx]. *)
Lemma default_num_tunable_witness :
  shape (zeros_perm 3 5) = [3; 5]
  /\ 2 <= 5
  /\ exists m,
       sample_model (zeros_perm 3 5) None (PyFloat (float_of_int 0)) false false = ret m
       /\ num_tunable m = replicate 2 (Z.of_nat (5 / 2))
       /\ shape (mask m) = [2; 5 / 2]
       /\ forall l k, l < 2 -> k < 5 / 2 ->
            get2 (mask m) l k = Some (float_of_int 1).
Proof.
  split; [reflexivity|]. split; [lia|]. unfold sample_model.
  apply (default_num_tunable_all_tunable (zeros_perm 3 5) 2 5); [reflexivity | lia].
Defined.

(** X4 on a one-dimensional array and on an array without rows. *)
Lemma malformed_perm_idx_witness :
  length (shape (NdArray [4] [0%Z; 1%Z; 2%Z; 3%Z])) < 2
  /\ sample_model (NdArray [4] [0%Z; 1%Z; 2%Z; 3%Z]) None (PyFloat (float_of_int 0)) false false
     = raise (IndexError "tuple index out of range")
  /\ shape (@NdArray Z [0; 4] []) = [0; 4]
  /\ sample_model (NdArray [0; 4] []) (Some []) (PyFloat (float_of_int 0)) false false
     = raise (ValueError "negative dimensions are not allowed").
Proof.
  unfold sample_model.
  split; [simpl; lia|]. split.
  - apply malformed_perm_idx_is_refused. simpl. lia.
  - split; [reflexivity|].
    by apply (proj2 (malformed_perm_idx_is_refused (NdArray [0; 4] []) false (Some [])
                       (PyFloat (float_of_int 0)) false false _ _ _ _) 4 []).
Defined.

(** X5 on a one-layer mesh of four units with the count -1. *)
Lemma mask_counts_are_clamped_witness :
  exists m,
    shape (zeros_perm 2 4) = [2; 4]
    /\ sample_model (zeros_perm 2 4) (Some [(-1)%Z]) (PyFloat (float_of_int 0)) false false = ret m
    /\ [(-1)%Z] !! 0 = Some (-1)%Z
    /\ 1 < 4 / 2
    /\ get2 (mask m) 0 1
       = Some (if decide (Z.of_nat 1
                          < (if decide (-1 < 0)%Z then Z.of_nat (4 / 2) + -1 else -1))%Z
               then float_of_int 1 else float_of_int 0).
Proof.
  eexists. split; [reflexivity|]. split; [reflexivity|].
  split; [reflexivity|]. split; [cbv; lia|].
  assert (1 < 4 / 2) as Hk by (cbv; lia).
  exact (proj1 (mask_counts_are_clamped (zeros_perm 2 4) 1 4 false [(-1)%Z]
                  (PyFloat (float_of_int 0)) false false (named_phase "random_theta")
                  (named_phase "random_phi") (named_phase "random_gamma") BLOCH
                  _ eq_refl eq_refl 0 (-1)%Z 1 eq_refl Hk)).
Defined.
End ConstructionSamples.

(** * Further properties of the error accessors *)

Section AccessorOutcomes.
Context `{Helpers}.
Import MeshModel.

Lemma random_normals_finite :
  (forall st, finite (random_normal st).1) ->
  forall n st, Forall finite (random_normals n st).1.
Proof.
  intros Hfin. induction n as [|n IH]; intros st; [constructor|]. simpl.
  pose proof (Hfin st) as Hx. destruct (random_normal st) as [x st1].
  pose proof (IH st1) as Hl. destruct (random_normals n st1) as [l st2].
  by constructor.
Qed.

Lemma random_randn_finite :
  (forall st, finite (random_normal st).1) ->
  forall d0 d1 st, Forall finite (data (random_randn d0 d1 st).1).
Proof.
  intros Hfin d0 d1 st. unfold random_randn.
  pose proof (random_normals_finite Hfin (Z.to_nat d0 * Z.to_nat d1) st) as Hl.
  by destruct (random_normals _ st).
Qed.

Lemma finite_mask_value (y : float) :
  y = float_of_int 0 \/ y = float_of_int 1 -> finite y.
Proof. by intros [->| ->]. Qed.

(** Finite samples, times a zero, times finite mask entries: zeros. *)
Lemma Forall_zero_products (x : float) :
  is_zero x = true ->
  forall zs ms, Forall finite zs -> Forall finite ms ->
    Forall (fun v => is_zero v = true)
      (zip_with fmul ((fun z => fmul z x) <$> zs) ms).
Proof.
  intros Hx zs ms Hzs. revert ms.
  induction Hzs as [|z zs Hz _ IH]; intros ms Hms; [constructor|].
  destruct Hms as [|y ms Hy Hms]; [constructor|]. simpl.
  constructor; [|by apply IH].
  apply fmul_zero_l; [by apply fmul_zero_r | done].
Qed.

(** X7. On a model constructed from an (L+1) x N [perm_idx], a scalar
    [bs_error] that is a zero (the default 0.0, -0.0, or the integer 0)
    never raises and gives two error arrays whose every entry is a zero
    (0.0 or -0.0), provided the samples the generator draws are finite. *)
Theorem zero_scalar_gives_zero_errors
    (perm_idx : ndarray Z) (L N : nat) (m : t) (st : RandomState) (x : float) :
  shape perm_idx = [S L; N] -> constructed_from perm_idx m ->
  scalar_value (bs_error m) = Some x -> is_zero x = true ->
  (forall st', finite (random_normal st').1) ->
  exists e_l e_r,
    (mzi_error_matrices (MkWorld m st)).1 = ret (e_l, e_r)
    /\ Forall (fun v => is_zero v = true) (data e_l)
    /\ Forall (fun v => is_zero v = true) (data e_r).
Proof.
  intros Hs Hc Hx Hzero Hfin.
  destruct (constructed_layout _ _ _ _ Hs Hc) as (HN & Hu & Hl & _).
  assert (valid_dims m) as Hdims.
  { split; [lia|]. rewrite Hu. apply Z.div_pos; lia. }
  assert (Forall finite (data (mask m))) as Hmask.
  { eapply Forall_impl; [by apply (constructed_mask_values perm_idx L N)|].
    apply finite_mask_value. }
  rewrite (matrices_scalar m st x Hdims Hx). cbv zeta.
  destruct (use_different_errors m); simpl;
    eexists _, _; (split; [reflexivity|]);
    split; simpl; apply Forall_zero_products; try done;
    by apply random_randn_finite.
Qed.

(** X8. A tuple is examined item by item, left to right: the empty tuple
    fails at [bs_error[0]]; a first item that is no array fails at its
    [.shape]; a first array of the wrong shape raises the shape error
    whatever follows it (the second item is not looked at); and a first
    array of the right shape alone fails at [bs_error[1]]. *)
Theorem tuple_is_examined_in_order (m : t) (st : RandomState) :
  let outcome := (mzi_error_matrices (MkWorld m st)).1 in
  (bs_error m = PyTuple [] ->
     outcome = raise (IndexError "tuple index out of range"))
  /\ (forall o rest, bs_error m = PyTuple (o :: rest) -> ~ is_array o ->
        outcome = raise (AttributeError "object has no attribute 'shape'"))
  /\ (forall a rest, bs_error m = PyTuple (PyArray a :: rest) ->
        shape a <> shape (mask m) -> outcome = raise shape_error)
  /\ (forall a, bs_error m = PyTuple [PyArray a] ->
        shape a = shape (mask m) ->
        outcome = raise (IndexError "tuple index out of range")).
Proof.
  intros outcome. subst outcome.
  unfold mzi_error_matrices, mbind, get_self, when, lift, tuple_item, py_shape,
    mraise, mret, np_random_seed.
  split; [|split; [|split]].
  - intros Hbs. simpl. rewrite Hbs. by destruct (testing m).
  - intros o rest Hbs Ho. simpl. rewrite Hbs.
    destruct (testing m); destruct o; simpl in *; tauto.
  - intros a rest Hbs Ha. simpl. rewrite Hbs.
    destruct (testing m); simpl; by destruct (decide _).
  - intros a Hbs Ha. simpl. rewrite Hbs.
    destruct (testing m); simpl; by destruct (decide _).
Qed.

(** [mzi_error_tensors] leaves the world as [mzi_error_matrices] does. *)
Lemma tensors_world (w : World) :
  (mzi_error_tensors w).2 = (mzi_error_matrices w).2.
Proof.
  unfold mzi_error_tensors, mbind.
  destruct (mzi_error_matrices w) as [[e|[e_l e_r]] w1]; [done|]. simpl.
  unfold lift.
  repeat match goal with
         | |- context [stripe2 ?s ?a] => destruct (stripe2 s a); simpl; [done|]
         end.
  done.
Qed.

(** X9. Without [testing], an access with a [bs_error] that is not a scalar
    draws nothing and seeds nothing: [mzi_error_matrices] and
    [mzi_error_tensors] both leave the generator (and the model) exactly as
    they found them, whether they return or raise. *)
Theorem untested_access_leaves_generator (m : t) (st : RandomState) :
  testing m = false -> ~ is_scalar (bs_error m) ->
  (mzi_error_matrices (MkWorld m st)).2 = MkWorld m st
  /\ (mzi_error_tensors (MkWorld m st)).2 = MkWorld m st.
Proof.
  intros Ht Hs.
  assert ((mzi_error_matrices (MkWorld m st)).2 = MkWorld m st) as Hm.
  { rewrite (matrices_state_no_scalar m st Hs). unfold reseeded. by rewrite Ht. }
  split; [done|]. by rewrite tensors_world.
Qed.

Lemma coefficient_diagonal (f g : float -> float) (e : ndarray float) :
  (forall x y, fmul x y = fmul y x) ->
  coefficient f g e e = coefficient g f e e.
Proof.
  intros Hcomm. unfold coefficient. f_equal.
  induction (data e) as [|x l IH]; [done|]. simpl. by rewrite IH, Hcomm.
Qed.

(** X10. When the left and right errors are one array (an array
    [bs_error], or a scalar one without [use_different_errors]), the two
    cross tensors returned by [mzi_error_tensors] coincide, [cs = sc], as
    soon as the float product commutes. *)
Theorem cross_tensors_coincide
    (m : t) (st : RandomState) (ss cs sc cc : ndarray float) (w' : World) :
  is_array (bs_error m)
  \/ (is_scalar (bs_error m) /\ use_different_errors m = false) ->
  (forall x y, fmul x y = fmul y x) ->
  mzi_error_tensors (MkWorld m st) = (ret (ss, cs, sc, cc), w') ->
  cs = sc.
Proof.
  intros Hkind Hcomm Hrun.
  assert (forall e_l e_r w1,
             mzi_error_matrices (MkWorld m st) = (ret (e_l, e_r), w1) -> e_l = e_r)
    as Hsame.
  { intros e_l e_r w1 Hm. destruct Hkind as [Ha|[Hs Hd]].
    - destruct (bs_error m) as [| |a| | |] eqn:Hbs; simpl in Ha; try tauto.
      rewrite (matrices_array m st a Hbs) in Hm.
      destruct (decide _); [discriminate Hm|]. by injection Hm as <- <- _.
    - destruct (matrices_scalar_inv m st _ _ Hs Hm) as [Hdims [x Hx]].
      rewrite (matrices_scalar m st x Hdims Hx) in Hm. cbv zeta in Hm.
      rewrite Hd in Hm. by injection Hm as <- <- _. }
  destruct (mzi_error_matrices (MkWorld m st)) as [[e|[e_l e_r]] w1] eqn:Hm.
  { unfold mzi_error_tensors, mbind in Hrun. rewrite Hm in Hrun.
    discriminate Hrun. }
  pose proof (Hsame e_l e_r w1 eq_refl) as ->.
  destruct (tensors_run _ _ _ _ Hm)
    as (Sss & Scs & Ssc & Scc & _ & Hcs & Hsc & _ & Ht).
  rewrite Ht in Hrun. injection Hrun as _ <- <- _ _.
  rewrite (coefficient_diagonal fsin fcos) in Hsc by done.
  rewrite Hcs in Hsc. by injection Hsc as ->.
Qed.
End AccessorOutcomes.

Section AccessorOutcomeSamples.
#[local] Existing Instance sample_numpy.
#[local] Existing Instance simple_helpers.
Import MeshModel.

Lemma sample_randn_shape : @randn_shape_contract sample_numpy.
Proof. intros d0 d1 st _ _. apply random_randn_shape. Qed.

(** The samples of the concrete generator are the floats of 0, ..., 15. *)
Lemma sample_normal_finite (st : Z) : finite (@random_normal sample_numpy st).1.
Proof.
  simpl. pose proof (Z.mod_pos_bound st 16 ltac:(lia)) as Hb.
  assert (exists k, k < 16 /\ (st `mod` 16)%Z = Z.of_nat k) as (k & Hk & ->)
    by (exists (Z.to_nat (st `mod` 16)); lia).
  do 16 (destruct k as [|k]; [exact I|]). lia.
Qed.

(** X6 on the sample mesh with the scalar error 2, drawn twice. *)
Lemma constructed_error_shapes_witness :
  exists m e_l e_r,
    randn_shape_contract
    /\ shape (zeros_perm 3 4) = [3; 4]
    /\ sample_model (zeros_perm 3 4) (Some [2%Z; 1%Z]) (PyInt 2) false true = ret m
    /\ (mzi_error_matrices (MkWorld m 7%Z)).1 = ret (e_l, e_r)
    /\ shape e_l = [2; 4 / 2] /\ shape e_r = [2; 4 / 2].
Proof.
  do 3 eexists.
  split; [exact sample_randn_shape|]. split; [reflexivity|].
  split; [reflexivity|]. split; [reflexivity|].
  unfold sample_model.
  eapply (@constructed_error_shapes sample_numpy simple_helpers
            (zeros_perm 3 4) 2 4 false [2%Z; 1%Z] (PyInt 2)
            false true (named_phase "random_theta") (named_phase "random_phi")
            (named_phase "random_gamma") BLOCH _ 7%Z);
    [exact sample_randn_shape | reflexivity | reflexivity | reflexivity].
Defined.

(** X7 on the sample mesh with the integer error 0. *)
Lemma zero_scalar_witness :
  exists m,
    shape (zeros_perm 3 4) = [3; 4]
    /\ sample_model (zeros_perm 3 4) (Some [2%Z; 1%Z]) (PyInt 0) false true = ret m
    /\ scalar_value (bs_error m) = Some (float_of_int 0)
    /\ is_zero (float_of_int 0) = true
    /\ (forall st', finite (random_normal st').1)
    /\ exists e_l e_r,
        (mzi_error_matrices (MkWorld m 7%Z)).1 = ret (e_l, e_r)
        /\ Forall (fun v => is_zero v = true) (data e_l)
        /\ Forall (fun v => is_zero v = true) (data e_r).
Proof.
  eexists. split; [reflexivity|]. split; [reflexivity|]. split; [reflexivity|].
  split; [reflexivity|]. split; [exact sample_normal_finite|].
  apply (@zero_scalar_gives_zero_errors sample_numpy simple_helpers
           (zeros_perm 3 4) 2 4 _ 7%Z (float_of_int 0));
    [ reflexivity
    | apply (sample_model_constructed (zeros_perm 3 4) (Some [2%Z; 1%Z]) (PyInt 0)
               false true); reflexivity
    | reflexivity | reflexivity | exact sample_normal_finite ].
Defined.

(** X8 on four sample meshes, one for each way a tuple can go wrong before
    its second item is looked at. *)
Lemma tuple_order_witness :
  (exists m,
      sample_model (zeros_perm 3 4) (Some [2%Z; 1%Z]) (PyTuple []) false false = ret m
      /\ (mzi_error_matrices (MkWorld m 7%Z)).1
         = raise (IndexError "tuple index out of range"))
  /\ (exists m,
      sample_model (zeros_perm 3 4) (Some [2%Z; 1%Z])
        (PyTuple [PyInt 1; PyArray sample_errors]) false false = ret m
      /\ (mzi_error_matrices (MkWorld m 7%Z)).1
         = raise (AttributeError "object has no attribute 'shape'"))
  /\ (exists m,
      sample_model (zeros_perm 3 4) (Some [2%Z; 1%Z])
        (PyTuple [PyArray (NdArray [1; 2] (float_of_int <$> [1%Z; 2%Z])); PyNone])
        false false = ret m
      /\ (mzi_error_matrices (MkWorld m 7%Z)).1 = raise shape_error)
  /\ (exists m,
      sample_model (zeros_perm 3 4) (Some [2%Z; 1%Z])
        (PyTuple [PyArray sample_errors]) false false = ret m
      /\ (mzi_error_matrices (MkWorld m 7%Z)).1
         = raise (IndexError "tuple index out of range")).
Proof.
  split; [|split; [|split]]; (eexists; split; [reflexivity|]).
  - eapply (proj1 (@tuple_is_examined_in_order sample_numpy simple_helpers _ 7%Z)). reflexivity.
  - eapply (proj1 (proj2 (@tuple_is_examined_in_order sample_numpy simple_helpers _ 7%Z)));
      [reflexivity | simpl; tauto].
  - eapply (proj1 (proj2 (proj2 (@tuple_is_examined_in_order sample_numpy simple_helpers _ 7%Z))));
      [reflexivity | discriminate].
  - eapply (proj2 (proj2 (proj2 (@tuple_is_examined_in_order sample_numpy simple_helpers _ 7%Z))));
      reflexivity.
Defined.

(** X9 on the sample mesh with an explicit error array. *)
Lemma untested_access_witness :
  exists m,
    sample_model (zeros_perm 3 4) (Some [2%Z; 1%Z]) (PyArray sample_errors)
      false false = ret m
    /\ testing m = false
    /\ ~ is_scalar (bs_error m)
    /\ (mzi_error_matrices (MkWorld m 7%Z)).2 = MkWorld m 7%Z
    /\ (mzi_error_tensors (MkWorld m 7%Z)).2 = MkWorld m 7%Z.
Proof.
  eexists. split; [reflexivity|]. split; [reflexivity|].
  split; [simpl; tauto|].
  apply untested_access_leaves_generator; [reflexivity | simpl; tauto].
Defined.

(** X10 on the sample mesh with an explicit error array. *)
Lemma cross_tensors_witness :
  exists m ss cs sc cc w',
    sample_model (zeros_perm 3 4) (Some [2%Z; 1%Z]) (PyArray sample_errors)
      false false = ret m
    /\ is_array (bs_error m)
    /\ (forall x y : float, fmul x y = fmul y x)
    /\ mzi_error_tensors (MkWorld m 7%Z) = (ret (ss, cs, sc, cc), w')
    /\ cs = sc.
Proof.
  do 6 eexists. split; [reflexivity|]. split; [simpl; tauto|].
  split; [exact fmul_comm|].
  match goal with
  | |- mzi_error_tensors (MkWorld ?m ?st) = _ /\ _ =>
      split; [reflexivity|];
      eapply (@cross_tensors_coincide sample_numpy simple_helpers m st);
      [left; simpl; tauto | exact fmul_comm | reflexivity]
  end.
Defined.
End AccessorOutcomeSamples.

(** * Further properties of the topology variants *)

Section VariantOutcomes.
Context `{Helpers}.
Import MeshModel.

Lemma variant_flags (m : t) :
  built_by_variant m -> testing m = false /\ use_different_errors m = false.
Proof.
  intros [Hb|[Hb|[Hb|Hb]]].
  - destruct Hb as (units & nl & hadamard & bs & basis & th & ph & ga & Hm).
    unfold RectangularMeshModel.__init__ in Hm.
    destruct (grid_permutation _ _) as [|p]; [done|]. rewrite bind_ret in Hm.
    destruct (alternating_num_mzis _ _) as [|c]; [done|]. rewrite bind_ret in Hm.
    apply init_flags in Hm. tauto.
  - destruct Hb as (units & hadamard & bs & basis & th & ph & ga & Hm).
    unfold TriangularMeshModel.__init__ in Hm.
    destruct (grid_permutation _ _) as [|p]; [done|]. rewrite bind_ret in Hm.
    destruct (TriangularMeshModel.num_mzis _) as [|c]; [done|]. rewrite bind_ret in Hm.
    apply init_flags in Hm. tauto.
  - destruct Hb as (nl & hadamard & bs & basis & th & ph & ga & Hm).
    unfold ButterflyMeshModel.__init__ in Hm.
    destruct (butterfly_permutation _) as [|p]; [done|]. rewrite bind_ret in Hm.
    apply init_flags in Hm. tauto.
  - destruct Hb as (units & pb & ll & fr & bs & hadamard & th & ph & ga & p & Hp & <-).
    unfold PermutingRectangularMeshModel.__init__ in Hp.
    destruct (PermutingRectangularMeshModel.resolve_blocks _ _ _ _)
      as [|[blocks freqs]]; [done|]. rewrite bind_ret in Hp.
    destruct (PermutingRectangularMeshModel.num_mzis _ _) as [|c]; [done|].
    rewrite bind_ret in Hp.
    destruct (prm_permutation _ _ _ _) as [|perm]; [done|]. rewrite bind_ret in Hp.
    destruct (__init__ _ _ _ _ _ _ _ _ _ _) as [|base] eqn:Hbase; [done|].
    rewrite bind_ret in Hp. injection Hp as <-. simpl.
    apply init_flags in Hbase. tauto.
Qed.

(** A constructed model has dimensions [randn] accepts, whatever the shape
    of [perm_idx]: the two checks of lines 54-57 passed. *)
Lemma constructed_valid_dims perm_idx m :
  constructed_from perm_idx m -> valid_dims m.
Proof.
  intros (hadamard & nto & bs & testing & different & th & ph & ga & basis & Hm).
  revert Hm. unfold __init__, shape_at.
  destruct (shape perm_idx !! 1) as [c|]; [|done].
  destruct (shape perm_idx !! 0) as [r|]; [|done]. simpl.
  destruct nto as [nt|]; simpl;
    [|destruct (np_full 1%Z _) as [|ones]; [done|]; simpl];
    (destruct (np_full _ _) as [|mask0]; [done|]); simpl;
    destruct (split_phase_arg th), (split_phase_arg ph), (split_phase_arg ga);
    (destruct (mask_loop _ _ _) as [|mask1]; [done|]); simpl;
    (destruct (decide _) as [|Hlen]; [done|]);
    (destruct (decide _) as [|Hu]; [done|]);
    intros Hm; injection Hm as <-; (split; simpl; [lia | apply Z.div_pos; lia]).
Qed.

(** A mesh built by a variant is a model [MeshModel.__init__] returned. *)
Lemma variant_constructed (m : t) :
  built_by_variant m -> exists perm_idx, constructed_from perm_idx m.
Proof.
  intros [Hb|[Hb|[Hb|Hb]]].
  - destruct Hb as (units & nl & hadamard & bs & basis & th & ph & ga & Hm).
    unfold RectangularMeshModel.__init__ in Hm.
    destruct (grid_permutation _ _) as [|p]; [done|]. rewrite bind_ret in Hm.
    destruct (alternating_num_mzis _ _) as [|c]; [done|]. rewrite bind_ret in Hm.
    exists p. by do 9 eexists.
  - destruct Hb as (units & hadamard & bs & basis & th & ph & ga & Hm).
    unfold TriangularMeshModel.__init__ in Hm.
    destruct (grid_permutation _ _) as [|p]; [done|]. rewrite bind_ret in Hm.
    destruct (TriangularMeshModel.num_mzis _) as [|c]; [done|]. rewrite bind_ret in Hm.
    exists p. by do 9 eexists.
  - destruct Hb as (nl & hadamard & bs & basis & th & ph & ga & Hm).
    unfold ButterflyMeshModel.__init__ in Hm.
    destruct (butterfly_permutation _) as [|p]; [done|]. rewrite bind_ret in Hm.
    exists p. by do 9 eexists.
  - destruct Hb as (units & pb & ll & fr & bs & hadamard & th & ph & ga & p & Hp & <-).
    unfold PermutingRectangularMeshModel.__init__ in Hp.
    destruct (PermutingRectangularMeshModel.resolve_blocks _ _ _ _)
      as [|[blocks freqs]]; [done|]. rewrite bind_ret in Hp.
    destruct (PermutingRectangularMeshModel.num_mzis _ _) as [|c]; [done|].
    rewrite bind_ret in Hp.
    destruct (prm_permutation _ _ _ _) as [|perm]; [done|]. rewrite bind_ret in Hp.
    destruct (__init__ _ _ _ _ _ _ _ _ _ _) as [|base] eqn:Hbase; [done|].
    rewrite bind_ret in Hp. injection Hp as <-. simpl.
    exists perm. by do 9 eexists.
Qed.

(** X11. None of the four variant constructors passes [testing] or
    [use_different_errors] on, so a mesh built by any of them has both
    unset: with a scalar [bs_error] an access draws exactly one array from
    the generator where it stands (no seeding). With a float, or an int
    within the [float64] range, the left and right errors are that one
    array, scaled and masked; with an int beyond that range the access
    raises [OverflowError] after the draw. *)
Theorem variants_draw_one_error_array (m : t) :
  built_by_variant m ->
  testing m = false /\ use_different_errors m = false
  /\ forall st, is_scalar (bs_error m) ->
       let r := random_randn (num_layers m) (units m / 2)%Z st in
       (forall x, scalar_value (bs_error m) = Some x ->
          let e := np_multiply (np_scale_r r.1 x) (mask m) in
          mzi_error_matrices (MkWorld m st) = (ret (e, e), MkWorld m r.2))
       /\ (scalar_value (bs_error m) = None ->
           mzi_error_matrices (MkWorld m st) = (raise overflow_error, MkWorld m r.2)).
Proof.
  intros Hb. destruct (variant_flags m Hb) as [Ht Hd].
  destruct (variant_constructed m Hb) as [perm_idx Hc].
  pose proof (constructed_valid_dims _ _ Hc) as Hdims.
  do 2 (split; [done|]). intros st Hs r. subst r. split.
  - intros x Hx. rewrite (matrices_scalar m st x Hdims Hx). cbv zeta.
    unfold reseeded. by rewrite Hd, Ht.
  - intros Hx. rewrite (matrices_scalar_overflow m st Hdims Hs Hx).
    unfold reseeded. by rewrite Ht.
Qed.

(** X12. A negative [num_layers] never gives a rectangular mesh: it is
    truthy, so it is used as given; if the permutation provider refuses it
    its error propagates, and if the provider returns, [np.ones] refuses the
    negative dimension. *)
Theorem rectangular_negative_layers_refused
    (units n : Z) (hadamard : bool) (bs_error : PyObj) (basis : string)
    (th ph ga : PhaseArg) :
  (n < 0)%Z ->
  (forall e, grid_permutation units n = raise e ->
     RectangularMeshModel.__init__ units (Some n) hadamard bs_error basis th ph ga
     = raise e)
  /\ (forall p, grid_permutation units n = ret p ->
        RectangularMeshModel.__init__ units (Some n) hadamard bs_error basis th ph ga
        = raise (ValueError "negative dimensions are not allowed"))
  /\ (forall m,
        RectangularMeshModel.__init__ units (Some n) hadamard bs_error basis th ph ga
        <> ret m).
Proof.
  intros Hn. unfold RectangularMeshModel.__init__.
  rewrite resolve_num_layers_requested. simpl.
  destruct (decide (n = 0)%Z) as [|_]; [lia|].
  split; [|split].
  - by intros e ->.
  - intros p ->. rewrite bind_ret. by rewrite alternating_num_mzis_neg.
  - intros m. destruct (grid_permutation units n) as [e|p]; [done|].
    rewrite bind_ret. by rewrite alternating_num_mzis_neg.
Qed.

Lemma slice_stop_within (t : Z) (len : nat) :
  (0 <= t <= Z.of_nat len)%Z -> slice_stop t len = Z.to_nat t.
Proof.
  intros Ht. unfold slice_stop.
  assert ((t <? 0)%Z = false) as -> by (apply Z.ltb_ge; lia). lia.
Qed.

(** X13. The mask of a rectangular mesh: every slot of an even layer is
    tunable; in an odd layer every slot is tunable when [units] is odd, and
    every slot but the last when [units] is even. *)
Theorem rectangular_mask_pattern
    (units : Z) (num_layers : option Z) (L : nat) (hadamard : bool)
    (bs_error : PyObj) (basis : string) (th ph ga : PhaseArg) (perm_idx : ndarray Z) :
  (2 <= units)%Z ->
  requested_layers units num_layers = Z.of_nat L ->
  grid_permutation units (Z.of_nat L) = ret perm_idx ->
  shape perm_idx = [S L; Z.to_nat units] ->
  exists m,
    RectangularMeshModel.__init__ units num_layers hadamard bs_error basis th ph ga = ret m
    /\ shape (mask m) = [L; Z.to_nat (units / 2)]
    /\ forall l k, l < L -> k < Z.to_nat (units / 2) ->
         get2 (mask m) l k
         = Some (if decide (Nat.even l = false /\ Z.even units = true
                            /\ k = Z.to_nat (units / 2) - 1)
                 then float_of_int 0 else float_of_int 1).
Proof.
  intros Hu HL Hgrid Hshape.
  rewrite (rectangular_init_base _ _ L _ _ _ _ _ _ perm_idx) by done.
  destruct (init_returns perm_idx L (Z.to_nat units) hadamard
              (alternating_policy units L) bs_error false false th ph ga basis)
    as [m Hm]; [done | apply alternating_policy_length | lia |].
  exists m. split; [done|].
  destruct (init_inv _ _ _ _ _ _ _ _ _ _ _ _ _ Hshape Hm)
    as (_ & _ & _ & _ & _ & _ & _ & _ & Hmask & _ & Hget).
  assert (Z.to_nat units / 2 = Z.to_nat (units / 2)) as Hhalf.
  { change 2 with (Z.to_nat 2). by rewrite <- Z2Nat.inj_div by lia. }
  rewrite Hhalf in Hmask, Hget. split; [done|].
  intros l k Hl Hk.
  rewrite (Hget l _ k (alternating_policy_lookup units L l Hl) Hk).
  pose proof (Zmod_even units) as Hmod.
  f_equal. destruct (Nat.even l) eqn:El.
  - rewrite slice_stop_within by lia.
    destruct (decide (k < _)) as [|Hc]; [|lia].
    destruct (decide _) as [[? _]|]; done.
  - rewrite slice_stop_within by (Z.div_mod_to_equations; lia).
    destruct (Z.even units) eqn:Eu.
    + destruct (decide (k < _)) as [Hlt|Hge];
        destruct (decide _) as [(_ & _ & Hlast)|Hno]; try done.
      * exfalso. revert Hlt. rewrite Hlast. Z.div_mod_to_equations. lia.
      * exfalso. apply Hno. repeat split; try done.
        revert Hge Hk. Z.div_mod_to_equations. lia.
    + destruct (decide (k < _)) as [Hlt|Hge];
        destruct (decide _) as [(_ & ? & _)|Hno]; try done.
      exfalso. revert Hge Hk. Z.div_mod_to_equations. lia.
Qed.
End VariantOutcomes.

(** ** Totals and symmetry of the counts *)

Section VariantTotals.
Context `{Helpers}.
Import MeshModel.

Lemma sum_list_Z_cons x l : sum_list_Z (x :: l) = (x + sum_list_Z l)%Z.
Proof. reflexivity. Qed.

Lemma sum_list_Z_app l1 l2 :
  sum_list_Z (l1 ++ l2) = (sum_list_Z l1 + sum_list_Z l2)%Z.
Proof.
  induction l1 as [|x l1 IH]; [done|].
  rewrite <- app_comm_cons, !sum_list_Z_cons, IH. lia.
Qed.

Lemma sum_list_Z_reverse l : sum_list_Z (reverse l) = sum_list_Z l.
Proof.
  induction l as [|x l IH]; [done|].
  rewrite reverse_cons, sum_list_Z_app, IH, !sum_list_Z_cons.
  change (sum_list_Z []) with 0%Z. lia.
Qed.

Lemma alternating_policy_S units n :
  alternating_policy units (S n)
  = alternating_policy units n
    ++ [if Nat.even n then (units / 2)%Z else ((units - 1) / 2)%Z].
Proof. unfold alternating_policy. by rewrite seq_S, fmap_app. Qed.

(** The counts of an even number of layers come in pairs. *)
Lemma sum_alternating units (k : nat) :
  sum_list_Z (alternating_policy units (2 * k))
  = (Z.of_nat k * (units / 2 + (units - 1) / 2))%Z
  /\ sum_list_Z (alternating_policy units (S (2 * k)))
     = (Z.of_nat k * (units / 2 + (units - 1) / 2) + units / 2)%Z.
Proof.
  induction k as [|k [IH1 IH2]].
  - split; [reflexivity|].
    change (2 * 0) with 0. rewrite alternating_policy_S.
    change (alternating_policy units 0) with (@nil Z).
    change (Nat.even 0) with true. rewrite app_nil_l, sum_list_Z_cons.
    change (sum_list_Z []) with 0%Z. lia.
  - replace (2 * S k) with (S (S (2 * k))) by lia.
    assert (Nat.even (2 * k) = true) as Heven.
    { rewrite Nat.even_mul. reflexivity. }
    assert (sum_list_Z (alternating_policy units (S (S (2 * k))))
            = (Z.of_nat (S k) * (units / 2 + (units - 1) / 2))%Z) as Htwo.
    { rewrite alternating_policy_S, sum_list_Z_app, IH2.
      rewrite Nat.even_succ, <- Nat.negb_even, Heven.
      rewrite sum_list_Z_cons. change (sum_list_Z []) with 0%Z.
      cbn [negb]. lia. }
    split; [done|].
    rewrite alternating_policy_S, sum_list_Z_app, Htwo.
    rewrite Nat.even_succ_succ, Heven, sum_list_Z_cons.
    change (sum_list_Z []) with 0%Z. lia.
Qed.

(** X14. The number of tunable devices of a rectangular mesh of L layers
    is ceil(L/2) * floor(N/2) + floor(L/2) * floor((N-1)/2); with the default
    L = N this is N (N - 1) / 2, the number of devices of a universal
    N-port mesh. *)
Theorem rectangular_total
    (units : Z) (num_layers : option Z) (L : nat) (hadamard : bool)
    (bs_error : PyObj) (basis : string) (th ph ga : PhaseArg) (perm_idx : ndarray Z) :
  (2 <= units)%Z ->
  requested_layers units num_layers = Z.of_nat L ->
  grid_permutation units (Z.of_nat L) = ret perm_idx ->
  shape perm_idx = [S L; Z.to_nat units] ->
  exists m,
    RectangularMeshModel.__init__ units num_layers hadamard bs_error basis th ph ga = ret m
    /\ total_tunable m
       = (Z.of_nat ((L + 1) / 2) * (units / 2) + Z.of_nat (L / 2) * ((units - 1) / 2))%Z
    /\ (Z.of_nat L = units -> total_tunable m = (units * (units - 1) / 2)%Z).
Proof.
  intros Hu HL Hgrid Hshape.
  rewrite (rectangular_init_base _ _ L _ _ _ _ _ _ perm_idx) by done.
  destruct (init_returns perm_idx L (Z.to_nat units) hadamard
              (alternating_policy units L) bs_error false false th ph ga basis)
    as [m Hm]; [done | apply alternating_policy_length | lia |].
  exists m. split; [done|].
  destruct (init_inv _ _ _ _ _ _ _ _ _ _ _ _ _ Hshape Hm)
    as (_ & _ & _ & _ & Hnt & _).
  unfold total_tunable. rewrite Hnt.
  destruct (sum_alternating units (L / 2)) as [Heven Hodd].
  pose proof (Nat.div_mod_eq L 2) as Hdiv.
  pose proof (Nat.mod_upper_bound L 2) as Hmod.
  set (a := (units / 2)%Z) in *. set (b := ((units - 1) / 2)%Z) in *.
  set (K := Z.of_nat (L / 2)) in *.
  assert (a + b = units - 1)%Z as Hab.
  { subst a b. Z.div_mod_to_equations. lia. }
  destruct (decide (L mod 2 = 0)) as [Hev|Hod].
  - assert (2 * (L / 2) = L) as Hk by lia. rewrite Hk in Heven.
    assert ((L + 1) / 2 = L / 2) as ->
      by (symmetry; apply (Nat.div_unique _ 2 _ 1); lia).
    fold K. rewrite Heven. split; [lia|].
    intros HLu. rewrite Hab.
    assert (units = 2 * K)%Z as Hunits by lia.
    apply Z.div_unique_exact; [done | nia].
  - assert (S (2 * (L / 2)) = L) as Hk by lia. rewrite Hk in Hodd.
    assert ((L + 1) / 2 = S (L / 2)) as ->
      by (symmetry; apply (Nat.div_unique _ 2 _ 0); lia).
    rewrite Nat2Z.inj_succ. fold K. rewrite Hodd. split; [lia|].
    intros HLu. rewrite Hab.
    assert (units = 2 * K + 1)%Z as Hunits by lia.
    assert (a = K) as Ha.
    { subst a. Z.div_mod_to_equations. lia. }
    rewrite Ha. apply Z.div_unique_exact; [done | nia].
Qed.

Lemma arange_up_snoc (n : nat) :
  arange 1 (Z.of_nat (S n) + 1) 1 = arange 1 (Z.of_nat n + 1) 1 ++ [(Z.of_nat n + 1)%Z].
Proof.
  unfold arange. change (0 <? 1)%Z with true. cbv iota.
  replace (Z.to_nat ((Z.of_nat (S n) + 1 - 1 + 1 - 1) / 1)) with (S n)
    by (rewrite Z.div_1_r; lia).
  replace (Z.to_nat ((Z.of_nat n + 1 - 1 + 1 - 1) / 1)) with n
    by (rewrite Z.div_1_r; lia).
  rewrite seq_S, fmap_app. f_equal. cbn [fmap list_fmap]. f_equal. lia.
Qed.

Lemma arange_down_reverse (n : nat) :
  arange (Z.of_nat n) 0 (-1) = reverse (arange 1 (Z.of_nat n + 1) 1).
Proof.
  assert (length (arange 1 (Z.of_nat n + 1) 1) = n) as Hup
    by (rewrite arange_up_length; lia).
  assert (length (arange (Z.of_nat n) 0 (-1)) = n) as Hdown
    by (rewrite arange_down_length; lia).
  apply list_eq. intros i. destruct (decide (i < n)) as [Hi|Hi].
  - rewrite arange_lookup by lia.
    rewrite reverse_lookup by lia. rewrite Hup.
    rewrite arange_lookup by lia. f_equal. lia.
  - rewrite !lookup_ge_None_2; [done | rewrite length_reverse; lia | lia].
Qed.

(** The sum of ceil(x/2) for x = 1, ..., n. *)
Lemma half_sum_up (k : nat) :
  sum_list_Z ((fun x => ((x + 1) / 2)%Z) <$> arange 1 (Z.of_nat (2 * k) + 1) 1)
  = (Z.of_nat k * (Z.of_nat k + 1))%Z
  /\ sum_list_Z ((fun x => ((x + 1) / 2)%Z) <$> arange 1 (Z.of_nat (S (2 * k)) + 1) 1)
     = ((Z.of_nat k + 1) * (Z.of_nat k + 1))%Z.
Proof.
  induction k as [|k [IH1 IH2]]; [split; reflexivity|].
  replace (2 * S k) with (S (S (2 * k))) by lia.
  assert (sum_list_Z ((fun x => ((x + 1) / 2)%Z)
                        <$> arange 1 (Z.of_nat (S (S (2 * k))) + 1) 1)
          = (Z.of_nat (S k) * (Z.of_nat (S k) + 1))%Z) as Htwo.
  { rewrite arange_up_snoc, fmap_app, sum_list_Z_app, IH2.
    cbn [fmap list_fmap]. rewrite sum_list_Z_cons.
    change (sum_list_Z []) with 0%Z.
    assert ((Z.of_nat (S (2 * k)) + 1 + 1) / 2 = Z.of_nat k + 1)%Z as ->
      by (Z.div_mod_to_equations; lia).
    nia. }
  split; [done|].
  rewrite arange_up_snoc, fmap_app, sum_list_Z_app, Htwo.
  cbn [fmap list_fmap]. rewrite sum_list_Z_cons.
  change (sum_list_Z []) with 0%Z.
  assert ((Z.of_nat (S (S (2 * k))) + 1 + 1) / 2 = Z.of_nat k + 2)%Z as ->
    by (Z.div_mod_to_equations; lia).
  nia.
Qed.

(** The counts of a triangular mesh, around their middle entry. *)
Lemma triangular_counts (units : Z) :
  (2 <= units)%Z ->
  let n := Z.to_nat (units - 2) in
  let up := arange 1 (Z.of_nat n + 1) 1 in
  TriangularMeshModel.num_mzis units
  = ret ((fun x => ((x + 1) / 2)%Z) <$> (up ++ [(Z.of_nat n + 1)%Z] ++ reverse up)).
Proof.
  intros Hu n up. subst up. unfold TriangularMeshModel.num_mzis.
  replace units with (Z.of_nat (S n) + 1)%Z at 1 by lia.
  replace (units - 2)%Z with (Z.of_nat n) by lia.
  rewrite arange_up_snoc, arange_down_reverse.
  unfold np_hstack. rewrite bind_ret. cbn [concat].
  by rewrite app_nil_r, <- app_assoc.
Qed.

(** A triangular constructor call, as the base constructor call it makes. *)
Lemma triangular_init_base units hadamard bs_error basis th ph ga perm_idx counts :
  grid_permutation units (2 * units - 3)%Z = ret perm_idx ->
  TriangularMeshModel.num_mzis units = ret counts ->
  TriangularMeshModel.__init__ units hadamard bs_error basis th ph ga
  = __init__ perm_idx hadamard (Some counts) bs_error false false th ph ga basis.
Proof.
  intros Hgrid Hcounts. unfold TriangularMeshModel.__init__.
  by rewrite Hgrid, bind_ret, Hcounts, bind_ret.
Qed.

(** X15. A triangular mesh of N units has N (N - 1) / 2 tunable devices,
    as many as a rectangular mesh of N layers. *)
Theorem triangular_total
    (units : Z) (hadamard : bool) (bs_error : PyObj) (basis : string)
    (th ph ga : PhaseArg) (perm_idx : ndarray Z) :
  (2 <= units)%Z ->
  grid_permutation units (2 * units - 3)%Z = ret perm_idx ->
  shape perm_idx = [S (Z.to_nat (2 * units - 3)); Z.to_nat units] ->
  exists m,
    TriangularMeshModel.__init__ units hadamard bs_error basis th ph ga = ret m
    /\ total_tunable m = (units * (units - 1) / 2)%Z.
Proof.
  intros Hu Hgrid Hshape.
  pose proof (triangular_counts units Hu) as Hcounts. cbv zeta in Hcounts.
  destruct (triangular_num_mzis units Hu) as (counts & Hc & Hlen & _).
  rewrite (triangular_init_base _ _ _ _ _ _ _ perm_idx counts) by done.
  rewrite Hcounts in Hc. injection Hc as Hc.
  destruct (init_returns perm_idx (Z.to_nat (2 * units - 3)) (Z.to_nat units) hadamard
              counts bs_error false false th ph ga basis)
    as [m Hm]; [done | done | lia |].
  exists m. split; [done|].
  destruct (init_inv _ _ _ _ _ _ _ _ _ _ _ _ _ Hshape Hm)
    as (_ & _ & _ & _ & Hnt & _).
  unfold total_tunable. rewrite Hnt, <- Hc.
  set (n := Z.to_nat (units - 2)) in *.
  rewrite cons_middle, app_assoc, <- arange_up_snoc.
  rewrite fmap_app, sum_list_Z_app, fmap_reverse, sum_list_Z_reverse.
  destruct (half_sum_up (n / 2)) as [Heven Hodd].
  destruct (half_sum_up (S (n / 2))) as [Heven' _].
  pose proof (Nat.div_mod_eq n 2) as Hdiv.
  pose proof (Nat.mod_upper_bound n 2) as Hmod.
  assert (units = Z.of_nat n + 2)%Z as Hunits by lia.
  rewrite Nat2Z.inj_succ in Heven'.
  set (K := Z.of_nat (n / 2)) in *.
  destruct (decide (n mod 2 = 0)) as [Hev|Hod].
  - assert (2 * (n / 2) = n) as Hk by lia. rewrite Hk in Heven, Hodd.
    rewrite Heven, Hodd.
    assert (Z.of_nat n = 2 * K)%Z as Hn by lia.
    apply Z.div_unique_exact; [done | nia].
  - assert (S (2 * (n / 2)) = n) as Hk by lia. rewrite Hk in Hodd.
    assert (2 * S (n / 2) = S n) as Hk' by lia. rewrite Hk' in Heven'.
    rewrite Heven', Hodd.
    assert (Z.of_nat n = 2 * K + 1)%Z as Hn by lia.
    apply Z.div_unique_exact; [done | nia].
Qed.

(** X16. The counts of a triangular mesh read the same from both ends, and
    every one of them lies between 1 and floor(N/2): no layer is without a
    tunable device and no count exceeds the width of the mask. *)
Theorem triangular_counts_symmetric
    (units : Z) (hadamard : bool) (bs_error : PyObj) (basis : string)
    (th ph ga : PhaseArg) (perm_idx : ndarray Z) :
  (2 <= units)%Z ->
  grid_permutation units (2 * units - 3)%Z = ret perm_idx ->
  shape perm_idx = [S (Z.to_nat (2 * units - 3)); Z.to_nat units] ->
  exists m,
    TriangularMeshModel.__init__ units hadamard bs_error basis th ph ga = ret m
    /\ reverse (num_tunable m) = num_tunable m
    /\ Forall (fun c => 1 <= c <= units / 2)%Z (num_tunable m).
Proof.
  intros Hu Hgrid Hshape.
  pose proof (triangular_counts units Hu) as Hcounts. cbv zeta in Hcounts.
  destruct (triangular_num_mzis units Hu) as (counts & Hc & Hlen & Hget).
  rewrite (triangular_init_base _ _ _ _ _ _ _ perm_idx counts) by done.
  destruct (init_returns perm_idx (Z.to_nat (2 * units - 3)) (Z.to_nat units) hadamard
              counts bs_error false false th ph ga basis)
    as [m Hm]; [done | done | lia |].
  exists m. split; [done|].
  destruct (init_inv _ _ _ _ _ _ _ _ _ _ _ _ _ Hshape Hm)
    as (_ & _ & _ & _ & Hnt & _).
  rewrite Hnt. split.
  - rewrite Hcounts in Hc. injection Hc as <-.
    rewrite <- fmap_reverse. f_equal.
    rewrite reverse_app, reverse_cons, reverse_involutive.
    by rewrite <- app_assoc.
  - apply Forall_lookup. intros i c Hi.
    pose proof (lookup_lt_Some _ _ _ Hi) as Hlt.
    destruct (Hget (Z.of_nat i)) as (c' & Hc' & Hceil); [lia|].
    rewrite Nat2Z.id, Hi in Hc'. injection Hc' as <-.
    revert Hceil. unfold is_ceil_half, triangle_profile.
    destruct (decide _); intros ?; Z.div_mod_to_equations; lia.
Qed.
End VariantTotals.

(** ** The permuting and butterfly meshes, and the phase initializers *)

Section OtherVariants.
Context `{Helpers}.
Import MeshModel.

Lemma num_mzis_loop_neg units : forall blocks acc,
  Exists (fun b => b < 0)%Z blocks ->
  PermutingRectangularMeshModel.num_mzis_loop units blocks acc
  = raise (ValueError "negative dimensions are not allowed").
Proof.
  induction blocks as [|b blocks IH]; intros acc Hex; [by inversion Hex|].
  simpl. destruct (decide (b < 0)%Z) as [Hb|Hb].
  - by rewrite alternating_num_mzis_neg.
  - rewrite alternating_num_mzis_eq, bind_ret by lia.
    apply IH. by inversion Hex; subst.
Qed.

(** X17. A permuting rectangular mesh is constructed only from a block
    list that is not empty and holds no negative size: an empty list is
    refused by [np.hstack], a negative size by [np.ones], before the
    permutation provider is called. *)
Theorem permuting_blocks_are_checked
    (units : Z) (tunable_layers_per_block : option Z)
    (num_tunable_layers_list sampling_frequencies : option (list Z))
    (bs_error : PyObj) (hadamard : bool) (th ph ga : PhaseArg)
    (blocks freqs : list Z) :
  let construct :=
    PermutingRectangularMeshModel.__init__ units tunable_layers_per_block
      num_tunable_layers_list sampling_frequencies bs_error hadamard th ph ga in
  PermutingRectangularMeshModel.resolve_blocks units tunable_layers_per_block
    num_tunable_layers_list sampling_frequencies = ret (blocks, freqs) ->
  (blocks = [] ->
     construct = raise (ValueError "need at least one array to concatenate"))
  /\ (Exists (fun b => b < 0)%Z blocks ->
      construct = raise (ValueError "negative dimensions are not allowed"))
  /\ (forall p, construct = ret p ->
        blocks <> [] /\ Forall (fun b => 0 <= b)%Z blocks).
Proof.
  intros construct Hres. subst construct.
  unfold PermutingRectangularMeshModel.__init__. rewrite Hres, bind_ret.
  split; [|split].
  - by intros ->.
  - intros Hneg. unfold PermutingRectangularMeshModel.num_mzis.
    by rewrite num_mzis_loop_neg.
  - intros p Hp.
    destruct (PermutingRectangularMeshModel.num_mzis units blocks)
      as [|counts] eqn:Hcounts; [done|].
    by apply num_mzis_inv in Hcounts as (? & ? & _).
Qed.

(** X18. A butterfly mesh takes its size from the array the permutation
    provider returns, not from its [num_layers] argument: for an
    (L+1) x N array it has L layers of N units, each with floor(N/2) tunable
    devices and a mask of ones, L * floor(N/2) devices in all; N < 2 is
    refused. *)
Theorem butterfly_layout
    (n : Z) (hadamard : bool) (bs_error : PyObj) (basis : string)
    (th ph ga : PhaseArg) (perm_idx : ndarray Z) (L N : nat) :
  butterfly_permutation n = ret perm_idx ->
  shape perm_idx = [S L; N] ->
  (N < 2 ->
     ButterflyMeshModel.__init__ n hadamard bs_error basis th ph ga = raise units_error)
  /\ (2 <= N ->
      exists m,
        ButterflyMeshModel.__init__ n hadamard bs_error basis th ph ga = ret m
        /\ num_layers m = Z.of_nat L /\ units m = Z.of_nat N
        /\ num_tunable m = replicate L (Z.of_nat (N / 2))
        /\ total_tunable m = (Z.of_nat L * Z.of_nat (N / 2))%Z
        /\ forall l k, l < L -> k < N / 2 ->
             get2 (mask m) l k = Some (float_of_int 1)).
Proof.
  intros Hperm Hs. unfold ButterflyMeshModel.__init__.
  rewrite Hperm, bind_ret, (init_default _ L N) by done. split.
  - intros HN. apply (init_few_units _ L N); [done | apply length_replicate | done].
  - intros HN.
    destruct (init_returns perm_idx L N hadamard (replicate L (Z.of_nat (N / 2)))
                bs_error false false th ph ga basis)
      as [m Hm]; [done | apply length_replicate | done |].
    exists m. split; [done|].
    destruct (init_inv _ _ _ _ _ _ _ _ _ _ _ _ _ Hs Hm)
      as (_ & _ & Hunits & Hlayers & Hnt & _ & _ & _ & _ & _ & Hget).
    do 3 (split; [done|]). split.
    + unfold total_tunable. rewrite Hnt. clear.
      induction L as [|L IH]; [done|].
      change (replicate (S L) (Z.of_nat (N / 2)))
        with (Z.of_nat (N / 2) :: replicate L (Z.of_nat (N / 2))).
      rewrite sum_list_Z_cons, IH. lia.
    + intros l k Hl Hk.
      rewrite (Hget l (Z.of_nat (N / 2)) k) by (by apply lookup_replicate_2 || done).
      rewrite slice_stop_within by lia.
      destruct (decide _) as [|Hno]; [done | lia].
Qed.

(** What [init] reads of a constructed model, in terms of the arguments
    of the constructor. *)
Lemma init_reads perm_idx hadamard nto bs_error testing different th ph ga basis m :
  __init__ perm_idx hadamard nto bs_error testing different th ph ga basis = ret m ->
  units m = Z.of_nat (default 0 (shape perm_idx !! 1))
  /\ (num_layers m + 1)%Z = Z.of_nat (default 0 (shape perm_idx !! 0))
  /\ MeshModel.hadamard m = hadamard /\ MeshModel.testing m = testing
  /\ theta_init m = phase_init th /\ phi_init m = phase_init ph
  /\ gamma_init m = phase_init ga.
Proof.
  unfold __init__, shape_at, phase_init.
  destruct (shape perm_idx !! 1) as [c|]; [|done].
  destruct (shape perm_idx !! 0) as [r|]; [|done]. simpl.
  destruct nto as [nt|]; simpl;
    [|destruct (np_full 1%Z _) as [|ones]; [done|]; simpl];
    (destruct (np_full _ _) as [|mask0]; [done|]); simpl;
    destruct (split_phase_arg th), (split_phase_arg ph), (split_phase_arg ga);
    (destruct (mask_loop _ _ _) as [|mask1]; [done|]); simpl;
    (destruct (decide _) as [|Hlen]; [done|]);
    (destruct (decide _) as [|Hu]; [done|]);
    intros Hm; injection Hm as <-; simpl; repeat split; lia.
Qed.

(** [init] reads seven fields of the model and the generator, nothing
    else. *)
Lemma init_cong (m1 m2 : t) (st : RandomState) :
  units m1 = units m2 -> num_layers m1 = num_layers m2 ->
  hadamard m1 = hadamard m2 -> testing m1 = testing m2 ->
  theta_init m1 = theta_init m2 -> phi_init m1 = phi_init m2 ->
  gamma_init m1 = gamma_init m2 ->
  (init (MkWorld m1 st)).1 = (init (MkWorld m2 st)).1
  /\ np_random (init (MkWorld m1 st)).2 = np_random (init (MkWorld m2 st)).2.
Proof.
  intros Hu Hl Hh Ht Hth Hph Hga.
  unfold init, mbind, get_self, mret, resolve_init, call_provider. simpl.
  rewrite Hu, Hl, Hh, Ht, Hth, Hph, Hga.
  destruct (theta_init m2), (phi_init m2), (gamma_init m2); simpl;
    repeat match goal with
           | |- context [get_initializer ?a ?b ?c ?d ?e ?s] =>
               destruct (get_initializer a b c d e s) as [[?|?] ?]; simpl; try done
           | |- context [PhaseInitializer ?a ?b ?s] =>
               destruct (PhaseInitializer a b s) as [[?|?] ?]; simpl; try done
           end.
Qed.

(** X19. The phase initializers of a constructed model depend only on the
    shape of [perm_idx], on [hadamard], on [testing], on the initializer
    part of the three phase arguments and on the state of the generator
    (the providers may seed it or draw from it): on two models that agree
    on these, an access from one generator state gives the same outcome
    (value or exception) and leaves the generator in the same state,
    whatever [num_tunable], [bs_error], [use_different_errors], [basis],
    the phase functions and the entries of [perm_idx] are. *)
Theorem init_depends_on_shape_and_names
    (perm_idx1 perm_idx2 : ndarray Z) (hadamard testing : bool)
    (nt1 nt2 : option (list Z)) (bs1 bs2 : PyObj) (d1 d2 : bool)
    (th1 ph1 ga1 th2 ph2 ga2 : PhaseArg) (basis1 basis2 : string)
    (m1 m2 : t) (st : RandomState) :
  shape perm_idx1 = shape perm_idx2 ->
  phase_init th1 = phase_init th2 ->
  phase_init ph1 = phase_init ph2 ->
  phase_init ga1 = phase_init ga2 ->
  __init__ perm_idx1 hadamard nt1 bs1 testing d1 th1 ph1 ga1 basis1 = ret m1 ->
  __init__ perm_idx2 hadamard nt2 bs2 testing d2 th2 ph2 ga2 basis2 = ret m2 ->
  (init (MkWorld m1 st)).1 = (init (MkWorld m2 st)).1
  /\ np_random (init (MkWorld m1 st)).2 = np_random (init (MkWorld m2 st)).2.
Proof.
  intros Hshape Hth Hph Hga Hm1 Hm2.
  destruct (init_reads _ _ _ _ _ _ _ _ _ _ _ Hm1)
    as (Hu1 & Hl1 & Hh1 & Ht1 & Hth1 & Hph1 & Hga1).
  destruct (init_reads _ _ _ _ _ _ _ _ _ _ _ Hm2)
    as (Hu2 & Hl2 & Hh2 & Ht2 & Hth2 & Hph2 & Hga2).
  rewrite Hshape in Hu1, Hl1.
  apply init_cong; try congruence. lia.
Qed.
End OtherVariants.

Section VariantOutcomeSamples.
#[local] Existing Instance sample_numpy.
#[local] Existing Instance simple_helpers.
Import MeshModel.

(** X11 on a rectangular mesh of four units and two layers with the scalar
    error 2. *)
Lemma variants_draw_one_error_array_witness :
  exists m,
    RectangularMeshModel.__init__ 4 (Some 2%Z) false (PyInt 2) BLOCH
      (named_phase "haar_rect") (named_phase "random_phi")
      (named_phase "random_gamma") = ret m
    /\ built_by_variant m
    /\ is_scalar (bs_error m)
    /\ scalar_value (bs_error m) = Some (float_of_int 2)
    /\ testing m = false /\ use_different_errors m = false
    /\ let r := random_randn (num_layers m) (units m / 2)%Z 7%Z in
       let e := np_multiply (np_scale_r r.1 (float_of_int 2)) (mask m) in
       mzi_error_matrices (MkWorld m 7%Z) = (ret (e, e), MkWorld m r.2).
Proof.
  eexists. split; [reflexivity|].
  match goal with
  | |- built_by_variant ?m /\ _ =>
      assert (built_by_variant m) as Hb
  end.
  { left. exists 4%Z, (Some 2%Z), false, (PyInt 2), BLOCH,
      (named_phase "haar_rect"), (named_phase "random_phi"),
      (named_phase "random_gamma"). reflexivity. }
  split; [exact Hb|]. split; [exact I|]. split; [reflexivity|].
  destruct (variants_draw_one_error_array _ Hb) as (Ht & Hd & Hrun).
  split; [exact Ht|]. split; [exact Hd|].
  exact (proj1 (Hrun 7%Z I) (float_of_int 2) eq_refl).
Defined.

(** X12 at [num_layers = -1]: the provider returns an array without rows
    and [np.ones((-1,))] is refused. *)
Lemma rectangular_negative_layers_witness :
  exists p,
    (-1 < 0)%Z
    /\ grid_permutation 4 (-1) = ret p
    /\ RectangularMeshModel.__init__ 4 (Some (-1)%Z) false (PyFloat (float_of_int 0)) BLOCH
         (named_phase "haar_rect") (named_phase "random_phi")
         (named_phase "random_gamma")
       = raise (ValueError "negative dimensions are not allowed").
Proof.
  eexists. split; [lia|]. split; [reflexivity|].
  eapply (proj1 (proj2 (@rectangular_negative_layers_refused
                          sample_numpy simple_helpers 4 (-1) false
                          (PyFloat (float_of_int 0)) BLOCH (named_phase "haar_rect")
                          (named_phase "random_phi") (named_phase "random_gamma")
                          ltac:(lia)))).
  reflexivity.
Defined.

(** X13 on a rectangular mesh of four units and two layers: the last slot
    of layer 1 is the only one that is not tunable. *)
Lemma rectangular_mask_witness :
  exists perm_idx,
    (2 <= 4)%Z
    /\ requested_layers 4 (Some 2%Z) = Z.of_nat 2
    /\ grid_permutation 4 (Z.of_nat 2) = ret perm_idx
    /\ shape perm_idx = [3; Z.to_nat 4]
    /\ exists m,
         RectangularMeshModel.__init__ 4 (Some 2%Z) false (PyFloat (float_of_int 0)) BLOCH
           (named_phase "haar_rect") (named_phase "random_phi")
           (named_phase "random_gamma") = ret m
         /\ shape (mask m) = [2; Z.to_nat (4 / 2)]
         /\ forall l k, l < 2 -> k < Z.to_nat (4 / 2) ->
              get2 (mask m) l k
              = Some (if decide (Nat.even l = false /\ Z.even 4 = true
                                 /\ k = Z.to_nat (4 / 2) - 1)
                      then float_of_int 0 else float_of_int 1).
Proof.
  eexists. split; [lia|]. split; [reflexivity|]. split; [reflexivity|].
  split; [reflexivity|].
  eapply (rectangular_mask_pattern 4 (Some 2%Z) 2); [lia | reflexivity..].
Defined.

(** X14 on the default rectangular mesh of four units: six devices. *)
Lemma rectangular_total_witness :
  exists perm_idx,
    (2 <= 4)%Z
    /\ requested_layers 4 None = Z.of_nat 4
    /\ grid_permutation 4 (Z.of_nat 4) = ret perm_idx
    /\ shape perm_idx = [5; Z.to_nat 4]
    /\ exists m,
         RectangularMeshModel.__init__ 4 None false (PyFloat (float_of_int 0)) BLOCH
           (named_phase "haar_rect") (named_phase "random_phi")
           (named_phase "random_gamma") = ret m
         /\ total_tunable m
            = (Z.of_nat ((4 + 1) / 2) * (4 / 2) + Z.of_nat (4 / 2) * ((4 - 1) / 2))%Z
         /\ (Z.of_nat 4 = 4%Z -> total_tunable m = (4 * (4 - 1) / 2)%Z).
Proof.
  eexists. split; [lia|]. split; [reflexivity|]. split; [reflexivity|].
  split; [reflexivity|].
  eapply (rectangular_total 4 None 4); [lia | reflexivity..].
Defined.

(** X15 on the triangular mesh of five units: ten devices. *)
Lemma triangular_total_witness :
  exists perm_idx,
    (2 <= 5)%Z
    /\ grid_permutation 5 (2 * 5 - 3)%Z = ret perm_idx
    /\ shape perm_idx = [S (Z.to_nat (2 * 5 - 3)); Z.to_nat 5]
    /\ exists m,
         TriangularMeshModel.__init__ 5 false (PyFloat (float_of_int 0)) BLOCH
           (named_phase "haar_tri") (named_phase "random_phi")
           (named_phase "random_gamma") = ret m
         /\ total_tunable m = (5 * (5 - 1) / 2)%Z.
Proof.
  eexists. split; [lia|]. split; [reflexivity|]. split; [reflexivity|].
  eapply (triangular_total 5); [lia | reflexivity..].
Defined.

(** X16 on the triangular mesh of five units. *)
Lemma triangular_symmetric_witness :
  exists perm_idx,
    (2 <= 5)%Z
    /\ grid_permutation 5 (2 * 5 - 3)%Z = ret perm_idx
    /\ shape perm_idx = [S (Z.to_nat (2 * 5 - 3)); Z.to_nat 5]
    /\ exists m,
         TriangularMeshModel.__init__ 5 false (PyFloat (float_of_int 0)) BLOCH
           (named_phase "haar_tri") (named_phase "random_phi")
           (named_phase "random_gamma") = ret m
         /\ reverse (num_tunable m) = num_tunable m
         /\ Forall (fun c => 1 <= c <= 5 / 2)%Z (num_tunable m).
Proof.
  eexists. split; [lia|]. split; [reflexivity|]. split; [reflexivity|].
  eapply (triangular_counts_symmetric 5); [lia | reflexivity..].
Defined.

(** X17 on explicit block lists: a list with the size -1, and an empty
    list. *)
Lemma permuting_blocks_witness :
  PermutingRectangularMeshModel.resolve_blocks 4 None (Some [2; -1]%Z) (Some [1%Z])
  = ret ([2; -1]%Z, [1%Z])
  /\ Exists (fun b => b < 0)%Z [2; -1]%Z
  /\ PermutingRectangularMeshModel.__init__ 4 None (Some [2; -1]%Z) (Some [1%Z])
       (PyFloat (float_of_int 0)) false (named_phase "haar_prm") (named_phase "random_phi")
       (named_phase "random_gamma")
     = raise (ValueError "negative dimensions are not allowed")
  /\ PermutingRectangularMeshModel.resolve_blocks 4 None (Some []) (Some [])
     = ret ([], [])
  /\ PermutingRectangularMeshModel.__init__ 4 None (Some []) (Some [])
       (PyFloat (float_of_int 0)) false (named_phase "haar_prm") (named_phase "random_phi")
       (named_phase "random_gamma")
     = raise (ValueError "need at least one array to concatenate").
Proof.
  assert (Exists (fun b => b < 0)%Z [2; -1]%Z) as Hneg.
  { apply Exists_cons_tl, Exists_cons_hd. lia. }
  split; [reflexivity|]. split; [exact Hneg|]. split; [|split; [reflexivity|]].
  - exact (proj1 (proj2 (@permuting_blocks_are_checked sample_numpy simple_helpers
                           4 None (Some [2; -1]%Z) (Some [1%Z])
                           (PyFloat (float_of_int 0)) false (named_phase "haar_prm")
                           (named_phase "random_phi") (named_phase "random_gamma")
                           [2; -1]%Z [1%Z] eq_refl)) Hneg).
  - exact (proj1 (@permuting_blocks_are_checked sample_numpy simple_helpers
                    4 None (Some []) (Some [])
                    (PyFloat (float_of_int 0)) false (named_phase "haar_prm")
                    (named_phase "random_phi") (named_phase "random_gamma")
                    [] [] eq_refl) eq_refl).
Defined.

(** X18 on the butterfly mesh of three layers: eight units, twelve
    devices. *)
Lemma butterfly_layout_witness :
  exists perm_idx,
    butterfly_permutation 3 = ret perm_idx
    /\ shape perm_idx = [4; 8]
    /\ 2 <= 8
    /\ exists m,
         ButterflyMeshModel.__init__ 3 false (PyFloat (float_of_int 0)) BLOCH
           (named_phase "random_theta") (named_phase "random_phi")
           (named_phase "random_gamma") = ret m
         /\ num_layers m = Z.of_nat 3 /\ units m = Z.of_nat 8
         /\ num_tunable m = replicate 3 (Z.of_nat (8 / 2))
         /\ total_tunable m = (Z.of_nat 3 * Z.of_nat (8 / 2))%Z
         /\ forall l k, l < 3 -> k < 8 / 2 ->
              get2 (mask m) l k = Some (float_of_int 1).
Proof.
  eexists. split; [reflexivity|]. split; [reflexivity|]. split; [lia|].
  eapply (proj2 (@butterfly_layout sample_numpy simple_helpers 3 false
                   (PyFloat (float_of_int 0)) BLOCH
                   (named_phase "random_theta") (named_phase "random_phi")
                   (named_phase "random_gamma") _ 3 8 eq_refl eq_refl)).
  lia.
Defined.

(** X19 on two models of the same shape that differ in [num_tunable],
    [bs_error], [use_different_errors], [basis] and the function of the
    theta argument, read from one generator state. *)
Lemma init_depends_witness :
  exists m1 m2,
    sample_model (zeros_perm 3 4) (Some [2%Z; 1%Z]) (PyInt 2) false true = ret m1
    /\ __init__ (NdArray [3; 4] (Z.of_nat <$> seq 0 12)) false None
         (PyArray sample_errors) false false
         (@WithFn sample_numpy simple_helpers (InitName "random_theta") tt)
         (named_phase "random_phi") (named_phase "random_gamma") "sm" = ret m2
    /\ (init (MkWorld m1 7%Z)).1 = (init (MkWorld m2 7%Z)).1
    /\ np_random (init (MkWorld m1 7%Z)).2 = np_random (init (MkWorld m2 7%Z)).2.
Proof.
  do 2 eexists. split; [reflexivity|]. split; [reflexivity|].
  eapply (@init_depends_on_shape_and_names sample_numpy simple_helpers
            (zeros_perm 3 4) (NdArray [3; 4] (Z.of_nat <$> seq 0 12)) false false
            (Some [2%Z; 1%Z]) None (PyInt 2) (PyArray sample_errors) true false
            (named_phase "random_theta") (named_phase "random_phi")
            (named_phase "random_gamma")
            (@WithFn sample_numpy simple_helpers (InitName "random_theta") tt)
            (named_phase "random_phi") (named_phase "random_gamma") BLOCH "sm"
            _ _ 7%Z);
    reflexivity.
Defined.
End VariantOutcomeSamples.
